(** * VSLA SMS report bot: a shallow embedding of [fullBot.py] and [index.py]

    The repository holds two scripts that serve the same SMS questionnaire
    through a GSM modem on a serial line.  [fullBot.py] is the complete
    variant (language choice, seventeen groups, seven questions, retried
    sends, unconditional deletion of a handled message); [index.py] is the
    short variant (no language step, five questions, one send attempt).

    Both are embedded here as pure functions over an explicit world: the
    session dictionary, the report file, and the serial port with the
    modem's answers given by an oracle.  Python exceptions are results
    ([Raised]), never silently dropped.

    Modelling conventions.
    - A Python [str] is a [string] whose characters are read as the code
      points U+0000..U+00FF; the classification of characters
      ([isspace], [isdigit], line boundaries, [lower]) is CPython's,
      restricted to that range.
    - [time.time()] is an integer number of seconds supplied by the caller,
      [datetime.now().strftime(...)] a string supplied by the caller.
    - The handlers run one message at a time; the interleavings of the
      worker threads are not modelled. *)

From Stdlib Require Import ZArith NArith Ascii String List Bool Lia.
From stdpp Require Import base option list gmap strings.

Local Open Scope Z_scope.

(** ** Python exceptions and results *)

Inductive exn : Type :=
| ValueError
| KeyError
| IndexError
| SerialException.

Inductive result (A : Type) : Type :=
| Returned (a : A)
| Raised (e : exn).

Arguments Returned {A} a.
Arguments Raised {A} e.

(** ** Code that changes a state and may raise

    A computation takes the state and gives back a result and the state
    it leaves, also when it raises: what was changed before the
    exception stays changed. *)

Module Exec.

Definition M (S A : Type) : Type := S -> result A * S.

Definition ret {S A : Type} (a : A) : M S A := fun s => (Returned a, s).

Definition raise {S A : Type} (e : exn) : M S A := fun s => (Raised e, s).

Definition bind {S A B : Type} (k : A -> M S B) (m : M S A) : M S B :=
  fun s =>
    match m s with
    | (Returned a, s') => k a s'
    | (Raised e, s') => (Raised e, s')
    end.

(** A pure step that may raise. *)
Definition lift {S A : Type} (r : result A) : M S A := fun s => (r, s).

Definition get {S : Type} : M S S := fun s => (Returned s, s).

Definition modify {S : Type} (f : S -> S) : M S unit :=
  fun s => (Returned tt, f s).

(** [try: m] with [except Exception: h] around it. *)
Definition catch {S A : Type} (m : M S A) (h : M S A) : M S A :=
  fun s =>
    match m s with
    | (Returned a, s') => (Returned a, s')
    | (Raised _, s') => h s'
    end.

(** [try: m] with [except Exception:] around it, the handler only
    printing. *)
Definition swallow {S A : Type} (m : M S A) : M S unit :=
  fun s => (Returned tt, (m s).2).

End Exec.

#[global] Instance exec_ret {S : Type} : MRet (Exec.M S) := fun A => Exec.ret.
#[global] Instance exec_bind {S : Type} : MBind (Exec.M S) := fun A B => Exec.bind.

(** Results alone: a pure computation that may raise. *)
Definition rbind {A B : Type} (r : result A) (k : A -> result B) : result B :=
  match r with
  | Returned a => k a
  | Raised e => Raised e
  end.

(** [try: r] with [except: h]. *)
Definition rcatch {A : Type} (r h : result A) : result A :=
  match r with
  | Returned a => Returned a
  | Raised _ => h
  end.

(** ** The [str] methods the scripts call *)

Module Str.

Definition code (c : ascii) : N := N_of_ascii c.

Definition between (lo hi : N) (c : ascii) : bool :=
  ((lo <=? code c) && (code c <=? hi))%N.

(** [str.isspace] per character: TAB..CR, FS..US, SPACE, NEL, NBSP. *)
Definition isspace_c (c : ascii) : bool :=
  between 9 13 c || between 28 32 c || (code c =? 133)%N || (code c =? 160)%N.

(** Characters with a decimal value: the digits 0..9. *)
Definition isdecimal_c (c : ascii) : bool := between 48 57 c.

(** [str.isdigit] per character, for the characters U+0000..U+00FF of
    this development: the decimal digits and the superscript digits
    U+00B2, U+00B3, U+00B9.  (The digits of other scripts, which
    [str.isdigit] takes as well, are not among these characters.) *)
Definition isdigit_c (c : ascii) : bool :=
  isdecimal_c c || (code c =? 178)%N || (code c =? 179)%N || (code c =? 185)%N.

(** Line boundaries of [str.splitlines]: LF, VT, FF, CR, FS, GS, RS, NEL. *)
Definition islinebreak_c (c : ascii) : bool :=
  between 10 13 c || between 28 30 c || (code c =? 133)%N.

(** [str.lower] per character: A..Z and U+00C0..U+00DE except U+00D7. *)
Definition lower_c (c : ascii) : ascii :=
  if between 65 90 c || (between 192 222 c && negb (code c =? 215)%N)
  then ascii_of_N (code c + 32)
  else c.

Fixpoint lower (s : string) : string :=
  match s with
  | EmptyString => EmptyString
  | String c s' => String (lower_c c) (lower s')
  end.

Fixpoint all_c (p : ascii -> bool) (s : string) : bool :=
  match s with
  | EmptyString => true
  | String c s' => p c && all_c p s'
  end.

(** [s.isdigit()]: at least one character, and all of them digits. *)
Definition isdigit (s : string) : bool :=
  match s with
  | EmptyString => false
  | _ => all_c isdigit_c s
  end.

Fixpoint lstrip (s : string) : string :=
  match s with
  | EmptyString => EmptyString
  | String c s' => if isspace_c c then lstrip s' else s
  end.

Fixpoint rstrip (s : string) : string :=
  match s with
  | EmptyString => EmptyString
  | String c s' =>
      match rstrip s' with
      | EmptyString => if isspace_c c then EmptyString else String c EmptyString
      | r => String c r
      end
  end.

(** [s.strip()] *)
Definition strip (s : string) : string := rstrip (lstrip s).

(** [s.startswith(p)] *)
Definition startswith (p s : string) : bool := String.prefix p s.

(** [needle in hay] *)
Fixpoint contains (needle hay : string) : bool :=
  String.prefix needle hay ||
  match hay with
  | EmptyString => false
  | String _ hay' => contains needle hay'
  end.

(** [s.split(sep)] for a one-character separator. *)
Fixpoint split (sep : ascii) (s : string) : list string :=
  match s with
  | EmptyString => [EmptyString]
  | String c s' =>
      if Ascii.eqb c sep then EmptyString :: split sep s'
      else match split sep s' with
           | [] => [String c EmptyString]
           | f :: fs => String c f :: fs
           end
  end.

(** [s.replace(old, new)] for a one-character [old]. *)
Fixpoint replace (old : ascii) (new : string) (s : string) : string :=
  match s with
  | EmptyString => EmptyString
  | String c s' =>
      if Ascii.eqb c old then new +:+ replace old new s'
      else String c (replace old new s')
  end.

(** [s.splitlines()]: CR LF counts as one boundary, and a final
    boundary opens no further line. *)
Fixpoint splitlines (s : string) : list string :=
  match s with
  | EmptyString => []
  | String c s' =>
      if islinebreak_c c then
        EmptyString ::
          match s' with
          | String d s'' =>
              if (code c =? 13)%N && (code d =? 10)%N
              then splitlines s'' else splitlines s'
          | EmptyString => []
          end
      else match splitlines s' with
           | [] => [String c EmptyString]
           | l :: ls => String c l :: ls
           end
  end.

(** The number a string of decimal digits denotes. *)
Fixpoint decimal_acc (acc : Z) (s : string) : Z :=
  match s with
  | EmptyString => acc
  | String c s' => decimal_acc (10 * acc + (Z.of_N (code c) - 48)) s'
  end.

Definition decimal_value (s : string) : Z := decimal_acc 0 s.

(** The number of digits [int] converts at most: the interpreter's
    default, [sys.int_info.default_max_str_digits] (CPython 3.11, and
    the security releases of 3.7 to 3.10); the scripts do not change
    it. *)
Definition MAX_STR_DIGITS : Z := 4300.

(** [int(s)] as the scripts reach it, that is on an [s] with
    [s.isdigit()]: there must be a character, every character must have
    a decimal value, and there must be no more than [MAX_STR_DIGITS] of
    them, leading zeros counted; else [ValueError]. *)
Definition int (s : string) : result Z :=
  match s with
  | EmptyString => Raised ValueError
  | _ =>
      if all_c isdecimal_c s && (Z.of_nat (String.length s) <=? MAX_STR_DIGITS)
      then Returned (decimal_value s)
      else Raised ValueError
  end.

(** [l[i]] with Python's negative indices. *)
Definition getitem {A : Type} (l : list A) (i : Z) : result A :=
  let j := if i <? 0 then Z.of_nat (length l) + i else i in
  if j <? 0 then Raised IndexError
  else match l !! Z.to_nat j with
       | Some x => Returned x
       | None => Raised IndexError
       end.

End Str.

(** ** Dictionaries

    A [dict] keyed by strings is a [gmap]; the order in which Python
    walks its items plays no part in what the scripts compute. *)

Module Dict.

(** [del m[p]] *)
Definition del {A : Type} (p : string) (m : gmap string A)
    : result (gmap string A) :=
  match m !! p with
  | Some _ => Returned (delete p m)
  | None => Raised KeyError
  end.

(** [for p in l: del m[p]] *)
Definition del_all {A : Type} (l : list string) (m : gmap string A)
    : result (gmap string A) :=
  foldl (fun r p => rbind r (del p)) (Returned m) l.

(** [[p for p, s in m.items() if f(s)]] *)
Definition keys_where {A : Type} (f : A -> bool) (m : gmap string A)
    : list string :=
  (List.filter (fun ps => f ps.2) (map_to_list m)).*1.

End Dict.

(** ** Text constants *)

Definition NL : string := String "010" EmptyString.
Definition QUOTE : ascii := "034"%char.

(** [s] between quote characters. *)
Definition quoted (s : string) : string :=
  String QUOTE s +:+ String QUOTE EmptyString.

(** The lines of a message text, joined by LF. *)
Fixpoint join_nl (l : list string) : string :=
  match l with
  | [] => EmptyString
  | [x] => x
  | x :: rest => x +:+ NL +:+ join_nl rest
  end.

(** ** The serial port and the modem behind it

    One exchange is what the scripts do in one go with the port: write,
    wait, read back what arrived.  The modem's side is an oracle: the
    [n]-th exchange either fails with an I/O error or reads back some
    text.  The port records, in order, what each exchange set out to
    write, also when the exchange then fails. *)

Module Serial.

Inductive reply : Type :=
| Fault
| Data (resp : string).

Inductive wire_event : Type :=
| Command (cmd : string)
| Compose (recipient body : string).

Record port : Type := Port {
  modem : nat -> reply;
  exchanges : nat;
  wire : list wire_event
}.

Definition exchange (e : wire_event) (p : port) : reply * port :=
  (modem p (exchanges p),
   Port (modem p) (S (exchanges p)) (wire p ++ [e])).

(** An exchange as a computation on the port: an I/O error raises. *)
Definition transact (e : wire_event) : Exec.M port string :=
  fun p =>
    match exchange e p with
    | (Data resp, p') => (Returned resp, p')
    | (Fault, p') => (Raised SerialException, p')
    end.

Definition is_compose (e : wire_event) : bool :=
  match e with Compose _ _ => true | Command _ => false end.

(** How many times a message was written to the modem. *)
Definition attempts (p : port) : nat := length (List.filter is_compose (wire p)).

(** The modem gives no success token in the next [n] exchanges: each
    fails, or reads back a text that [token] rejects. *)
Definition silent (token : string -> bool) (p : port) (n : nat) : Prop :=
  forall k, (k < n)%nat ->
    match modem p (exchanges p + k) with
    | Data resp => token resp = false
    | Fault => True
    end.

(** [phone] with the international marker in front. *)
Definition with_plus (phone : string) : string :=
  if Str.startswith "+" phone then phone else "+" +:+ phone.

End Serial.

(** A call of [send_sms], with what it returned. *)
Record sms_call : Type := SmsCall {
  to : string;
  body : string;
  sent : bool
}.

Definition requests (l : list sms_call) : list (string * string) :=
  map (fun c => (to c, body c)) l.

(** An inbound message as [read_sms] builds it. *)
Record message : Type := Message {
  index : string;
  phone : string;
  content : string
}.

(** * fullBot.py *)

Module FullBot.

Definition SESSION_TIMEOUT : Z := 40 * 60.

Definition groupNames : list string :=
  [ EmptyString; "Mkama"; "Chilulu"; "Chimnyanga"; "Tchesamu"; "Emcizini";
    "Mkamaumoza"; "Kabira"; "Chambizi"; "Kanjuchi"; "Tiphunzire";
    "Kanyenda"; "Chivunguti"; "Ukwe"; "Mvunguti"; "Chimbiya";
    "Lisasadzi"; "Kanjeza" ].

(** The keys of [followup_questions] and [group_list_parts]. *)
Inductive language : Type := english | chichewa | tumbuka.

Definition lang_key (l : language) : string :=
  match l with
  | english => "english"
  | chichewa => "chichewa"
  | tumbuka => "tumbuka"
  end.

(** The question texts are written as in the source file; a letter
    outside U+0000..U+00FF stands as its UTF-8 bytes. *)
Definition followup_questions (l : language) : list string :=
  match l with
  | english =>
      [ "Number of members present today";
        "Amount of shares collected today";
        "Amount of social fund collected today";
        "Amount borrowed today";
        "Amount repaid today";
        "Interest paid today";
        "Amount paid for penalties (latecomers and absentees)" ]
  | chichewa =>
      [ "Anthu omwe anabwera lero";
        "Ndalama za ma sheya zotoleledwa lero";
        "Ndalama zadzidzidzi zatoleredwa lero";
        "Ndalama zomwe zabwerekedwa";
        "Ndalama zomwe zabwenzedwa";
        "Ndalama za chiongola dzanja yomwe yapelekedwa lero";
        "Ndalama za chilango zomwe zaperekedwa (ochedwa ndi ojomba)" ]
  | tumbuka =>
      [ "Nambala ya ŵanthu agha wangwiza mwahuno ku gulu";
        "Ndalama ya masheya iyo yasonkheka yamwahuno";
        "Ndalama ya zizizi iyo yasonkheka yamwahuno";
        "Ndalama iyo yabwerekeka mwahuno";
        "Ndalama za ngongoli izo zawezgeka";
        "Ndalama ya interest iyo yasonkheka mwahuno";
        "Ndalama iyo yasonkheka lero mu vilango/kubuda" ]
  end.

Definition LANGUAGE_MENU : string :=
  join_nl [ "Choose your language:"; "1. English"; "2. Chichewa";
            "3. Chitumbuka" ].

Definition group_rows_1 : list string :=
  [ "1.  Mkama"; "2.  Chilulu"; "3.  Chimnyanga"; "4.  Tchesamu";
    "5.  Emcizini"; "6.  Mkamaumoza"; "7.  Kabira"; "8.  Chambizi" ].

Definition group_rows_2 : list string :=
  [ "9.  Kanjuchi"; "10. Tiphunzire"; "11. Kanyenda"; "12. Chivunguti";
    "13. Ukwe"; "14. Mvunguti"; "15. Chimbiya"; "16. Lisasadzi";
    "17. Kanjeza" ].

Definition group_list_parts (l : language) : string * string :=
  match l with
  | english =>
      (join_nl ("Choose your group number from the list below:"
                :: EmptyString :: group_rows_1),
       join_nl group_rows_2)
  | chichewa | tumbuka =>
      (join_nl ("Sankhani nambala la gulu yanu:"
                :: EmptyString :: group_rows_1),
       join_nl group_rows_2)
  end.

Definition THANK_YOU : string :=
  "Thank you! Your report has been received and saved.".

(** The value of [sessions[phone]]: [lang] and [group] start as [None]. *)
Record session : Type := Session {
  step : Z;
  lang : option language;
  answers : list string;
  group : option string;
  last_active : Z
}.

Record world : Type := World {
  sessions : gmap string session;
  csv_file : option (list (list string));
  port : Serial.port;
  outbox : list sms_call
}.

Abbreviation M := (Exec.M world).

Definition set_sessions (m : gmap string session) (w : world) : world :=
  World m (csv_file w) (port w) (outbox w).

Definition set_csv (f : option (list (list string))) (w : world) : world :=
  World (sessions w) f (port w) (outbox w).

Definition set_port (p : Serial.port) (w : world) : world :=
  World (sessions w) (csv_file w) p (outbox w).

Definition set_step (k : Z) (s : session) : session :=
  Session k (lang s) (answers s) (group s) (last_active s).

Definition set_lang (l : option language) (s : session) : session :=
  Session (step s) l (answers s) (group s) (last_active s).

Definition set_group (g : option string) (s : session) : session :=
  Session (step s) (lang s) (answers s) g (last_active s).

Definition append_answer (a : string) (s : session) : session :=
  Session (step s) (lang s) (answers s ++ [a]) (group s) (last_active s).

Definition touch (now : Z) (s : session) : session :=
  Session (step s) (lang s) (answers s) (group s) now.

(** [sessions[phone]]: a missing key is a [KeyError]. *)
Definition get_session (phone : string) : M session :=
  fun w =>
    match sessions w !! phone with
    | Some s => (Returned s, w)
    | None => (Raised KeyError, w)
    end.

(** [sessions[phone][field] = value]: the entry is changed in place. *)
Definition update_session (phone : string) (f : session -> session)
    : M unit :=
  s ← get_session phone;
  Exec.modify (fun w => set_sessions (<[phone := f s]> (sessions w)) w).

(** A computation on the serial port, run on the world's port. *)
Definition on_port {A : Type} (m : Exec.M Serial.port A) : M A :=
  fun w => let '(r, p') := m (port w) in (r, set_port p' w).

(** *** Serial helpers *)

Definition send_at_command (command : string) : Exec.M Serial.port string :=
  Serial.transact (Serial.Command command).

Definition success_token (resp : string) : bool :=
  Str.contains "OK" resp || Str.contains "+CMGS" resp.

(** The [for attempt in range(retries)] loop of [send_sms].  One
    attempt is one exchange: the three writes and the read.  An attempt
    that reads the token returns [True]; one that does not, or that
    raises (the exception is caught and printed), goes on to the
    next. *)
Fixpoint send_loop (retries : nat) (phone message : string)
    (p : Serial.port) : bool * Serial.port :=
  match retries with
  | O => (false, p)
  | S r =>
      let phone_s := Serial.with_plus phone in
      match Serial.exchange (Serial.Compose phone_s message) p with
      | (Serial.Data resp, p') =>
          if success_token resp then (true, p')
          else send_loop r phone message p'
      | (Serial.Fault, p') => send_loop r phone message p'
      end
  end.

(** The default of [retries]. *)
Definition MAX_RETRIES : nat := 3.

(** [send_sms(ser, phone, message)] with the default [retries=3]; the
    call and its outcome are noted in [outbox]. *)
Definition send_sms (phone message : string) : M bool :=
  fun w =>
    let '(ok, p') := send_loop MAX_RETRIES phone message (port w) in
    (Returned ok,
     World (sessions w) (csv_file w) p'
           (outbox w ++ [SmsCall phone message ok])).

Definition delete_sms (idx : string) : Exec.M Serial.port unit :=
  _ ← send_at_command ("AT+CMGD=" +:+ idx); mret tt.

(** *** Reading the unread messages *)

(** One round of the [while i < len(lines)] loop per unit of fuel;
    [None] when the fuel runs out before the loop ends. *)
Fixpoint read_loop (fuel : nat) (lines : list string) (i : Z)
    (msgs : list message) : option (result (list message)) :=
  if i <? Z.of_nat (length lines) then
    match fuel with
    | O => None
    | S fuel' =>
        match rbind (Str.getitem lines i) (fun l => Returned (Str.strip l)) with
        | Raised e => Some (Raised e)
        | Returned line =>
            if Str.startswith "+CMGL:" line then
              let parts := Str.split "," line in
              let r :=
                rbind
                  (rcatch
                     (rbind (Str.getitem (Str.split ":" line) 1) (fun a =>
                      rbind (Str.getitem (Str.split "," a) 0) (fun b =>
                      Returned (Str.strip b))))
                     (rbind (Str.getitem parts 0) (fun a =>
                      rbind (Str.getitem (Str.split ":" a) 1) (fun b =>
                      Returned (Str.strip b)))))
                  (fun idx =>
                rbind
                  (if 3 <=? Z.of_nat (length parts)
                   then rbind (Str.getitem parts 2) (fun a =>
                        Returned (Str.strip (Str.replace QUOTE EmptyString a)))
                   else Returned EmptyString)
                  (fun ph =>
                rbind
                  (if i + 1 <? Z.of_nat (length lines)
                   then rbind (Str.getitem lines (i + 1)) (fun a =>
                        Returned (Str.strip a))
                   else Returned EmptyString)
                  (fun body =>
                Returned (Message idx ph body))))
              in
              match r with
              | Raised e => Some (Raised e)
              | Returned m => read_loop fuel' lines (i + 1 + 1) (msgs ++ [m])
              end
            else read_loop fuel' lines (i + 1) msgs
        end
    end
  else Some (Returned msgs).

(** The part of [read_sms] after the modem has answered [out]. *)
Definition parse_unread (out : string) : option (result (list message)) :=
  let lines := Str.splitlines out in
  read_loop (length lines) lines 0 [].

Definition LIST_UNREAD : string :=
  "AT+CMGL=" +:+ quoted "REC UNREAD".

(** [read_sms(ser)], given enough fuel for the loop. *)
Definition read_sms : Exec.M Serial.port (option (list message)) :=
  fun p =>
    match send_at_command LIST_UNREAD p with
    | (Raised e, p') => (Raised e, p')
    | (Returned out, p') =>
        match parse_unread out with
        | None => (Returned None, p')
        | Some (Returned msgs) => (Returned (Some msgs), p')
        | Some (Raised e) => (Raised e, p')
        end
    end.

(** *** The report file *)

Definition CSV_HEADER : list string :=
  [ "Phone"; "Language"; "Group"; "Members"; "Shares"; "SocialFund";
    "LoansTaken"; "LoansRepaid"; "Interest"; "Penalties"; "Timestamp" ].

(** [answers[k] if len(answers) > k else ""] *)
Definition answer_cell (answers : list string) (k : nat) : string :=
  default EmptyString (answers !! k).

(** The row [save_to_csv] writes; [None] is written as an empty cell. *)
Definition report_row (phone : string) (lang : option language)
    (group_name : option string) (answers : list string) (stamp : string)
    : list string :=
  [ phone; default EmptyString (lang_key <$> lang);
    default EmptyString group_name;
    answer_cell answers 0; answer_cell answers 1; answer_cell answers 2;
    answer_cell answers 3; answer_cell answers 4; answer_cell answers 5;
    answer_cell answers 6; stamp ].

(** [save_to_csv]: a file that does not exist yet gets the header row
    first.  Faults of the file system are not modelled. *)
Definition save_to_csv (phone : string) (lang : option language)
    (group_name : option string) (answers : list string) (stamp : string)
    : M unit :=
  Exec.modify (fun w =>
    let row := report_row phone lang group_name answers stamp in
    set_csv (Some (match csv_file w with
                   | None => [CSV_HEADER; row]
                   | Some rows => rows ++ [row]
                   end)) w).

(** *** The message handler *)

Definition new_session (now : Z) : session := Session (-1) None [] None now.

(** [followup_questions[lang]] and [group_list_parts[lang]]: [None] is
    not a key. *)
Definition questions_for (l : option language) : M (list string) :=
  match l with
  | Some l => mret (followup_questions l)
  | None => Exec.raise KeyError
  end.

Definition group_list_for (l : option language) : M (string * string) :=
  match l with
  | Some l => mret (group_list_parts l)
  | None => Exec.raise KeyError
  end.

Definition language_choice (text : string) : option language :=
  if String.eqb text "1" then Some english
  else if String.eqb text "2" then Some chichewa
  else if String.eqb text "3" then Some tumbuka
  else None.

(** [text.isdigit() and 1 <= int(text) <= 17]: [int] is reached only
    when [isdigit] holds, and may raise. *)
Definition group_number_ok (text : string) : M bool :=
  if Str.isdigit text
  then gid ← Exec.lift (Str.int text); mret ((1 <=? gid) && (gid <=? 17))
  else mret false.

(** [handle_message(ser, phone, text)], run at time [now]; [stamp] is the
    time stamp a report written in this run gets.  What [send_sms]
    returns is not looked at. *)
Definition handle_message (phone text0 : string) (now : Z) (stamp : string)
    : M unit :=
  let text := Str.strip text0 in
  w ← Exec.get;
  let session_exists := bool_decide (is_Some (sessions w !! phone)) in
  if negb session_exists && negb (Str.contains "vsla" (Str.lower text))
  then mret tt
  else
    (* get or create the session *)
    let session := touch now (default (new_session now) (sessions w !! phone)) in
    _ ← Exec.modify (fun w => set_sessions (<[phone := session]> (sessions w)) w);
    let step := step session in
    let lang := lang session in
    if step =? -1 then
      (* language selection *)
      match language_choice text with
      | None => _ ← send_sms phone LANGUAGE_MENU; mret tt
      | Some l =>
          _ ← update_session phone (set_lang (Some l));
          _ ← update_session phone (set_step 0);
          '(p1, p2) ← group_list_for (Some l);
          _ ← send_sms phone p1;
          _ ← send_sms phone p2;
          mret tt
      end
    else if step =? 0 then
      (* group number *)
      valid ← group_number_ok text;
      if (valid : bool) then
        gid ← Exec.lift (Str.int text);
        group ← Exec.lift (Str.getitem groupNames gid);
        _ ← update_session phone (set_group (Some group));
        _ ← update_session phone (set_step 1);
        qs ← questions_for lang;
        q ← Exec.lift (Str.getitem qs 0);
        _ ← send_sms phone q;
        mret tt
      else
        '(p1, p2) ← group_list_for lang;
        _ ← send_sms phone ("Invalid group number. " +:+ p1);
        _ ← send_sms phone p2;
        mret tt
    else if (1 <=? step) && (step <=? 7) then
      (* follow-up answers *)
      if Str.isdigit text then
        _ ← update_session phone (append_answer text);
        _ ← update_session phone (fun s => set_step (FullBot.step s + 1) s);
        s ← get_session phone;
        let next_step := FullBot.step s in
        let lang_now := FullBot.lang s in
        if next_step <=? 7 then
          qs ← questions_for lang_now;
          q ← Exec.lift (Str.getitem qs (next_step - 1));
          _ ← send_sms phone q;
          mret tt
        else
          s ← get_session phone;
          let answers := FullBot.answers s in
          let group_name := FullBot.group s in
          let lang_now := FullBot.lang s in
          _ ← Exec.modify (fun w => set_sessions (delete phone (sessions w)) w);
          _ ← save_to_csv phone lang_now group_name answers stamp;
          _ ← send_sms phone THANK_YOU;
          mret tt
      else
        qs ← questions_for lang;
        q ← Exec.lift (Str.getitem qs (step - 1));
        _ ← send_sms phone ("Invalid number. " +:+ q);
        mret tt
    else mret tt.

(** *** The worker *)

(** [process_message]: whatever [handle_message] raises is caught and
    printed, and the [finally] clause deletes the message on the modem;
    a failure of the deletion is caught and printed as well. *)
Definition process_message (msg : message) (now : Z) (stamp : string)
    : M unit :=
  _ ← Exec.swallow (handle_message (phone msg) (content msg) now stamp);
  Exec.swallow (on_port (delete_sms (index msg))).

(** *** The reaper *)

(** [[p for p, s in sessions.items() if now - s["last_active"] > SESSION_TIMEOUT]] *)
Definition expired_keys (now : Z) (m : gmap string session) : list string :=
  Dict.keys_where (fun s => SESSION_TIMEOUT <? now - last_active s) m.

(** One round of the [while True] loop of [cleanup_sessions], at time
    [now]. *)
Definition cleanup_sweep (now : Z) (m : gmap string session)
    : result (gmap string session) :=
  Dict.del_all (expired_keys now m) m.

Definition cleanup_sessions (now : Z) : M unit :=
  fun w =>
    match cleanup_sweep now (sessions w) with
    | Returned m' => (Returned tt, set_sessions m' w)
    | Raised e => (Raised e, w)
    end.

(** *** The polling loop *)

(** One round of the [while True] loop of [main]: the messages a worker
    thread is started for.  Whatever [read_sms] raises is caught and
    printed, and the round starts no worker. *)
Definition main_round : Exec.M Serial.port (option (list message)) :=
  Exec.catch read_sms (mret (Some [])).

End FullBot.

(** * index.py *)

Module Index.

Definition SESSION_TIMEOUT : Z := 40 * 60.

Definition groupNames : list string :=
  [ EmptyString;
    "Mkama H&C Women's Group"; "Chilulu H&C Women's Group";
    "Chimnyanga H&C Women's Group"; "Tchesamu H&C Women's Group";
    "Emcizini H&C Women's Group"; "Mkamaumoza H&C Women's Group";
    "Kabira H&C Women's Group"; "Chambizi H&C Women's Group";
    "Kanjuchi H&C Womens Savings"; "Tiphunzire nawo Women's Group";
    "Kanyenda Bank Mkhonde"; "Chivunguti Bank Mkhonde";
    "Ukwe Bank Mkhonde"; "Mvunguti Bank Mkhonde";
    "Chimbiya H&C Women's Group"; "Lisasadzi Bank Mkhonde";
    "Kanjeza H&C Women's Group" ].

(** The value of [sessions[phone]]; [data] is the dictionary of the
    answers given so far. *)
Record session : Type := Session {
  step : Z;
  data : gmap string string;
  last_active : Z
}.

Record world : Type := World {
  sessions : gmap string session;
  csv_file : option (list (list string));
  port : Serial.port
}.

Abbreviation M := (Exec.M world).

Definition set_sessions (m : gmap string session) (w : world) : world :=
  World m (csv_file w) (port w).

Definition set_csv (f : option (list (list string))) (w : world) : world :=
  World (sessions w) f (port w).

Definition set_port (p : Serial.port) (w : world) : world :=
  World (sessions w) (csv_file w) p.

Definition set_step (k : Z) (s : session) : session :=
  Session k (data s) (last_active s).

Definition set_data (key value : string) (s : session) : session :=
  Session (step s) (<[key := value]> (data s)) (last_active s).

Definition touch (now : Z) (s : session) : session :=
  Session (step s) (data s) now.

(** [session[field] = value], where [session] is the very object held
    in [sessions[phone]]: the write shows in the store. *)
Definition write_session (phone : string) (f : session -> session)
    : M unit :=
  Exec.modify (fun w => set_sessions (alter f phone (sessions w)) w).

Definition on_port {A : Type} (m : Exec.M Serial.port A) : M A :=
  fun w => let '(r, p') := m (port w) in (r, set_port p' w).

(** *** Serial helpers *)

Definition send_at_command (command : string) : Exec.M Serial.port string :=
  Serial.transact (Serial.Command command).

Definition success_token (resp : string) : bool :=
  Str.contains "OK" resp || Str.contains ">" resp.

(** [send_sms]: the text-mode command, then one write of the message
    and one read; nothing is caught and nothing is tried again. *)
Definition send_sms (phone message : string) : Exec.M Serial.port bool :=
  _ ← send_at_command "AT+CMGF=1";
  resp ← Serial.transact (Serial.Compose (Serial.with_plus phone) message);
  mret (success_token resp).

Definition mark_sms_as_read (idx : string) : Exec.M Serial.port unit :=
  _ ← send_at_command ("AT+CMGD=" +:+ idx +:+ ",1"); mret tt.

(** *** Reading the unread messages *)

Fixpoint read_loop (fuel : nat) (lines : list string) (i : Z)
    (messages : list message) : option (result (list message)) :=
  if i <? Z.of_nat (length lines) then
    match fuel with
    | O => None
    | S fuel' =>
        match rbind (Str.getitem lines i) (fun l => Returned (Str.strip l)) with
        | Raised e => Some (Raised e)
        | Returned line =>
            if Str.startswith "+CMGL:" line then
              let parts := Str.split "," line in
              let r :=
                rbind
                  (rbind (Str.getitem parts 0) (fun a =>
                   rbind (Str.getitem (Str.split ":" a) 1) (fun b =>
                   Returned (Str.strip b))))
                  (fun idx =>
                rbind
                  (rbind (Str.getitem parts 2) (fun a =>
                   Returned (Str.strip (Str.replace QUOTE EmptyString a))))
                  (fun ph =>
                rbind
                  (rbind (Str.getitem lines (i + 1)) (fun a =>
                   Returned (Str.strip a)))
                  (fun body =>
                Returned (Message idx ph body))))
              in
              match r with
              | Raised e => Some (Raised e)
              | Returned m =>
                  read_loop fuel' lines (i + 1 + 1) (messages ++ [m])
              end
            else read_loop fuel' lines (i + 1) messages
        end
    end
  else Some (Returned messages).

(** The part of [read_sms] after the modem has answered [resp]. *)
Definition parse_unread (resp : string) : option (result (list message)) :=
  let lines := Str.splitlines resp in
  read_loop (length lines) lines 0 [].

Definition LIST_UNREAD : string :=
  "AT+CMGL=" +:+ quoted "REC UNREAD".

Definition read_sms : Exec.M Serial.port (option (list message)) :=
  _ ← send_at_command "AT+CMGF=1";
  resp ← send_at_command LIST_UNREAD;
  match parse_unread resp with
  | None => mret None
  | Some r => msgs ← Exec.lift r; mret (Some msgs)
  end.

(** *** The report file *)

Definition CSV_HEADER : list string :=
  [ "Phone"; "Group"; "Amount Saved"; "Attendance"; "Social Fund";
    "Loans Taken"; "Loans Repaid"; "Timestamp" ].

(** [data[key]] *)
Definition field (d : gmap string string) (key : string) : result string :=
  match d !! key with
  | Some v => Returned v
  | None => Raised KeyError
  end.

Definition report_row (d : gmap string string) (stamp : string)
    : result (list string) :=
  rbind (field d "phone") (fun a =>
  rbind (field d "group_name") (fun b =>
  rbind (field d "amount_saved") (fun c =>
  rbind (field d "attendance") (fun e =>
  rbind (field d "social_fund") (fun f =>
  rbind (field d "loans_taken") (fun g =>
  rbind (field d "loans_repaid") (fun h =>
  Returned [a; b; c; e; f; g; h; stamp]))))))).

(** [save_to_csv(data)]: the file is opened and, when new, given its
    header before the row is built from [data]. *)
Definition save_to_csv (d : gmap string string) (stamp : string) : M unit :=
  _ ← Exec.modify (fun w =>
        match csv_file w with
        | None => set_csv (Some [CSV_HEADER]) w
        | Some _ => w
        end);
  row ← Exec.lift (report_row d stamp);
  Exec.modify (fun w => set_csv (Some (default [] (csv_file w) ++ [row])) w).

(** *** The conversation *)

Definition new_session (now : Z) : session := Session 0 ∅ now.

Definition ERROR_REPLY : string := "Error processing input. Please try again.".

(** [msg.isdigit() and 1 <= int(msg) <= 17] *)
Definition group_number_ok (msg : string) : M bool :=
  if Str.isdigit msg
  then gid ← Exec.lift (Str.int msg); mret ((1 <=? gid) && (gid <=? 17))
  else mret false.

(** The steps 2 to 5, which differ in the key and the texts only. *)
Definition amount_step (phone msg key : string) (next : Z)
    (ask invalid : string) : M string :=
  if Str.isdigit msg then
    _ ← write_session phone (set_data key msg);
    _ ← write_session phone (set_step next);
    mret ask
  else mret invalid.

(** [handle_response(phone, message)], run at time [now]; [stamp] is the
    time stamp a report written in this run gets.  The session is made
    before the text is looked at, and whatever the [try] block raises
    becomes the error reply. *)
Definition handle_response (phone message : string) (now : Z)
    (stamp : string) : M string :=
  w ← Exec.get;
  let session := touch now (default (new_session now) (sessions w !! phone)) in
  _ ← Exec.modify (fun w => set_sessions (<[phone := session]> (sessions w)) w);
  let step := step session in
  let msg := Str.strip message in
  Exec.catch
    (if step =? 0 then
       if Str.contains "vsla" (Str.lower msg) then
         _ ← write_session phone (set_step 1);
         mret "Welcome! Choose your group number (1-17):"
       else mret "Please start your message with 'VSLA' to report."
     else if step =? 1 then
       valid ← group_number_ok msg;
       if (valid : bool) then
         group_id ← Exec.lift (Str.int msg);
         name ← Exec.lift (Str.getitem groupNames group_id);
         _ ← write_session phone (set_data "group_name" name);
         _ ← write_session phone (set_step 2);
         mret "Enter amount saved:"
       else mret "Invalid group number. Choose 1-17:"
     else if step =? 2 then
       amount_step phone msg "amount_saved" 3
         "Enter attendance:" "Invalid number. Enter amount saved:"
     else if step =? 3 then
       amount_step phone msg "attendance" 4
         "Enter social fund amount:" "Invalid number. Enter attendance:"
     else if step =? 4 then
       amount_step phone msg "social_fund" 5
         "Enter loans taken:" "Invalid number. Enter social fund amount:"
     else if step =? 5 then
       amount_step phone msg "loans_taken" 6
         "Enter loans repaid:" "Invalid number. Enter loans taken:"
     else if step =? 6 then
       if Str.isdigit msg then
         _ ← write_session phone (set_data "loans_repaid" msg);
         _ ← write_session phone (set_data "phone" phone);
         w ← Exec.get;
         _ ← save_to_csv (default ∅ (data <$> sessions w !! phone)) stamp;
         w ← Exec.get;
         m ← Exec.lift (Dict.del phone (sessions w));
         _ ← Exec.modify (set_sessions m);
         mret "Thank you! Your report has been received."
       else mret "Invalid number. Enter loans repaid:"
     else mret EmptyString)
    (mret ERROR_REPLY).

(** *** The worker *)

(** [process_message]: the message is deleted on the modem only when
    [send_sms] returned [True]; an exception of the port goes up to the
    thread. *)
Definition process_message (msg : message) (now : Z) (stamp : string)
    : M unit :=
  reply ← handle_response (phone msg) (content msg) now stamp;
  ok ← on_port (send_sms (phone msg) reply);
  if (ok : bool) then on_port (mark_sms_as_read (index msg)) else mret tt.

(** *** The reaper *)

(** [[p for p, s in sessions.items() if now - s["last_active"] > SESSION_TIMEOUT]] *)
Definition expired_keys (now : Z) (m : gmap string session) : list string :=
  Dict.keys_where (fun s => SESSION_TIMEOUT <? now - last_active s) m.

(** One round of the [while True] loop of [cleanup_sessions], at time
    [now]. *)
Definition cleanup_sweep (now : Z) (m : gmap string session)
    : result (gmap string session) :=
  Dict.del_all (expired_keys now m) m.

Definition cleanup_sessions (now : Z) : M unit :=
  fun w =>
    match cleanup_sweep now (sessions w) with
    | Returned m' => (Returned tt, set_sessions m' w)
    | Raised e => (Raised e, w)
    end.

(** *** The polling loop *)

(** One round of the [while True] loop of [main]: the messages a worker
    thread is started for.  Whatever [read_sms] raises is caught and
    printed, and the round starts no worker. *)
Definition main_round : Exec.M Serial.port (option (list message)) :=
  Exec.catch read_sms (mret (Some [])).

End Index.

(** * Vocabulary of the properties *)

(** ** Effects on the serial port *)

(** [w'] has on its wire what [w] had, and maybe more after it. *)
Definition wire_grows (w w' : FullBot.world) : Prop :=
  exists l, Serial.wire (FullBot.port w') = Serial.wire (FullBot.port w) ++ l.

(** A step of fullBot.py's handler that only adds to the wire. *)
Definition appends {A : Type} (m : FullBot.M A) : Prop :=
  forall w, wire_grows w (m w).2.

(** A step of index.py's handler that leaves the serial port alone. *)
Definition keeps_port {A : Type} (m : Index.M A) : Prop :=
  forall w, Index.port (m w).2 = Index.port w.

(** ** The listing of unread messages, as the specification reads it *)

(** A line matches the header pattern when, stripped, it starts with
    the tag of a listed message. *)
Definition is_header (l : string) : bool :=
  Str.startswith "+CMGL:" (Str.strip l).

(** The text before the first character that [stop] accepts. *)
Fixpoint until (stop : ascii -> bool) (s : string) : string :=
  match s with
  | EmptyString => EmptyString
  | String c s' => if stop c then EmptyString else String c (until stop s')
  end.

(** The text after its first [n] characters. *)
Fixpoint drop_chars (n : nat) (s : string) : string :=
  match n, s with
  | S n', String _ s' => drop_chars n' s'
  | _, _ => s
  end.

(** The index of a header: what stands after the tag, up to the first
    comma (or colon), without the blanks around it. *)
Definition header_index (l : string) : string :=
  Str.strip
    (until (fun c => Ascii.eqb c "," || Ascii.eqb c ":")
       (drop_chars 6 (Str.strip l))).

(** The sender of a header: its third comma-separated field without
    quote characters and without the blanks around it; nothing when
    the header has fewer than three fields. *)
Definition header_sender (l : string) : string :=
  match Str.split "," (Str.strip l) with
  | _ :: _ :: f :: _ => Str.strip (Str.replace QUOTE EmptyString f)
  | _ => EmptyString
  end.

(** The message of a header line and the line after it, if any. *)
Definition message_of (header : string) (next : option string) : message :=
  Message (header_index header) (header_sender header)
          (Str.strip (default EmptyString next)).

(** One message per line that matches the header pattern, its body the
    line that follows: the listing as claim C9 words it. *)
Fixpoint per_header_line (lines : list string) : list message :=
  match lines with
  | [] => []
  | l :: rest =>
      if is_header l then message_of l (head rest) :: per_header_line rest
      else per_header_line rest
  end.

(** The listing read record by record: a header takes the next line as
    its body, and that line is not looked at again. *)
Fixpoint records (lines : list string) : list message :=
  match lines with
  | [] => []
  | l :: rest =>
      if is_header l then
        match rest with
        | [] => [message_of l None]
        | b :: rest' => message_of l (Some b) :: records rest'
        end
      else records rest
  end.

(** No line that follows a header matches the header pattern itself. *)
Fixpoint bodies_plain (lines : list string) : bool :=
  match lines with
  | [] => true
  | l :: rest =>
      match rest with
      | [] => true
      | b :: _ => negb (is_header l && is_header b)
      end && bodies_plain rest
  end.

(** Every header has three fields or more and a line after it: what
    index.py needs of a listing. *)
Fixpoint headers_complete (lines : list string) : bool :=
  match lines with
  | [] => true
  | l :: rest =>
      if is_header l then
        (3 <=? Z.of_nat (length (Str.split "," (Str.strip l)))) &&
        match rest with
        | [] => false
        | _ :: rest' => headers_complete rest'
        end
      else headers_complete rest
  end.

(** ** Sample listings *)

(** Two unread messages; the first one's text itself looks like a
    header. *)
Definition listing_header_like_body : string :=
  join_nl
    [ "+CMGL: 1," +:+ quoted "REC UNREAD" +:+ "," +:+ quoted "+265991112222" +:+ ",,";
      "+CMGL: 7,x,y";
      "+CMGL: 2," +:+ quoted "REC UNREAD" +:+ "," +:+ quoted "+265993334444" +:+ ",,";
      "VSLA report";
      EmptyString;
      "OK" ].

(** A response that ends right after a header: the body has not
    arrived yet. *)
Definition listing_cut_short : string :=
  "+CMGL: 1," +:+ quoted "REC UNREAD" +:+ "," +:+ quoted "+265991112222" +:+ ",,".

(** A complete listing of two messages, the first header with its time
    stamp. *)
Definition listing_plain : string :=
  join_nl
    [ "+CMGL: 1," +:+ quoted "REC UNREAD" +:+ "," +:+ quoted "+265991112222"
        +:+ ",," +:+ quoted "25/03/01,10:15:00+08";
      "VSLA report";
      "+CMGL: 2," +:+ quoted "REC UNREAD" +:+ "," +:+ quoted "+265993334444" +:+ ",,";
      "12";
      EmptyString;
      "OK" ].

(** ** The trigger keyword, as the specification reads it *)

Definition letter_v (c : ascii) : Prop := c = "v"%char \/ c = "V"%char.
Definition letter_s (c : ascii) : Prop := c = "s"%char \/ c = "S"%char.
Definition letter_l (c : ascii) : Prop := c = "l"%char \/ c = "L"%char.
Definition letter_a (c : ascii) : Prop := c = "a"%char \/ c = "A"%char.

(** [text] holds the letters v, s, l, a in a row, each in either case. *)
Definition has_trigger (text : string) : Prop :=
  exists (pre post : string) (v s l a : ascii),
    text = pre +:+ String v (String s (String l (String a post))) /\
    letter_v v /\ letter_s s /\ letter_l l /\ letter_a a.

(** A text without blank characters. *)
Definition no_space (n : string) : bool :=
  Str.all_c (fun a => negb (Str.isspace_c a)) n.

(** ** The conversation of fullBot.py *)

(** Question [k] (from 1 to 7) in language [l]. *)
Definition question (l : FullBot.language) (k : Z) : string :=
  default EmptyString (FullBot.followup_questions l !! Z.to_nat (k - 1)).

(** The name of the group with number [gid] (from 1 to 17). *)
Definition group_name (gid : Z) : string :=
  default EmptyString (FullBot.groupNames !! Z.to_nat gid).

(** The report file after one more row. *)
Definition with_row (row : list string) (f : option (list (list string)))
    : option (list (list string)) :=
  Some (match f with
        | None => [FullBot.CSV_HEADER; row]
        | Some rows => rows ++ [row]
        end).

(** A run of [handle_message] that returned, left the sessions as [m]
    and the report file as [f], and asked for [texts] to be sent to
    [phone], in this order. *)
Definition handled (phone text : string) (now : Z) (stamp : string)
    (w : FullBot.world) (m : gmap string FullBot.session)
    (f : option (list (list string))) (texts : list string) : Prop :=
  exists w',
    FullBot.handle_message phone text now stamp w = (Returned tt, w') /\
    FullBot.sessions w' = m /\
    FullBot.csv_file w' = f /\
    requests (FullBot.outbox w') =
      requests (FullBot.outbox w) ++ map (pair phone) texts.

(** The two texts of the group list in language [l]. *)
Definition group_prompt (l : FullBot.language) : list string :=
  [(FullBot.group_list_parts l).1; (FullBot.group_list_parts l).2].

(** A session in a state the conversation can reach: at the language
    step, or with its language chosen. *)
Definition session_ok (s : FullBot.session) : Prop :=
  FullBot.step s = -1 \/
  (0 <= FullBot.step s <= 7 /\ exists l, FullBot.lang s = Some l).

(** The prompt of the state a session is in. *)
Definition prompt_of (s : FullBot.session) : list string :=
  if FullBot.step s =? -1 then [FullBot.LANGUAGE_MENU]
  else match FullBot.lang s with
       | None => []
       | Some l =>
           if FullBot.step s =? 0 then group_prompt l
           else [question l (FullBot.step s)]
       end.

(** The notice put in front of a prompt that is sent again. *)
Definition notice_of (s : FullBot.session) : string :=
  if FullBot.step s =? -1 then EmptyString
  else if FullBot.step s =? 0 then "Invalid group number. "
  else "Invalid number. ".

(** A prompt sent again: the same texts, the first one after the
    notice. *)
Definition again (notice : string) (prompt : list string) : list string :=
  match prompt with
  | [] => []
  | p :: rest => (notice +:+ p) :: rest
  end.

(** The text has one character at least, all of them digits 0 to 9. *)
Definition decimal_text (text : string) : bool :=
  match text with
  | EmptyString => false
  | _ => Str.all_c Str.isdecimal_c text
  end.

(** The text is no longer than what [int] converts. *)
Definition within_limit (text : string) : Prop :=
  Z.of_nat (String.length text) <= Str.MAX_STR_DIGITS.

(** A group number as the scripts take it: a text of decimal digits,
    no longer than what [int] converts, for a number from 1 to 17. *)
Definition group_number (text : string) : Prop :=
  decimal_text text = true /\ within_limit text /\
  1 <= Str.decimal_value text <= 17.

(** The number five in 4301 digits: more than [int] converts. *)
Definition long_five : string := Nat.iter 4300%nat (String "0") "5".

(** No character of the text is a digit of [isdigit] without a decimal
    value (a superscript digit). *)
Definition no_superscript (text : string) : bool :=
  Str.all_c (fun c => implb (Str.isdigit_c c) (Str.isdecimal_c c)) text.

(** What the state of a session accepts, in the words of the
    specification: a language code, a group number from 1 to 17, a text
    of decimal digits. *)
Definition accepts (s : FullBot.session) (text : string) : bool :=
  if FullBot.step s =? -1 then
    String.eqb text "1" || String.eqb text "2" || String.eqb text "3"
  else if FullBot.step s =? 0 then
    decimal_text text &&
    (1 <=? Str.decimal_value text) && (Str.decimal_value text <=? 17)
  else decimal_text text.

(** The handler took the text as the answer of the step: it returned,
    and the sender's session moved one step on (or, after the last
    step, is gone). *)
Definition accepted (phone text : string) (now : Z) (stamp : string)
    (w : FullBot.world) : Prop :=
  exists w',
    FullBot.handle_message phone text now stamp w = (Returned tt, w') /\
    match FullBot.sessions w !! phone with
    | None => False
    | Some s =>
        match FullBot.sessions w' !! phone with
        | Some s' => FullBot.step s' = FullBot.step s + 1
        | None => FullBot.step s = 7
        end
    end.

(** One inbound text with the clock readings of its handling. *)
Record inbound : Type := Inbound {
  text_of : string;
  time_of : Z;
  stamp_of : string
}.

(** The answer a text carries: the text without the blanks around it. *)
Definition answer_of (i : inbound) : string := Str.strip (text_of i).

(** The messages of one sender handled one after the other. *)
Definition feed (phone : string) (inputs : list inbound) (w : FullBot.world)
    : FullBot.world :=
  foldl (fun w i =>
           (FullBot.handle_message phone (text_of i) (time_of i) (stamp_of i) w).2)
        w inputs.

(** ** Sample worlds *)

Definition quiet_port : Serial.port :=
  Serial.Port (fun _ => Serial.Data "ERROR") 0 [].

Definition ready_port : Serial.port :=
  Serial.Port (fun _ => Serial.Data "OK") 0 [].

Definition SUPERSCRIPT_TWO : string := String (ascii_of_N 178) EmptyString.

(** fullBot.py with one sender at the group step. *)
Definition world_at_group : FullBot.world :=
  FullBot.World
    {[ "265991112222" := FullBot.Session 0 (Some FullBot.english) [] None 50 ]}
    None ready_port [].

(** fullBot.py with one sender at the first question. *)
Definition world_at_question : FullBot.world :=
  FullBot.World
    {[ "265991112222" :=
         FullBot.Session 1 (Some FullBot.english) [] (Some "Chimnyanga") 50 ]}
    None ready_port [].

Definition seven_answers : list inbound :=
  [ Inbound "12" 100 "t1"; Inbound " 5000 " 110 "t2"; Inbound "300" 120 "t3";
    Inbound "0" 130 "t4"; Inbound "250" 140 "t5"; Inbound "25" 150 "t6";
    Inbound "100" 160 "t7" ].

(** index.py before any message. *)
Definition index_fresh : Index.world := Index.World ∅ None quiet_port.

(** ** The conversation of index.py *)

(** The answers index.py has to hold before its last step. *)
Definition data_complete (d : gmap string string) : Prop :=
  is_Some (d !! "group_name") /\ is_Some (d !! "amount_saved") /\
  is_Some (d !! "attendance") /\ is_Some (d !! "social_fund") /\
  is_Some (d !! "loans_taken").

(** A session of index.py at the group step or at an amount step. *)
Definition index_session_ok (s : Index.session) : Prop :=
  1 <= Index.step s <= 6 /\ (Index.step s = 6 -> data_complete (Index.data s)).

(** [handle_response] took the text as the answer of the step: the
    session moved one step on or, after the last step, is gone. *)
Definition index_accepted (phone text : string) (now : Z) (stamp : string)
    (w : Index.world) : Prop :=
  exists reply w',
    Index.handle_response phone text now stamp w = (Returned reply, w') /\
    match Index.sessions w !! phone with
    | None => False
    | Some s =>
        match Index.sessions w' !! phone with
        | Some s' => Index.step s' = Index.step s + 1
        | None => Index.step s = 6
        end
    end.

(** index.py with one sender at the first amount. *)
Definition index_at_amount : Index.world :=
  Index.World
    {[ "265991112222" :=
         Index.Session 2 {[ "group_name" := "Chimnyanga H&C Women's Group" ]} 50 ]}
    None quiet_port.

(** Every session of the store is in a state the conversation can
    reach. *)
Definition sessions_ok (w : FullBot.world) : Prop :=
  forall p s, FullBot.sessions w !! p = Some s -> session_ok s.

(** The messages of one sender handled by index.py one after the
    other. *)
Definition index_feed (phone : string) (inputs : list inbound) (w : Index.world)
    : Index.world :=
  foldl (fun w i =>
           (Index.handle_response phone (text_of i) (time_of i) (stamp_of i) w).2)
        w inputs.

(** * Vocabulary of the further properties *)

(** ** What a computation does to the state, step by step *)

(** Every run of [m] leaves a state that [R] relates to the one it
    started in, also when it raises. *)
Definition steps {S A : Type} (R : relation S) (m : Exec.M S A) : Prop :=
  forall s, R s (m s).2.

(** *** fullBot.py *)

(** The sessions of every sender but [phone] are as they were. *)
Definition others_kept (phone : string) : relation FullBot.world :=
  fun w w' =>
    forall q, q <> phone -> FullBot.sessions w' !! q = FullBot.sessions w !! q.

(** The session of [phone], if there is one, was last active at [now]. *)
Definition stamped (phone : string) (now : Z) (w : FullBot.world) : Prop :=
  forall s, FullBot.sessions w !! phone = Some s -> FullBot.last_active s = now.

Definition stamp_kept (phone : string) (now : Z) : relation FullBot.world :=
  fun w w' => stamped phone now w -> stamped phone now w'.

(** The report file is as it was. *)
Definition report_kept : relation FullBot.world :=
  fun w w' => FullBot.csv_file w' = FullBot.csv_file w.

(** A message written to the modem for [phone]. *)
Definition addressed (phone : string) (e : Serial.wire_event) : Prop :=
  exists body, e = Serial.Compose (Serial.with_plus phone) body.

(** All that was written to the port are messages for [phone]. *)
Definition writes_to (phone : string) : relation FullBot.world :=
  fun w w' =>
    exists l,
      Serial.wire (FullBot.port w') = Serial.wire (FullBot.port w) ++ l /\
      Forall (addressed phone) l.

#[global] Instance others_kept_preorder (phone : string) :
  PreOrder (others_kept phone).
Proof.
  split.
  - intros w q _. reflexivity.
  - intros a b c Hab Hbc q Hq. now rewrite Hbc, Hab.
Qed.

#[global] Instance stamp_kept_preorder (phone : string) (now : Z) :
  PreOrder (stamp_kept phone now).
Proof.
  split.
  - intros w H. exact H.
  - intros a b c Hab Hbc H. exact (Hbc (Hab H)).
Qed.

#[global] Instance report_kept_preorder : PreOrder report_kept.
Proof.
  split.
  - intros w. reflexivity.
  - intros a b c Hab Hbc. unfold report_kept in *. congruence.
Qed.

#[global] Instance writes_to_preorder (phone : string) :
  PreOrder (writes_to phone).
Proof.
  split.
  - intros w. exists []. split; [now rewrite app_nil_r | constructor].
  - intros a b c (l1 & H1 & F1) (l2 & H2 & F2). exists (l1 ++ l2). split.
    + now rewrite H2, H1, app_assoc.
    + now apply Forall_app.
Qed.

(** *** index.py *)

Definition index_others_kept (phone : string) : relation Index.world :=
  fun w w' =>
    forall q, q <> phone -> Index.sessions w' !! q = Index.sessions w !! q.

Definition index_stamped (phone : string) (now : Z) (w : Index.world) : Prop :=
  forall s, Index.sessions w !! phone = Some s -> Index.last_active s = now.

Definition index_stamp_kept (phone : string) (now : Z) : relation Index.world :=
  fun w w' => index_stamped phone now w -> index_stamped phone now w'.

#[global] Instance index_others_kept_preorder (phone : string) :
  PreOrder (index_others_kept phone).
Proof.
  split.
  - intros w q _. reflexivity.
  - intros a b c Hab Hbc q Hq. now rewrite Hbc, Hab.
Qed.

#[global] Instance index_stamp_kept_preorder (phone : string) (now : Z) :
  PreOrder (index_stamp_kept phone now).
Proof.
  split.
  - intros w H. exact H.
  - intros a b c Hab Hbc H. exact (Hbc (Hab H)).
Qed.

(** ** The conversation of fullBot.py, in full *)

(** The text that chooses a language. *)
Definition language_code (l : FullBot.language) : string :=
  match l with
  | FullBot.english => "1"
  | FullBot.chichewa => "2"
  | FullBot.tumbuka => "3"
  end.

(** What a session holds at each step of the conversation: nothing at
    the language step, the language at the group step, and from the
    first question on the language, the name of one of the seventeen
    groups and one answer, of digits only, per question passed. *)
Definition session_sound (s : FullBot.session) : Prop :=
  (FullBot.step s = -1 /\ FullBot.lang s = None /\
   FullBot.group s = None /\ FullBot.answers s = []) \/
  (exists l, FullBot.lang s = Some l /\
     ((FullBot.step s = 0 /\ FullBot.group s = None /\ FullBot.answers s = []) \/
      (1 <= FullBot.step s <= 7 /\
       (exists gid, 1 <= gid <= 17 /\ FullBot.group s = Some (group_name gid)) /\
       Z.of_nat (length (FullBot.answers s)) = FullBot.step s - 1 /\
       Forall (fun a => Str.isdigit a = true) (FullBot.answers s)))).

Definition store_sound (w : FullBot.world) : Prop :=
  forall p s, FullBot.sessions w !! p = Some s -> session_sound s.

(** A row of the report file with all its cells: the sender, a
    language, a group, seven answers of digits, the time stamp. *)
Definition complete_row (row : list string) : Prop :=
  exists (sender : string) (l : FullBot.language) (gid : Z)
         (answers : list string) (stamp : string),
    1 <= gid <= 17 /\ length answers = 7%nat /\
    Forall (fun a => Str.isdigit a = true) answers /\
    row = [sender; FullBot.lang_key l; group_name gid] ++ answers ++ [stamp].

(** The report file, when it exists, starts with the header row, and
    every row after it is complete. *)
Definition report_file_ok (f : option (list (list string))) : Prop :=
  match f with
  | None => True
  | Some rows =>
      exists body, rows = FullBot.CSV_HEADER :: body /\ Forall complete_row body
  end.

(** An inbound text with its sender. *)
Record arrival : Type := Arrival {
  sender_of : string;
  inbound_of : inbound
}.

(** The messages of any senders handled one after the other. *)
Definition serve (arrivals : list arrival) (w : FullBot.world) : FullBot.world :=
  foldl (fun w a =>
           (FullBot.handle_message (sender_of a) (text_of (inbound_of a))
              (time_of (inbound_of a)) (stamp_of (inbound_of a)) w).2)
        w arrivals.

(** The questions from number [k] on, in language [l]. *)
Definition questions_from (l : FullBot.language) (k : nat) : list string :=
  drop k (FullBot.followup_questions l).

(** ** The conversation of index.py, in full *)

(** The name index.py has for the group with number [gid]. *)
Definition index_group_name (gid : Z) : string :=
  default EmptyString (Index.groupNames !! Z.to_nat gid).

(** The report file of index.py after one more row. *)
Definition index_with_row (row : list string) (f : option (list (list string)))
    : option (list (list string)) :=
  Some (match f with
        | None => [Index.CSV_HEADER; row]
        | Some rows => rows ++ [row]
        end).

(** The keys [save_to_csv] of index.py reads from [data]. *)
Definition REPORT_KEYS : list string :=
  [ "phone"; "group_name"; "amount_saved"; "attendance"; "social_fund";
    "loans_taken"; "loans_repaid" ].

(** ** Further sample worlds *)

(** A modem that answers "ERROR", then fails, then confirms. *)
Definition flaky_port : Serial.port :=
  Serial.Port
    (fun n =>
       match n with
       | O => Serial.Data "ERROR"
       | S O => Serial.Fault
       | _ => Serial.Data "+CMGS: 12"
       end)
    0 [].

(** A serial line that is down. *)
Definition dead_port : Serial.port := Serial.Port (fun _ => Serial.Fault) 0 [].

(** The key under which index.py keeps the answer of an amount step. *)
Definition amount_key (step : Z) : string :=
  if step =? 2 then "amount_saved"
  else if step =? 3 then "attendance"
  else if step =? 4 then "social_fund"
  else if step =? 5 then "loans_taken"
  else "loans_repaid".

(** ** What does not depend on the modem *)

(** Two worlds of fullBot.py with the same sessions, the same report
    file and the same texts asked to be sent so far: they differ in the
    serial port, and in which of the sends went through, at most. *)
Definition agree (w1 w2 : FullBot.world) : Prop :=
  FullBot.sessions w1 = FullBot.sessions w2 /\
  FullBot.csv_file w1 = FullBot.csv_file w2 /\
  requests (FullBot.outbox w1) = requests (FullBot.outbox w2).

(** A computation that returns or raises the same, and leaves worlds
    that agree, on worlds that agree. *)
Definition port_blind {A : Type} (m : FullBot.M A) : Prop :=
  forall w1 w2, agree w1 w2 -> (m w1).1 = (m w2).1 /\ agree (m w1).2 (m w2).2.

(** fullBot.py with one sender at the last question, on port [p]. *)
Definition world_at_last_question (p : Serial.port) : FullBot.world :=
  FullBot.World
    {[ "265991112222" :=
         FullBot.Session 7 (Some FullBot.english)
           ["12"; "5000"; "300"; "0"; "250"; "25"] (Some "Chimnyanga") 150 ]}
    None p [].

(** ** The listing as the modem writes it *)

Definition CRLF : string := String "013" NL.

(** A text that does not break the line. *)
Definition one_line (s : string) : bool :=
  Str.all_c (fun c => negb (Str.islinebreak_c c)) s.

(** A character that ends no field of a header. *)
Definition field_char (c : ascii) : bool :=
  negb (Ascii.eqb c "," || Ascii.eqb c ":" || Ascii.eqb c QUOTE
        || Str.islinebreak_c c).

(** A field of a header: no blanks around it, and no comma, colon,
    quote character or line boundary in it. *)
Definition field_ok (s : string) : bool :=
  String.eqb (Str.strip s) s && Str.all_c field_char s.

(** The text of a message: one line, no blanks around it. *)
Definition text_ok (s : string) : bool :=
  String.eqb (Str.strip s) s && one_line s.

Definition message_ok (m : message) : bool :=
  field_ok (index m) && field_ok (phone m) && text_ok (content m).

(** The header line of the unread message [m] in a listing in text
    mode: the tag, the index, the status, the sender, an empty name and
    the time stamp of the service centre. *)
Definition cmgl_header (stamp : string) (m : message) : string :=
  "+CMGL: " +:+ index m +:+ "," +:+ quoted "REC UNREAD" +:+ "," +:+
  quoted (phone m) +:+ ",," +:+ quoted stamp.

(** Each line with CR LF after it. *)
Fixpoint unlines (lines : list string) : string :=
  match lines with
  | [] => EmptyString
  | l :: rest => l +:+ CRLF +:+ unlines rest
  end.

(** The modem's answer to the listing command: for each message its
    header and its text, then an empty line and "OK". *)
Definition listing_of (stamp : string) (msgs : list message) : string :=
  unlines (flat_map (fun m => [cmgl_header stamp m; content m]) msgs
           ++ [EmptyString; "OK"]).

(** ** What a session of index.py holds *)

(** The key under which index.py keeps what step [k] records. *)
Definition step_key (k : Z) : string :=
  if k =? 1 then "group_name" else amount_key k.

(** A session of index.py at one of its steps, holding what the steps
    it has passed recorded. *)
Definition index_session_sound (s : Index.session) : Prop :=
  0 <= Index.step s <= 6 /\
  forall k, 1 <= k < Index.step s -> is_Some (Index.data s !! step_key k).

Definition index_store_sound (w : Index.world) : Prop :=
  forall p s, Index.sessions w !! p = Some s -> index_session_sound s.

(** The messages of any senders handled by index.py one after the
    other. *)
Definition index_serve (arrivals : list arrival) (w : Index.world) : Index.world :=
  foldl (fun w a =>
           (Index.handle_response (sender_of a) (text_of (inbound_of a))
              (time_of (inbound_of a)) (stamp_of (inbound_of a)) w).2)
        w arrivals.

(** Two senders write to index.py; the first one gets to the last
    step. *)
Definition arrivals_to_last : list arrival :=
  [ Arrival "265991112222" (Inbound "VSLA" 10 "t");
    Arrival "265993334444" (Inbound "hello" 11 "t");
    Arrival "265991112222" (Inbound SUPERSCRIPT_TWO 20 "t");
    Arrival "265991112222" (Inbound "17" 30 "t");
    Arrival "265991112222" (Inbound " 40 " 40 "t");
    Arrival "265991112222" (Inbound "5" 50 "t");
    Arrival "265991112222" (Inbound "six" 55 "t");
    Arrival "265991112222" (Inbound "6" 60 "t");
    Arrival "265991112222" (Inbound "7" 65 "t") ].

(** The session of the first sender after them. *)
Definition index_session_at_last : Index.session :=
  Index.Session 6
    {[ "group_name" := "Kanjeza H&C Women's Group"; "amount_saved" := "40";
       "attendance" := "5"; "social_fund" := "6"; "loans_taken" := "7" ]}
    65.

(** * Proof automation *)

(** Case analysis over the 256 characters. *)
Ltac each_char c :=
  destruct c as [[] [] [] [] [] [] [] []].

(** Running the monad of a handler: the combinators are unfolded, the
    calls of the script's functions stay. *)
Ltac exec :=
  cbv beta iota zeta delta
    [mbind exec_bind Exec.bind Exec.get Exec.modify mret exec_ret Exec.ret
     Exec.lift Exec.raise fst snd id].

(** Entering [handle_message] for a sender whose session is known. *)
Ltac enter_session Hs :=
  unfold handled, FullBot.handle_message; exec;
  rewrite Hs; rewrite ?bool_decide_eq_true_2 by eauto;
  cbn [negb andb default from_option FullBot.step FullBot.touch FullBot.lang];
  exec.

Ltac exec_index :=
  cbv beta iota zeta delta
    [mbind exec_bind Exec.bind Exec.get Exec.modify mret exec_ret Exec.ret
     Exec.lift Exec.raise Exec.catch Index.write_session fst snd id].

Ltac index_enter Hs :=
  unfold Index.handle_response; exec_index;
  rewrite Hs; cbn [default from_option Index.touch Index.step].

Ltac index_done :=
  unfold Index.set_sessions, Index.set_csv;
  cbn [Index.sessions Index.csv_file Index.port];
  rewrite ?alter_insert_eq.


(** A call of [send_sms] in the goal, run by its frame lemma. *)
Ltac send_step_by frame :=
  match goal with
  | |- context [FullBot.send_sms ?p ?m ?w] =>
      let ok := fresh "ok" in
      let p' := fresh "p'" in
      let E := fresh "E" in
      destruct (frame p m w) as (ok & p' & E & _);
      rewrite E; clear E; exec
  end.

(** The end of a branch of [handle_message]: the world it leaves is
    read off. *)
Ltac finish_handled :=
  eexists; split; [reflexivity|];
  cbn [FullBot.sessions FullBot.csv_file FullBot.outbox FullBot.set_sessions
       FullBot.set_csv map];
  unfold requests; rewrite ?map_app, <- ?app_assoc; cbn [map to body app];
  rewrite ?insert_insert_eq; auto.

Create HintDb appends.
Create HintDb keeps_port.

(** A property of every step of a handler, carried through its binds
    and branches; [by_bind] and [by_catch] apply the rules of sequencing
    and of [try], [prim] settles the single steps and the sequences that
    have a rule of their own. *)
Ltac step_through by_bind by_catch prim :=
  repeat lazymatch goal with
         | |- steps _ (_ ≫= _) => first [solve [prim] | by_bind; [| intros ?]]
         | |- steps _ (Exec.catch _ _) => by_catch
         | |- steps _ (if ?b then _ else _) => destruct b
         | |- steps _ (match ?x with _ => _ end) => destruct x
         | |- _ => solve [prim]
         end.

(** * Properties *)

(** ** The [str] methods on sample texts *)

Example ex_strip : Str.strip "  12 " = "12". Proof. reflexivity. Qed.
Example ex_split : Str.split "," "a,b,,c" = ["a"; "b"; ""; "c"]. Proof. reflexivity. Qed.
Example ex_split0 : Str.split "," "" = [""]. Proof. reflexivity. Qed.
Example ex_lower : Str.lower "VsLa Report" = "vsla report". Proof. reflexivity. Qed.
Example ex_int : Str.int "0017" = Returned 17. Proof. reflexivity. Qed.
Example ex_contains : Str.contains "vsla" "my vsla" = true. Proof. reflexivity. Qed.

Example ex_splitlines :
  Str.splitlines ("a" +:+ String "013" NL +:+ "b" +:+ NL) = ["a"; "b"] /\
  Str.splitlines NL = [EmptyString] /\
  Str.splitlines EmptyString = [] /\
  Str.splitlines ("a" +:+ NL +:+ NL +:+ "b") = ["a"; EmptyString; "b"].
Proof. repeat split; reflexivity. Qed.
Example ex_isdigit :
  Str.isdigit EmptyString = false /\ Str.isdigit "0017" = true /\
  Str.isdigit "-5" = false /\ Str.isdigit "1.5" = false /\
  Str.isdigit SUPERSCRIPT_TWO = true /\ Str.int SUPERSCRIPT_TWO = Raised ValueError.
Proof. repeat split; reflexivity. Qed.



(** ** The reaper's sweep *)

Section Sweep.

Context {A : Type}.

Lemma del_all_lookup (l : list string) (m : gmap string A) :
  NoDup l ->
  (forall p, p ∈ l -> is_Some (m !! p)) ->
  exists m', Dict.del_all l m = Returned m' /\
    forall q, m' !! q = if decide (q ∈ l) then None else m !! q.
Proof.
  unfold Dict.del_all. revert m.
  induction l as [|p l IH]; intros m Hnd Hin.
  - exists m. split; [reflexivity|]. intros q.
    destruct (decide (q ∈ [])) as [Hq|_]; [inversion Hq | reflexivity].
  - apply NoDup_cons in Hnd as [Hp Hnd].
    destruct (Hin p) as [x Hx]; [left|].
    cbn [foldl rbind]. unfold Dict.del at 2. rewrite Hx.
    destruct (IH (delete p m) Hnd) as (m' & Hm' & Hlook).
    + intros q Hq. rewrite lookup_delete_ne.
      * apply Hin. now right.
      * intros ->. contradiction.
    + exists m'. split; [exact Hm'|].
      intros q. rewrite Hlook.
      destruct (decide (q ∈ l)) as [Hql|Hql].
      * rewrite decide_True; [reflexivity | now right].
      * destruct (decide (q = p)) as [->|Hne].
        -- rewrite lookup_delete_eq. rewrite decide_True; [reflexivity | left].
        -- rewrite lookup_delete_ne by congruence.
           rewrite decide_False; [reflexivity|].
           intros Hq. apply elem_of_cons in Hq as [?|?]; contradiction.
Qed.

Variable expired : A -> bool.

Lemma filter_sublist {B : Type} (f : B -> bool) (l : list B) :
  List.filter f l `sublist_of` l.
Proof.
  induction l as [|x l IH]; cbn.
  - constructor.
  - destruct (f x); now constructor.
Qed.

Lemma keys_where_NoDup (m : gmap string A) : NoDup (Dict.keys_where expired m).
Proof.
  unfold Dict.keys_where.
  eapply sublist_NoDup; [apply (NoDup_fst_map_to_list m)|].
  apply fmap_sublist, filter_sublist.
Qed.

Lemma elem_of_keys_where (m : gmap string A) (p : string) :
  p ∈ Dict.keys_where expired m <-> exists s, m !! p = Some s /\ expired s = true.
Proof.
  unfold Dict.keys_where. rewrite list_elem_of_fmap. split.
  - intros ([q s] & -> & Hin). apply list_elem_of_In, filter_In in Hin.
    destruct Hin as [Hin Hex]. exists s. split; [|exact Hex].
    apply elem_of_map_to_list. now apply list_elem_of_In.
  - intros (s & Hs & Hex). exists (p, s). split; [reflexivity|].
    apply list_elem_of_In, filter_In. split; [|exact Hex].
    apply list_elem_of_In. now apply elem_of_map_to_list.
Qed.

(** Deleting the expired keys never meets a missing key, removes every
    expired entry and leaves every other entry as it was. *)
Lemma sweep_spec (m : gmap string A) :
  exists m', Dict.del_all (Dict.keys_where expired m) m = Returned m' /\
    (forall p s, m !! p = Some s ->
       (expired s = true -> m' !! p = None) /\
       (expired s = false -> m' !! p = Some s)) /\
    (forall p, m !! p = None -> m' !! p = None).
Proof.
  destruct (del_all_lookup (Dict.keys_where expired m) m) as (m' & Hm' & Hlook).
  - apply keys_where_NoDup.
  - intros p Hp. apply elem_of_keys_where in Hp as (s & Hs & _). eauto.
  - exists m'. split; [exact Hm'|]. split.
    + intros p s Hs. rewrite Hlook. split; intros Hex.
      * rewrite decide_True; [reflexivity|].
        apply elem_of_keys_where. eauto.
      * rewrite decide_False; [exact Hs|].
        intros Hp. apply elem_of_keys_where in Hp as (s' & Hs' & Hex').
        congruence.
    + intros p Hp. rewrite Hlook. destruct (decide _); [reflexivity | exact Hp].
Qed.

End Sweep.

(** C7. After one sweep of [cleanup_sessions] at time [now], in either
    script: the sweep raises nothing; every session whose [last_active]
    lies more than [SESSION_TIMEOUT] before [now] is gone from the store;
    every session younger than the timeout is still there, unchanged; and
    no session has appeared. *)
Theorem reaper_sweep (now : Z) :
  (forall m : gmap string FullBot.session,
     exists m', FullBot.cleanup_sweep now m = Returned m' /\
       (forall p s, m !! p = Some s ->
          (FullBot.SESSION_TIMEOUT < now - FullBot.last_active s -> m' !! p = None) /\
          (now - FullBot.last_active s < FullBot.SESSION_TIMEOUT -> m' !! p = Some s)) /\
       (forall p, m !! p = None -> m' !! p = None)) /\
  (forall m : gmap string Index.session,
     exists m', Index.cleanup_sweep now m = Returned m' /\
       (forall p s, m !! p = Some s ->
          (Index.SESSION_TIMEOUT < now - Index.last_active s -> m' !! p = None) /\
          (now - Index.last_active s < Index.SESSION_TIMEOUT -> m' !! p = Some s)) /\
       (forall p, m !! p = None -> m' !! p = None)).
Proof.
  split; intros m.
  - destruct (sweep_spec
                (fun s => FullBot.SESSION_TIMEOUT <? now - FullBot.last_active s) m)
      as (m' & Hm' & Hkeep & Hnone).
    exists m'. split; [exact Hm'|]. split; [|exact Hnone].
    intros p s Hs. destruct (Hkeep p s Hs) as [Hold Hyoung]. split; intros H.
    + apply Hold. now apply Z.ltb_lt.
    + apply Hyoung. apply Z.ltb_ge. lia.
  - destruct (sweep_spec
                (fun s => Index.SESSION_TIMEOUT <? now - Index.last_active s) m)
      as (m' & Hm' & Hkeep & Hnone).
    exists m'. split; [exact Hm'|]. split; [|exact Hnone].
    intros p s Hs. destruct (Hkeep p s Hs) as [Hold Hyoung]. split; intros H.
    + apply Hold. now apply Z.ltb_lt.
    + apply Hyoung. apply Z.ltb_ge. lia.
Qed.

(** A session idle for exactly the timeout is kept as well. *)
Lemma reaper_sweep_boundary (now : Z) (m : gmap string FullBot.session)
    (p : string) (s : FullBot.session) :
  m !! p = Some s ->
  now - FullBot.last_active s = FullBot.SESSION_TIMEOUT ->
  exists m', FullBot.cleanup_sweep now m = Returned m' /\ m' !! p = Some s.
Proof.
  intros Hs Heq.
  destruct (sweep_spec
              (fun s => FullBot.SESSION_TIMEOUT <? now - FullBot.last_active s) m)
    as (m' & Hm' & Hkeep & _).
  exists m'. split; [exact Hm'|].
  apply (Hkeep p s Hs). apply Z.ltb_ge. lia.
Qed.

Example reaper_sweep_sample :
  exists m',
    FullBot.cleanup_sweep 6000
      {[ "265991112222" := FullBot.Session 3 (Some FullBot.english) ["12"; "7"]
                             (Some "Mkama") 1000;
         "265993334444" := FullBot.Session 0 (Some FullBot.chichewa) [] None 5000 ]}
    = Returned m' /\
    m' !! "265991112222" = None /\
    m' !! "265993334444" =
      Some (FullBot.Session 0 (Some FullBot.chichewa) [] None 5000).
Proof. eexists. split; [vm_compute; reflexivity|]. split; reflexivity. Qed.

(** ** The sender *)

Lemma attempts_app (m : nat -> Serial.reply) (n n' : nat)
    (l l' : list Serial.wire_event) :
  Serial.attempts (Serial.Port m n' (l ++ l')) =
  (Serial.attempts (Serial.Port m n l) + length (List.filter Serial.is_compose l'))%nat.
Proof.
  unfold Serial.attempts. cbn [Serial.wire].
  now rewrite List.filter_app, length_app.
Qed.

Lemma filter_replicate_compose (n : nat) (a b : string) :
  List.filter Serial.is_compose (replicate n (Serial.Compose a b)) =
  replicate n (Serial.Compose a b).
Proof. induction n as [|n IH]; cbn; [reflexivity | now rewrite IH]. Qed.

Lemma silent_S (token : string -> bool) (p : Serial.port) (e : Serial.wire_event)
    (n : nat) :
  Serial.silent token p (S n) ->
  Serial.silent token (Serial.exchange e p).2 n.
Proof.
  intros H k Hk. cbn. specialize (H (S k)).
  replace (Serial.exchanges p + S k)%nat with (S (Serial.exchanges p) + k)%nat in H by lia.
  apply H. lia.
Qed.

(** When the modem stays silent, the loop uses up all its attempts. *)
Lemma send_loop_silent (n : nat) (phone message : string) (p : Serial.port) :
  Serial.silent FullBot.success_token p n ->
  FullBot.send_loop n phone message p =
  (false,
   Serial.Port (Serial.modem p) (Serial.exchanges p + n)
     (Serial.wire p ++ replicate n (Serial.Compose (Serial.with_plus phone) message))).
Proof.
  revert p. induction n as [|n IH]; intros p Hs.
  - cbn. destruct p as [m k l]. cbn. now rewrite Nat.add_0_r, app_nil_r.
  - cbn [FullBot.send_loop].
    pose proof (Hs 0%nat ltac:(lia)) as H0. rewrite Nat.add_0_r in H0.
    pose proof (silent_S _ p (Serial.Compose (Serial.with_plus phone) message) n Hs) as Hn.
    unfold Serial.exchange in *. cbn [snd] in Hn.
    destruct (Serial.modem p (Serial.exchanges p)) as [|resp].
    + rewrite (IH _ Hn). cbn. f_equal. f_equal; [lia|].
      now rewrite <- app_assoc.
    + rewrite H0. rewrite (IH _ Hn). cbn. f_equal. f_equal; [lia|].
      now rewrite <- app_assoc.
Qed.

(** Whatever the modem does, [send_loop] only adds to the wire. *)
Lemma send_loop_wire (n : nat) (phone message : string) (p : Serial.port) :
  exists k, (k <= n)%nat /\
    Serial.wire (FullBot.send_loop n phone message p).2 =
    Serial.wire p ++ replicate k (Serial.Compose (Serial.with_plus phone) message) /\
    Serial.modem (FullBot.send_loop n phone message p).2 = Serial.modem p.
Proof.
  revert p. induction n as [|n IH]; intros p.
  - exists 0%nat. cbn. now rewrite app_nil_r.
  - cbn [FullBot.send_loop]. unfold Serial.exchange.
    set (p' := Serial.Port _ _ _).
    destruct (IH p') as (k & Hk & Hw & Hm).
    assert (Hrec : exists k, (k <= S n)%nat /\
      Serial.wire (FullBot.send_loop n phone message p').2 =
      Serial.wire p ++ replicate k (Serial.Compose (Serial.with_plus phone) message) /\
      Serial.modem (FullBot.send_loop n phone message p').2 = Serial.modem p).
    { exists (S k). split; [lia|]. rewrite Hw, Hm. subst p'. cbn.
      now rewrite <- app_assoc. }
    destruct (Serial.modem p (Serial.exchanges p)) as [|resp]; [exact Hrec|].
    destruct (FullBot.success_token resp); [|exact Hrec].
    exists 1%nat. split; [lia|]. now subst p'.
Qed.

(** What a call of [send_sms] leaves behind: the sessions and the report
    file as they were, one more entry in the outbox. *)
Lemma send_sms_frame (phone message : string) (w : FullBot.world) :
  exists ok p',
    FullBot.send_sms phone message w =
      (Returned ok,
       FullBot.World (FullBot.sessions w) (FullBot.csv_file w) p'
         (FullBot.outbox w ++ [SmsCall phone message ok])) /\
    Serial.modem p' = Serial.modem (FullBot.port w) /\
    exists k, (k <= FullBot.MAX_RETRIES)%nat /\
      Serial.wire p' = Serial.wire (FullBot.port w) ++
        replicate k (Serial.Compose (Serial.with_plus phone) message).
Proof.
  unfold FullBot.send_sms.
  destruct (send_loop_wire FullBot.MAX_RETRIES phone message (FullBot.port w))
    as (k & Hk & Hw & Hm).
  destruct (FullBot.send_loop _ _ _ _) as [ok p'].
  exists ok, p'. split; [reflexivity|]. split; [exact Hm|]. now exists k.
Qed.

(** ** What the handler of fullBot.py does to the serial port

    Every step of [handle_message] leaves the modem oracle alone and only
    adds to what was written on the wire. *)

Lemma wire_grows_refl (w : FullBot.world) : wire_grows w w.
Proof. exists []. now rewrite app_nil_r. Qed.

Lemma wire_grows_trans (w1 w2 w3 : FullBot.world) :
  wire_grows w1 w2 -> wire_grows w2 w3 -> wire_grows w1 w3.
Proof.
  intros [l1 H1] [l2 H2]. exists (l1 ++ l2). now rewrite H2, H1, app_assoc.
Qed.

Lemma appends_bind {A B : Type} (m : FullBot.M A) (k : A -> FullBot.M B) :
  appends m -> (forall a, appends (k a)) -> appends (m ≫= k).
Proof.
  intros Hm Hk w. unfold mbind, exec_bind, Exec.bind.
  specialize (Hm w). destruct (m w) as [[a|e] w1]; cbn in *.
  - eapply wire_grows_trans; [exact Hm | apply Hk].
  - exact Hm.
Qed.

Lemma appends_ret {A : Type} (a : A) : appends (mret a : FullBot.M A).
Proof. intros w. apply wire_grows_refl. Qed.

Lemma appends_raise {A : Type} (e : exn) : appends (Exec.raise e : FullBot.M A).
Proof. intros w. apply wire_grows_refl. Qed.

Lemma appends_lift {A : Type} (r : result A) : appends (Exec.lift r : FullBot.M A).
Proof. intros w. apply wire_grows_refl. Qed.

Lemma appends_get : appends (Exec.get : FullBot.M FullBot.world).
Proof. intros w. apply wire_grows_refl. Qed.

Lemma appends_modify (f : FullBot.world -> FullBot.world) :
  (forall w, FullBot.port (f w) = FullBot.port w) -> appends (Exec.modify f).
Proof. intros Hf w. exists []. cbn. now rewrite Hf, app_nil_r. Qed.

Lemma appends_swallow {A : Type} (m : FullBot.M A) :
  appends m -> appends (Exec.swallow m).
Proof. intros Hm w. apply Hm. Qed.

Lemma appends_get_session (phone : string) : appends (FullBot.get_session phone).
Proof.
  intros w. unfold FullBot.get_session.
  destruct (FullBot.sessions w !! phone); apply wire_grows_refl.
Qed.

Lemma appends_send_sms (phone message : string) :
  appends (FullBot.send_sms phone message).
Proof.
  intros w.
  destruct (send_sms_frame phone message w) as (ok & p' & -> & _ & k & _ & Hw).
  now exists (replicate k (Serial.Compose (Serial.with_plus phone) message)).
Qed.

Lemma appends_update_session (phone : string)
    (f : FullBot.session -> FullBot.session) :
  appends (FullBot.update_session phone f).
Proof.
  unfold FullBot.update_session. apply appends_bind.
  - apply appends_get_session.
  - intros s. now apply appends_modify.
Qed.

#[local] Hint Resolve appends_ret appends_raise appends_lift appends_get
  appends_get_session appends_send_sms appends_update_session : appends.

Lemma appends_handle_message (phone text : string) (now : Z) (stamp : string) :
  appends (FullBot.handle_message phone text now stamp).
Proof.
  unfold FullBot.handle_message, FullBot.group_number_ok, FullBot.questions_for,
    FullBot.group_list_for, FullBot.save_to_csv.
  repeat lazymatch goal with
         | |- appends (_ ≫= _) => apply appends_bind; [| intros ?]
         | |- appends (Exec.modify _) =>
             apply appends_modify; intros ?; reflexivity
         | |- appends (if ?b then _ else _) => destruct b
         | |- appends (match ?x with _ => _ end) => destruct x
         | |- _ => solve [auto with appends]
         end.
Qed.

(** ** What the handler of index.py does to the serial port: nothing *)

Lemma keeps_port_bind {A B : Type} (m : Index.M A) (k : A -> Index.M B) :
  keeps_port m -> (forall a, keeps_port (k a)) -> keeps_port (m ≫= k).
Proof.
  intros Hm Hk w. unfold mbind, exec_bind, Exec.bind.
  specialize (Hm w). destruct (m w) as [[a|e] w1]; cbn in *.
  - now rewrite Hk.
  - exact Hm.
Qed.

Lemma keeps_port_catch {A : Type} (m h : Index.M A) :
  keeps_port m -> keeps_port h -> keeps_port (Exec.catch m h).
Proof.
  intros Hm Hh w. unfold Exec.catch.
  specialize (Hm w). destruct (m w) as [[a|e] w1]; cbn in *.
  - exact Hm.
  - now rewrite Hh.
Qed.

Lemma keeps_port_ret {A : Type} (a : A) : keeps_port (mret a : Index.M A).
Proof. intros w. reflexivity. Qed.

Lemma keeps_port_lift {A : Type} (r : result A) :
  keeps_port (Exec.lift r : Index.M A).
Proof. intros w. reflexivity. Qed.

Lemma keeps_port_get : keeps_port (Exec.get : Index.M Index.world).
Proof. intros w. reflexivity. Qed.

Lemma keeps_port_modify (f : Index.world -> Index.world) :
  (forall w, Index.port (f w) = Index.port w) -> keeps_port (Exec.modify f).
Proof. intros Hf w. apply Hf. Qed.

Lemma keeps_port_write_session (phone : string)
    (f : Index.session -> Index.session) :
  keeps_port (Index.write_session phone f).
Proof. intros w. reflexivity. Qed.

#[local] Hint Resolve keeps_port_ret keeps_port_lift keeps_port_get
  keeps_port_write_session : keeps_port.

Lemma keeps_port_handle_response (phone message : string) (now : Z)
    (stamp : string) :
  keeps_port (Index.handle_response phone message now stamp).
Proof.
  unfold Index.handle_response, Index.group_number_ok, Index.amount_step,
    Index.save_to_csv.
  repeat lazymatch goal with
         | |- keeps_port (_ ≫= _) => apply keeps_port_bind; [| intros ?]
         | |- keeps_port (Exec.catch _ _) => apply keeps_port_catch
         | |- keeps_port (Exec.modify _) =>
             apply keeps_port_modify; intros [? [?|] ?]; reflexivity
         | |- keeps_port (if ?b then _ else _) => destruct b
         | |- keeps_port (match ?x with _ => _ end) => destruct x
         | |- _ => solve [auto with keeps_port]
         end.
Qed.

(** ** Reading the listing of unread messages *)

Lemma getitem_nat {A : Type} (l : list A) (n : nat) :
  Str.getitem l (Z.of_nat n) =
  match l !! n with
  | Some x => Returned x
  | None => Raised IndexError
  end.
Proof.
  unfold Str.getitem.
  assert (E : (Z.of_nat n <? 0) = false) by (apply Z.ltb_ge; lia).
  now rewrite !E, Nat2Z.id.
Qed.

Lemma prefix_app (p s : string) :
  String.prefix p s = true -> exists r, s = p +:+ r.
Proof.
  revert s. induction p as [|c p IH]; intros s H.
  - now exists s.
  - destruct s as [|d s]; [discriminate|]. cbn in H.
    destruct (ascii_dec c d) as [->|]; [|discriminate].
    destruct (IH s H) as [r ->]. now exists r.
Qed.

Lemma split_head (sep : ascii) (s : string) :
  exists fs, Str.split sep s = until (fun c => Ascii.eqb c sep) s :: fs.
Proof.
  induction s as [|c s [fs IH]]; cbn.
  - now exists [].
  - destruct (Ascii.eqb c sep); [eauto|]. rewrite IH. eauto.
Qed.

Lemma until_until (p q : ascii -> bool) (s : string) :
  until p (until q s) = until (fun c => p c || q c) s.
Proof.
  induction s as [|c s IH]; cbn; [reflexivity|].
  destruct (q c); cbn.
  - now rewrite orb_true_r.
  - rewrite orb_false_r. destruct (p c); [reflexivity | now rewrite IH].
Qed.

(** The index as fullBot.py takes it: [line.split(":")[1].split(",")[0].strip()],
    the handler of the [try] never being needed. *)
Lemma fullbot_index_of (line : string) :
  Str.startswith "+CMGL:" line = true ->
  rcatch
    (rbind (Str.getitem (Str.split ":" line) 1) (fun a =>
     rbind (Str.getitem (Str.split "," a) 0) (fun b =>
     Returned (Str.strip b))))
    (rbind (Str.getitem (Str.split "," line) 0) (fun a =>
     rbind (Str.getitem (Str.split ":" a) 1) (fun b =>
     Returned (Str.strip b))))
  = Returned
      (Str.strip (until (fun c => Ascii.eqb c "," || Ascii.eqb c ":")
                    (drop_chars 6 line))).
Proof.
  intros H. apply prefix_app in H as [r ->].
  change (drop_chars 6 ("+CMGL:" +:+ r)) with r.
  change (Str.split ":" ("+CMGL:" +:+ r)) with ("+CMGL" :: Str.split ":" r).
  destruct (split_head ":" r) as [fs ->].
  change 1 with (Z.of_nat 1). rewrite getitem_nat. cbn [lookup list_lookup rbind].
  destruct (split_head "," (until (fun c => Ascii.eqb c ":") r)) as [gs ->].
  change 0 with (Z.of_nat 0). rewrite getitem_nat. cbn [lookup list_lookup rbind rcatch].
  now rewrite until_until.
Qed.

Lemma fullbot_sender_of (parts : list string) :
  (if 3 <=? Z.of_nat (length parts)
   then rbind (Str.getitem parts 2) (fun a =>
        Returned (Str.strip (Str.replace QUOTE EmptyString a)))
   else Returned EmptyString)
  = Returned
      (match parts with
       | _ :: _ :: f :: _ => Str.strip (Str.replace QUOTE EmptyString f)
       | _ => EmptyString
       end).
Proof.
  destruct parts as [|a [|b [|c rest]]]; try reflexivity.
  destruct (Z.leb_spec 3 (Z.of_nat (length (a :: b :: c :: rest)))) as [_|H].
  - reflexivity.
  - cbn [length] in H. lia.
Qed.

Lemma fullbot_read_loop_done (fuel : nat) (lines : list string) (i : Z)
    (msgs : list message) :
  Z.of_nat (length lines) <= i ->
  FullBot.read_loop fuel lines i msgs = Some (Returned msgs).
Proof.
  intros H. apply Z.ltb_ge in H. destruct fuel; cbn; now rewrite H.
Qed.

(** With fuel for every line left, the loop of fullBot.py ends and has
    read the rest of the listing record by record. *)
Lemma fullbot_read_loop (fuel : nat) (lines : list string) :
  forall (n : nat) (msgs : list message),
    (length lines - n <= fuel)%nat ->
    FullBot.read_loop fuel lines (Z.of_nat n) msgs =
    Some (Returned (msgs ++ records (drop n lines))).
Proof.
  induction fuel as [|fuel IH]; intros n msgs Hfuel.
  - rewrite fullbot_read_loop_done by lia.
    rewrite drop_ge by lia. now rewrite app_nil_r.
  - destruct (decide (length lines <= n)%nat) as [Hn|Hn].
    { rewrite fullbot_read_loop_done by lia.
      rewrite drop_ge by lia. now rewrite app_nil_r. }
    destruct (lookup_lt_is_Some_2 lines n ltac:(lia)) as [l Hl].
    rewrite (drop_S _ _ _ Hl).
    cbn [FullBot.read_loop records].
    rewrite (proj2 (Z.ltb_lt _ _)) by lia.
    rewrite getitem_nat, Hl. cbn [rbind].
    unfold is_header.
    destruct (Str.startswith "+CMGL:" (Str.strip l)) eqn:Hh.
    + rewrite (fullbot_index_of _ Hh), fullbot_sender_of. cbn [rbind].
      replace (Z.of_nat n + 1 + 1) with (Z.of_nat (S (S n))) by lia.
      replace (Z.of_nat n + 1) with (Z.of_nat (S n)) by lia.
      rewrite getitem_nat.
      destruct (decide (S n < length lines)%nat) as [Hb|Hb].
      * rewrite (proj2 (Z.ltb_lt _ _)) by lia.
        destruct (lookup_lt_is_Some_2 lines (S n) Hb) as [b Hbody].
        rewrite Hbody, (drop_S _ _ _ Hbody). cbn [rbind].
        rewrite IH by lia. now rewrite <- app_assoc.
      * rewrite (proj2 (Z.ltb_ge _ _)) by lia. cbn [rbind].
        rewrite IH by lia. rewrite !drop_ge by lia.
        now rewrite <- app_assoc.
    + replace (Z.of_nat n + 1) with (Z.of_nat (S n)) by lia.
      now rewrite IH by lia.
Qed.

(** fullBot.py reads every response to the end, raising nothing. *)
Lemma fullbot_parse_records (out : string) :
  FullBot.parse_unread out = Some (Returned (records (Str.splitlines out))).
Proof.
  unfold FullBot.parse_unread.
  change 0 with (Z.of_nat 0). rewrite fullbot_read_loop by lia.
  now rewrite drop_0.
Qed.

Lemma until_ext (p q : ascii -> bool) (s : string) :
  (forall c, p c = q c) -> until p s = until q s.
Proof.
  intros H. induction s as [|c s IH]; cbn; [reflexivity|].
  now rewrite H, IH.
Qed.

(** The index as index.py takes it: [parts[0].split(":")[1].strip()]. *)
Lemma index_index_of (line : string) :
  Str.startswith "+CMGL:" line = true ->
  rbind (Str.getitem (Str.split "," line) 0) (fun a =>
  rbind (Str.getitem (Str.split ":" a) 1) (fun b =>
  Returned (Str.strip b)))
  = Returned
      (Str.strip (until (fun c => Ascii.eqb c "," || Ascii.eqb c ":")
                    (drop_chars 6 line))).
Proof.
  intros H. apply prefix_app in H as [r ->].
  change (drop_chars 6 ("+CMGL:" +:+ r)) with r.
  destruct (split_head "," ("+CMGL:" +:+ r)) as [fs ->].
  change 0 with (Z.of_nat 0). rewrite getitem_nat. cbn [lookup list_lookup rbind].
  change (until (fun c => Ascii.eqb c ",") ("+CMGL:" +:+ r))
    with ("+CMGL:" +:+ until (fun c => Ascii.eqb c ",") r).
  change (Str.split ":" ("+CMGL:" +:+ until (fun c => Ascii.eqb c ",") r))
    with ("+CMGL" :: Str.split ":" (until (fun c => Ascii.eqb c ",") r)).
  destruct (split_head ":" (until (fun c => Ascii.eqb c ",") r)) as [gs ->].
  change 1 with (Z.of_nat 1). rewrite getitem_nat. cbn [lookup list_lookup rbind].
  rewrite until_until. do 2 f_equal. apply until_ext.
  intros c. apply orb_comm.
Qed.

Lemma index_sender_of (parts : list string) :
  (3 <=? Z.of_nat (length parts)) = true ->
  rbind (Str.getitem parts 2) (fun a =>
    Returned (Str.strip (Str.replace QUOTE EmptyString a)))
  = Returned
      (match parts with
       | _ :: _ :: f :: _ => Str.strip (Str.replace QUOTE EmptyString f)
       | _ => EmptyString
       end).
Proof.
  destruct parts as [|a [|b [|c rest]]]; try discriminate. reflexivity.
Qed.

Lemma index_read_loop_done (fuel : nat) (lines : list string) (i : Z)
    (msgs : list message) :
  Z.of_nat (length lines) <= i ->
  Index.read_loop fuel lines i msgs = Some (Returned msgs).
Proof.
  intros H. apply Z.ltb_ge in H. destruct fuel; cbn; now rewrite H.
Qed.

(** On a listing whose headers are complete, the loop of index.py ends
    and has read it record by record as well. *)
Lemma index_read_loop (fuel : nat) (lines : list string) :
  forall (n : nat) (msgs : list message),
    (length lines - n <= fuel)%nat ->
    headers_complete (drop n lines) = true ->
    Index.read_loop fuel lines (Z.of_nat n) msgs =
    Some (Returned (msgs ++ records (drop n lines))).
Proof.
  induction fuel as [|fuel IH]; intros n msgs Hfuel Hc.
  - rewrite index_read_loop_done by lia.
    rewrite drop_ge by lia. now rewrite app_nil_r.
  - destruct (decide (length lines <= n)%nat) as [Hn|Hn].
    { rewrite index_read_loop_done by lia.
      rewrite drop_ge by lia. now rewrite app_nil_r. }
    destruct (lookup_lt_is_Some_2 lines n ltac:(lia)) as [l Hl].
    rewrite (drop_S _ _ _ Hl) in Hc |- *.
    cbn [Index.read_loop records]. cbn [headers_complete] in Hc.
    rewrite (proj2 (Z.ltb_lt _ _)) by lia.
    rewrite getitem_nat, Hl. cbn [rbind].
    unfold is_header in *.
    destruct (Str.startswith "+CMGL:" (Str.strip l)) eqn:Hh.
    + apply andb_true_iff in Hc as [Hparts Hrest].
      rewrite (index_index_of _ Hh), (index_sender_of _ Hparts). cbn [rbind].
      replace (Z.of_nat n + 1 + 1) with (Z.of_nat (S (S n))) by lia.
      replace (Z.of_nat n + 1) with (Z.of_nat (S n)) by lia.
      rewrite getitem_nat.
      destruct (lines !! S n) as [b|] eqn:Hbody.
      * rewrite (drop_S _ _ _ Hbody) in Hrest |- *. cbn [rbind].
        rewrite IH by (lia || assumption). now rewrite <- app_assoc.
      * rewrite drop_ge in Hrest by (now apply lookup_ge_None).
        discriminate.
    + replace (Z.of_nat n + 1) with (Z.of_nat (S n)) by lia.
      now rewrite IH by (lia || assumption).
Qed.

Lemma index_parse_records (resp : string) :
  headers_complete (Str.splitlines resp) = true ->
  Index.parse_unread resp = Some (Returned (records (Str.splitlines resp))).
Proof.
  intros Hc. unfold Index.parse_unread.
  change 0 with (Z.of_nat 0). rewrite index_read_loop.
  - now rewrite drop_0.
  - lia.
  - now rewrite drop_0.
Qed.

(** Where no body looks like a header, reading record by record gives
    one message per header line. *)
Lemma records_per_header_line (lines : list string) :
  bodies_plain lines = true -> records lines = per_header_line lines.
Proof.
  induction lines as [|l rest IH]; [reflexivity|].
  cbn [bodies_plain records per_header_line]. intros H.
  apply andb_true_iff in H as [Hl Hrest]. specialize (IH Hrest).
  destruct (is_header l) eqn:Hh; [|exact IH].
  destruct rest as [|b rest']; [reflexivity|].
  cbn [head]. f_equal. rewrite <- IH.
  cbn [records]. cbn in Hl. apply negb_true_iff in Hl. now rewrite Hl.
Qed.

(** ** Facts on the [str] methods *)

Lemma digit_not_space (c : ascii) :
  Str.isdigit_c c = true -> Str.isspace_c c = false.
Proof. each_char c; vm_compute; congruence. Qed.

Lemma decimal_is_digit (c : ascii) :
  Str.isdecimal_c c = true -> Str.isdigit_c c = true.
Proof. unfold Str.isdigit_c. now intros ->. Qed.

Lemma space_lower (c : ascii) :
  Str.isspace_c c = true -> Str.lower_c c = c.
Proof. each_char c; vm_compute; congruence. Qed.

Lemma lower_v (c : ascii) : Str.lower_c c = "v"%char <-> letter_v c.
Proof.
  unfold letter_v. split.
  - each_char c; vm_compute; intros H; try discriminate H; auto.
  - intros [-> | ->]; reflexivity.
Qed.

Lemma lower_s (c : ascii) : Str.lower_c c = "s"%char <-> letter_s c.
Proof.
  unfold letter_s. split.
  - each_char c; vm_compute; intros H; try discriminate H; auto.
  - intros [-> | ->]; reflexivity.
Qed.

Lemma lower_l (c : ascii) : Str.lower_c c = "l"%char <-> letter_l c.
Proof.
  unfold letter_l. split.
  - each_char c; vm_compute; intros H; try discriminate H; auto.
  - intros [-> | ->]; reflexivity.
Qed.

Lemma lower_a (c : ascii) : Str.lower_c c = "a"%char <-> letter_a c.
Proof.
  unfold letter_a. split.
  - each_char c; vm_compute; intros H; try discriminate H; auto.
  - intros [-> | ->]; reflexivity.
Qed.

(** *** [strip] *)

Lemma lstrip_digits (s : string) :
  Str.all_c Str.isdigit_c s = true -> Str.lstrip s = s.
Proof.
  destruct s as [|c s]; [reflexivity|]. cbn [Str.all_c Str.lstrip]. intros H.
  apply andb_true_iff in H as [Hc _]. now rewrite (digit_not_space _ Hc).
Qed.

Lemma rstrip_digits (s : string) :
  Str.all_c Str.isdigit_c s = true -> Str.rstrip s = s.
Proof.
  induction s as [|c s IH]; [reflexivity|]. cbn [Str.all_c Str.rstrip]. intros H.
  apply andb_true_iff in H as [Hc Hs]. rewrite (IH Hs).
  destruct s; [now rewrite (digit_not_space _ Hc) | reflexivity].
Qed.

(** A text that [isdigit] accepts has no blanks to strip. *)
Lemma strip_isdigit (s : string) : Str.isdigit s = true -> Str.strip s = s.
Proof.
  intros H. assert (Ha : Str.all_c Str.isdigit_c s = true).
  { destruct s; [discriminate | exact H]. }
  unfold Str.strip. now rewrite (lstrip_digits _ Ha), (rstrip_digits _ Ha).
Qed.

Lemma rstrip_cons (c : ascii) (s : string) :
  Str.rstrip (String c s) =
  match Str.rstrip s with
  | EmptyString => if Str.isspace_c c then EmptyString else String c EmptyString
  | r => String c r
  end.
Proof. reflexivity. Qed.

(** [strip] is idempotent: a stripped text has nothing left to strip. *)
Lemma lstrip_rstrip_head (s : string) :
  Str.lstrip s = s -> Str.lstrip (Str.rstrip s) = Str.rstrip s.
Proof.
  destruct s as [|c s]; [reflexivity|]. cbn [Str.lstrip]. 
  destruct (Str.isspace_c c) eqn:Hc.
  - intros H. exfalso.
    assert (Hlen : forall t, (String.length (Str.lstrip t) <= String.length t)%nat).
    { induction t as [|d t IHt]; cbn [Str.lstrip String.length]; [lia|].
      destruct (Str.isspace_c d); cbn [String.length]; lia. }
    specialize (Hlen s). rewrite H in Hlen. cbn [String.length] in Hlen. lia.
  - intros _. rewrite rstrip_cons.
    destruct (Str.rstrip s); rewrite ?Hc; cbn [Str.lstrip]; now rewrite Hc.
Qed.

Lemma lstrip_idem (s : string) : Str.lstrip (Str.lstrip s) = Str.lstrip s.
Proof.
  induction s as [|c s IH]; [reflexivity|]. cbn [Str.lstrip].
  destruct (Str.isspace_c c) eqn:Hc; [exact IH|]. cbn [Str.lstrip]. now rewrite Hc.
Qed.

Lemma rstrip_idem (s : string) : Str.rstrip (Str.rstrip s) = Str.rstrip s.
Proof.
  induction s as [|c s IH]; [reflexivity|]. rewrite rstrip_cons.
  destruct (Str.rstrip s) as [|d r] eqn:Hr.
  - destruct (Str.isspace_c c) eqn:Hc; [reflexivity|].
    cbn [Str.rstrip]. now rewrite Hc.
  - rewrite rstrip_cons, IH. reflexivity.
Qed.

Lemma strip_idem (s : string) : Str.strip (Str.strip s) = Str.strip s.
Proof.
  unfold Str.strip.
  rewrite (lstrip_rstrip_head (Str.lstrip s) (lstrip_idem s)).
  apply rstrip_idem.
Qed.

(** *** The trigger keyword *)

Lemma prefix_nil (s : string) : String.prefix EmptyString s = true.
Proof. now destruct s. Qed.

Lemma prefix_vsla (s : string) :
  String.prefix "vsla" (Str.lower s) = true <->
  exists (v s0 l a : ascii) (post : string),
    s = String v (String s0 (String l (String a post))) /\
    letter_v v /\ letter_s s0 /\ letter_l l /\ letter_a a.
Proof.
  split.
  - destruct s as [|v [|s0 [|l [|a post]]]]; cbn [Str.lower String.prefix];
      repeat match goal with
             | |- context [ascii_dec ?x ?y] => destruct (ascii_dec x y); try discriminate
             end; try discriminate.
    intros _. exists v, s0, l, a, post. split; [reflexivity|].
    repeat split;
      [apply lower_v | apply lower_s | apply lower_l | apply lower_a]; congruence.
  - intros (v & s0 & l & a & post & -> & Hv & Hs & Hl & Ha).
    apply lower_v in Hv. apply lower_s in Hs. apply lower_l in Hl.
    apply lower_a in Ha. cbn [Str.lower String.prefix].
    rewrite Hv, Hs, Hl, Ha.
    repeat match goal with
           | |- context [ascii_dec ?x ?y] => destruct (ascii_dec x y); [|congruence]
           end.
    apply prefix_nil.
Qed.

(** The test of the scripts, [("vsla" in s.lower())], against the wording
    of the specification. *)
Lemma contains_vsla (s : string) :
  Str.contains "vsla" (Str.lower s) = true <-> has_trigger s.
Proof.
  induction s as [|c s IH].
  - split; [discriminate|].
    intros (pre & post & v & s0 & l & a & H & _). destruct pre; discriminate.
  - change (Str.contains "vsla" (Str.lower (String c s)))
      with (String.prefix "vsla" (Str.lower (String c s))
            || Str.contains "vsla" (Str.lower s)).
    rewrite orb_true_iff, prefix_vsla, IH. split.
    + intros [(v & s0 & l & a & post & E & H)|(pre & post & v & s0 & l & a & E & H)].
      * exists EmptyString, post, v, s0, l, a. now split.
      * exists (String c pre), post, v, s0, l, a. rewrite E. now split.
    + intros (pre & post & v & s0 & l & a & E & H). destruct pre as [|d pre].
      * left. exists v, s0, l, a, post. now split.
      * right. injection E as -> E. exists pre, post, v, s0, l, a. now split.
Qed.

Lemma prefix_space (a c : ascii) (n s : string) :
  Str.isspace_c a = false -> Str.isspace_c c = true ->
  String.prefix (String a n) (String (Str.lower_c c) s) = false.
Proof.
  intros Ha Hc. cbn [String.prefix]. rewrite (space_lower _ Hc).
  destruct (ascii_dec a c) as [->|]; [congruence | reflexivity].
Qed.

Lemma prefix_lower_rstrip (s : string) :
  forall n, no_space n = true ->
    String.prefix n (Str.lower (Str.rstrip s)) = String.prefix n (Str.lower s).
Proof.
  induction s as [|c s IH]; intros n Hn; [reflexivity|].
  rewrite rstrip_cons.
  destruct n as [|a n].
  { now rewrite !prefix_nil. }
  unfold no_space in Hn. cbn [Str.all_c] in Hn.
  apply andb_true_iff in Hn as [Ha Hn]. apply negb_true_iff in Ha.
  specialize (IH n Hn).
  destruct (Str.rstrip s) as [|d r].
  - destruct (Str.isspace_c c) eqn:Hc.
    + cbn [Str.lower]. now rewrite prefix_space.
    + cbn [Str.lower String.prefix] in *. now rewrite IH.
  - cbn [Str.lower String.prefix] in *. now rewrite IH.
Qed.

Lemma contains_lower_rstrip (n s : string) :
  no_space n = true ->
  Str.contains n (Str.lower (Str.rstrip s)) = Str.contains n (Str.lower s).
Proof.
  intros Hn. induction s as [|c s IH]; [reflexivity|].
  pose proof (prefix_lower_rstrip (String c s) n Hn) as Hp.
  change (Str.contains n (Str.lower (String c s)))
    with (String.prefix n (Str.lower (String c s))
          || Str.contains n (Str.lower s)).
  rewrite <- Hp, <- IH. clear Hp IH.
  rewrite rstrip_cons.
  destruct (Str.rstrip s) as [|d r].
  - destruct (Str.isspace_c c); cbn [Str.lower Str.contains].
    + now destruct (String.prefix n EmptyString).
    + reflexivity.
  - reflexivity.
Qed.

Lemma contains_lower_lstrip (a : ascii) (n s : string) :
  no_space (String a n) = true ->
  Str.contains (String a n) (Str.lower (Str.lstrip s)) =
  Str.contains (String a n) (Str.lower s).
Proof.
  intros Hn. induction s as [|c s IH]; [reflexivity|].
  cbn [Str.lstrip]. destruct (Str.isspace_c c) eqn:Hc; [|reflexivity].
  rewrite IH. cbn [Str.lower Str.contains].
  unfold no_space in Hn. cbn [Str.all_c] in Hn.
  apply andb_true_iff in Hn as [Ha _]. apply negb_true_iff in Ha.
  now rewrite prefix_space.
Qed.

(** The trigger test of both scripts, as the specification words it: the
    stripped text, lowered, holds "vsla" exactly when the text holds the
    four letters in a row in any case. *)
Lemma trigger_gate (text : string) :
  Str.contains "vsla" (Str.lower (Str.strip text)) = true <-> has_trigger text.
Proof.
  unfold Str.strip.
  rewrite contains_lower_rstrip, contains_lower_lstrip by reflexivity.
  apply contains_vsla.
Qed.

Lemma trigger_gate_false (text : string) :
  Str.contains "vsla" (Str.lower (Str.strip text)) = false <-> ~ has_trigger text.
Proof.
  rewrite <- trigger_gate. destruct (Str.contains _ _); split; congruence.
Qed.

(** A text with the trigger is none of the three language codes. *)
Lemma trigger_is_no_choice (text : string) :
  Str.contains "vsla" (Str.lower text) = true ->
  FullBot.language_choice text = None.
Proof.
  intros H. unfold FullBot.language_choice.
  repeat match goal with
         | |- context [String.eqb text ?k] =>
             destruct (String.eqb_spec text k) as [->|_]; [discriminate H|]
         end.
  reflexivity.
Qed.

(** ** The branches of [handle_message] in fullBot.py *)

Lemma get_session_some (phone : string) (w : FullBot.world) (s : FullBot.session) :
  FullBot.sessions w !! phone = Some s ->
  FullBot.get_session phone w = (Returned s, w).
Proof. intros H. unfold FullBot.get_session. now rewrite H. Qed.

Lemma update_session_some (phone : string) (f : FullBot.session -> FullBot.session)
    (w : FullBot.world) (s : FullBot.session) :
  FullBot.sessions w !! phone = Some s ->
  FullBot.update_session phone f w =
  (Returned tt, FullBot.set_sessions (<[phone := f s]> (FullBot.sessions w)) w).
Proof.
  intros H. unfold FullBot.update_session. exec.
  now rewrite (get_session_some _ _ _ H).
Qed.

Lemma question_at (l : FullBot.language) (k : Z) :
  1 <= k <= 7 ->
  Str.getitem (FullBot.followup_questions l) (k - 1) = Returned (question l k).
Proof.
  intros H.
  assert (k = 1 \/ k = 2 \/ k = 3 \/ k = 4 \/ k = 5 \/ k = 6 \/ k = 7) as Hk by lia.
  destruct l; repeat destruct Hk as [->|Hk]; subst; reflexivity.
Qed.

Lemma group_at (gid : Z) :
  1 <= gid <= 17 ->
  Str.getitem FullBot.groupNames gid = Returned (group_name gid).
Proof.
  intros H. unfold Str.getitem, group_name.
  assert (E : (gid <? 0) = false) by (apply Z.ltb_ge; lia). rewrite !E.
  destruct (lookup_lt_is_Some_2 FullBot.groupNames (Z.to_nat gid)) as [g Hg].
  { cbn. lia. }
  now rewrite Hg.
Qed.

(** No session and no trigger: nothing happens at all. *)
Lemma step_ignored (phone text : string) (now : Z) (stamp : string)
    (w : FullBot.world) :
  FullBot.sessions w !! phone = None ->
  Str.contains "vsla" (Str.lower (Str.strip text)) = false ->
  FullBot.handle_message phone text now stamp w = (Returned tt, w).
Proof.
  intros Hs Ht. unfold FullBot.handle_message. exec.
  rewrite Hs, Ht.
  rewrite bool_decide_eq_false_2 by (intros [x Hx]; discriminate).
  reflexivity.
Qed.

(** No session and the trigger: a session at the language step. *)
Lemma step_opened (phone text : string) (now : Z) (stamp : string)
    (w : FullBot.world) :
  FullBot.sessions w !! phone = None ->
  Str.contains "vsla" (Str.lower (Str.strip text)) = true ->
  handled phone text now stamp w
    (<[phone := FullBot.new_session now]> (FullBot.sessions w))
    (FullBot.csv_file w) [FullBot.LANGUAGE_MENU].
Proof.
  intros Hs Ht. unfold handled, FullBot.handle_message. exec.
  rewrite Hs, Ht.
  rewrite bool_decide_eq_false_2 by (intros [x Hx]; discriminate).
  cbn [negb andb default from_option FullBot.step FullBot.touch FullBot.lang
       FullBot.new_session Z.eqb Pos.eqb].
  exec. rewrite (trigger_is_no_choice _ Ht).
  send_step_by send_sms_frame. finish_handled.
Qed.

Lemma step_language_invalid (phone text : string) (now : Z) (stamp : string)
    (w : FullBot.world) (s : FullBot.session) :
  FullBot.sessions w !! phone = Some s ->
  FullBot.step s = -1 ->
  FullBot.language_choice (Str.strip text) = None ->
  handled phone text now stamp w
    (<[phone := FullBot.touch now s]> (FullBot.sessions w))
    (FullBot.csv_file w) [FullBot.LANGUAGE_MENU].
Proof.
  intros Hs Hstep Hchoice. enter_session Hs.
  rewrite Hstep. cbn [Z.eqb Pos.eqb]. rewrite Hchoice.
  send_step_by send_sms_frame. finish_handled.
Qed.

Lemma step_language_chosen (phone text : string) (now : Z) (stamp : string)
    (w : FullBot.world) (s : FullBot.session) (l : FullBot.language) :
  FullBot.sessions w !! phone = Some s ->
  FullBot.step s = -1 ->
  FullBot.language_choice (Str.strip text) = Some l ->
  handled phone text now stamp w
    (<[phone := FullBot.set_step 0 (FullBot.set_lang (Some l) (FullBot.touch now s))]>
       (FullBot.sessions w))
    (FullBot.csv_file w) (group_prompt l).
Proof.
  intros Hs Hstep Hchoice. enter_session Hs.
  rewrite Hstep. cbn [Z.eqb Pos.eqb]. rewrite Hchoice.
  erewrite update_session_some by (cbn; apply lookup_insert_eq). exec.
  erewrite update_session_some by (cbn; apply lookup_insert_eq). exec.
  unfold FullBot.group_list_for. exec.
  destruct (FullBot.group_list_parts l) as [p1 p2] eqn:Hp.
  send_step_by send_sms_frame. send_step_by send_sms_frame. unfold group_prompt. rewrite Hp. finish_handled.
Qed.

(** The group step, a number from 1 to 17. *)
Lemma step_group_chosen (phone text : string) (now : Z) (stamp : string)
    (w : FullBot.world) (s : FullBot.session) (l : FullBot.language) (gid : Z) :
  FullBot.sessions w !! phone = Some s ->
  FullBot.step s = 0 ->
  FullBot.lang s = Some l ->
  Str.isdigit (Str.strip text) = true ->
  Str.int (Str.strip text) = Returned gid ->
  1 <= gid <= 17 ->
  handled phone text now stamp w
    (<[phone := FullBot.set_step 1
                  (FullBot.set_group (Some (group_name gid)) (FullBot.touch now s))]>
       (FullBot.sessions w))
    (FullBot.csv_file w) [question l 1].
Proof.
  intros Hs Hstep Hlang Hdigit Hint Hrange. enter_session Hs.
  rewrite Hstep. cbn [Z.eqb Pos.eqb].
  unfold FullBot.group_number_ok. rewrite Hdigit. exec. rewrite Hint.
  rewrite (proj2 (Z.leb_le 1 gid)), (proj2 (Z.leb_le gid 17)) by lia.
  cbn [andb]. rewrite (group_at _ Hrange).
  erewrite update_session_some by (cbn; apply lookup_insert_eq). exec.
  erewrite update_session_some by (cbn; apply lookup_insert_eq). exec.
  rewrite Hlang. unfold FullBot.questions_for. exec.
  change 0 with (1 - 1). rewrite question_at by lia.
  send_step_by send_sms_frame. finish_handled.
Qed.

(** The group step, a text that [isdigit] rejects or a number out of
    range. *)
Lemma step_group_invalid (phone text : string) (now : Z) (stamp : string)
    (w : FullBot.world) (s : FullBot.session) (l : FullBot.language) :
  FullBot.sessions w !! phone = Some s ->
  FullBot.step s = 0 ->
  FullBot.lang s = Some l ->
  (Str.isdigit (Str.strip text) = false \/
   exists gid, Str.int (Str.strip text) = Returned gid /\ ~ 1 <= gid <= 17) ->
  handled phone text now stamp w
    (<[phone := FullBot.touch now s]> (FullBot.sessions w))
    (FullBot.csv_file w)
    [ "Invalid group number. " +:+ (FullBot.group_list_parts l).1;
      (FullBot.group_list_parts l).2 ].
Proof.
  intros Hs Hstep Hlang Hbad. enter_session Hs.
  rewrite Hstep. cbn [Z.eqb Pos.eqb].
  unfold FullBot.group_number_ok.
  destruct (Str.isdigit (Str.strip text)) eqn:Hdigit.
  - destruct Hbad as [?|(gid & Hint & Hout)]; [discriminate|].
    exec. rewrite Hint.
    replace ((1 <=? gid) && (gid <=? 17)) with false
      by (symmetry; apply andb_false_iff; rewrite Z.leb_gt, Z.leb_gt; lia).
    rewrite Hlang. unfold FullBot.group_list_for. exec.
    destruct (FullBot.group_list_parts l) as [p1 p2].
    send_step_by send_sms_frame. send_step_by send_sms_frame. finish_handled.
  - exec. rewrite Hlang. unfold FullBot.group_list_for. exec.
    destruct (FullBot.group_list_parts l) as [p1 p2].
    send_step_by send_sms_frame. send_step_by send_sms_frame. finish_handled.
Qed.

(** The group step, a text that [isdigit] accepts and [int] does not:
    the [ValueError] leaves the handler, nothing is sent. *)
Lemma step_group_raises (phone text : string) (now : Z) (stamp : string)
    (w : FullBot.world) (s : FullBot.session) :
  FullBot.sessions w !! phone = Some s ->
  FullBot.step s = 0 ->
  Str.isdigit (Str.strip text) = true ->
  Str.int (Str.strip text) = Raised ValueError ->
  FullBot.handle_message phone text now stamp w =
  (Raised ValueError,
   FullBot.set_sessions (<[phone := FullBot.touch now s]> (FullBot.sessions w)) w).
Proof.
  intros Hs Hstep Hdigit Hint.
  unfold FullBot.handle_message; exec.
  rewrite Hs. rewrite bool_decide_eq_true_2 by eauto.
  cbn [negb andb default from_option FullBot.step FullBot.touch FullBot.lang].
  exec. rewrite Hstep. cbn [Z.eqb Pos.eqb].
  unfold FullBot.group_number_ok. rewrite Hdigit. exec. rewrite Hint.
  reflexivity.
Qed.

(** An answer step before the last. *)
Lemma step_answer (phone text : string) (now : Z) (stamp : string)
    (w : FullBot.world) (s : FullBot.session) (l : FullBot.language) :
  FullBot.sessions w !! phone = Some s ->
  1 <= FullBot.step s <= 6 ->
  FullBot.lang s = Some l ->
  Str.isdigit (Str.strip text) = true ->
  handled phone text now stamp w
    (<[phone := FullBot.set_step (FullBot.step s + 1)
                  (FullBot.append_answer (Str.strip text) (FullBot.touch now s))]>
       (FullBot.sessions w))
    (FullBot.csv_file w) [question l (FullBot.step s + 1)].
Proof.
  intros Hs Hstep Hlang Hdigit. enter_session Hs.
  rewrite (proj2 (Z.eqb_neq (FullBot.step s) (-1))) by lia.
  rewrite (proj2 (Z.eqb_neq (FullBot.step s) 0)) by lia.
  rewrite (proj2 (Z.leb_le 1 (FullBot.step s))) by lia.
  rewrite (proj2 (Z.leb_le (FullBot.step s) 7)) by lia.
  cbn [andb]. rewrite Hdigit.
  erewrite update_session_some by (cbn; apply lookup_insert_eq). exec.
  erewrite update_session_some by (cbn; apply lookup_insert_eq). exec.
  erewrite get_session_some by (cbn; apply lookup_insert_eq).
  cbn [FullBot.step FullBot.lang FullBot.set_step FullBot.append_answer
       FullBot.touch].
  rewrite (proj2 (Z.leb_le (FullBot.step s + 1) 7)) by lia.
  rewrite Hlang. unfold FullBot.questions_for. exec.
  replace (FullBot.step s + 1 - 1) with ((FullBot.step s + 1) - 1) by lia.
  rewrite question_at by lia.
  send_step_by send_sms_frame. finish_handled.
Qed.

(** The last answer step: the session is deleted, the report written,
    the sender thanked. *)
Lemma step_last_answer (phone text : string) (now : Z) (stamp : string)
    (w : FullBot.world) (s : FullBot.session) :
  FullBot.sessions w !! phone = Some s ->
  FullBot.step s = 7 ->
  Str.isdigit (Str.strip text) = true ->
  handled phone text now stamp w
    (delete phone (FullBot.sessions w))
    (with_row
       (FullBot.report_row phone (FullBot.lang s) (FullBot.group s)
          (FullBot.answers s ++ [Str.strip text]) stamp)
       (FullBot.csv_file w))
    [FullBot.THANK_YOU].
Proof.
  intros Hs Hstep Hdigit. enter_session Hs.
  rewrite Hstep. cbn [Z.eqb Pos.eqb Z.leb Z.compare Pos.compare Pos.compare_cont andb].
  rewrite Hdigit.
  erewrite update_session_some by (cbn; apply lookup_insert_eq). exec.
  erewrite update_session_some by (cbn; apply lookup_insert_eq). exec.
  erewrite !get_session_some by (cbn; apply lookup_insert_eq).
  cbn [FullBot.step FullBot.lang FullBot.set_step FullBot.append_answer
       FullBot.touch FullBot.answers FullBot.group].
  rewrite Hstep. change (7 + 1 <=? 7) with false. exec.
  erewrite get_session_some by (cbn; apply lookup_insert_eq).
  cbn [FullBot.lang FullBot.set_step FullBot.append_answer FullBot.touch
       FullBot.answers FullBot.group].
  unfold FullBot.save_to_csv. exec.
  send_step_by send_sms_frame. unfold with_row. finish_handled.
  split; [apply delete_insert_eq | auto].
Qed.

(** An answer step, a text that [isdigit] rejects. *)
Lemma step_answer_invalid (phone text : string) (now : Z) (stamp : string)
    (w : FullBot.world) (s : FullBot.session) (l : FullBot.language) :
  FullBot.sessions w !! phone = Some s ->
  1 <= FullBot.step s <= 7 ->
  FullBot.lang s = Some l ->
  Str.isdigit (Str.strip text) = false ->
  handled phone text now stamp w
    (<[phone := FullBot.touch now s]> (FullBot.sessions w))
    (FullBot.csv_file w)
    ["Invalid number. " +:+ question l (FullBot.step s)].
Proof.
  intros Hs Hstep Hlang Hdigit. enter_session Hs.
  rewrite (proj2 (Z.eqb_neq (FullBot.step s) (-1))) by lia.
  rewrite (proj2 (Z.eqb_neq (FullBot.step s) 0)) by lia.
  rewrite (proj2 (Z.leb_le 1 (FullBot.step s))) by lia.
  rewrite (proj2 (Z.leb_le (FullBot.step s) 7)) by lia.
  cbn [andb]. rewrite Hdigit.
  rewrite Hlang. unfold FullBot.questions_for. exec.
  rewrite question_at by lia.
  send_step_by send_sms_frame. finish_handled.
Qed.

(** ** The first step of [handle_response] in index.py *)

(** Without a session and without the trigger, index.py opens a session
    at step 0 and answers with a hint. *)
Lemma index_step_hint (phone message : string) (now : Z) (stamp : string)
    (w : Index.world) :
  Index.sessions w !! phone = None ->
  Str.contains "vsla" (Str.lower (Str.strip message)) = false ->
  Index.handle_response phone message now stamp w =
  (Returned "Please start your message with 'VSLA' to report.",
   Index.World (<[phone := Index.new_session now]> (Index.sessions w))
     (Index.csv_file w) (Index.port w)).
Proof.
  intros Hs Ht. unfold Index.handle_response. exec_index.
  rewrite Hs, Ht. reflexivity.
Qed.

(** Without a session and with the trigger, index.py opens a session and
    moves it to the group step at once. *)
Lemma index_step_welcome (phone message : string) (now : Z) (stamp : string)
    (w : Index.world) :
  Index.sessions w !! phone = None ->
  Str.contains "vsla" (Str.lower (Str.strip message)) = true ->
  Index.handle_response phone message now stamp w =
  (Returned "Welcome! Choose your group number (1-17):",
   Index.World (<[phone := Index.set_step 1 (Index.new_session now)]> (Index.sessions w))
     (Index.csv_file w) (Index.port w)).
Proof.
  intros Hs Ht. unfold Index.handle_response. exec_index.
  rewrite Hs, Ht. cbn [default from_option Index.touch Index.new_session Index.step
                       Index.data Z.eqb].
  unfold Index.set_sessions. cbn [Index.sessions Index.csv_file Index.port].
  now rewrite alter_insert_eq.
Qed.

(** ** The later steps of [handle_response] in index.py *)

(** A text that [isdigit] rejects, or a group number out of range,
    leaves the session of index.py where it was. *)
Lemma index_step_invalid (phone message : string) (now : Z) (stamp : string)
    (w : Index.world) (s : Index.session) :
  Index.sessions w !! phone = Some s ->
  1 <= Index.step s <= 6 ->
  (Str.isdigit (Str.strip message) = false \/
   (Index.step s = 1 /\
    exists gid, Str.int (Str.strip message) = Returned gid /\ ~ 1 <= gid <= 17)) ->
  exists reply,
    Index.handle_response phone message now stamp w =
    (Returned reply,
     Index.World (<[phone := Index.touch now s]> (Index.sessions w))
       (Index.csv_file w) (Index.port w)).
Proof.
  intros Hs Hstep Hbad. index_enter Hs.
  assert (Hk : Index.step s = 1 \/ Index.step s = 2 \/ Index.step s = 3 \/
               Index.step s = 4 \/ Index.step s = 5 \/ Index.step s = 6) by lia.
  unfold Index.group_number_ok, Index.amount_step.
  destruct Hbad as [Hd | (H1 & gid & Hint & Hout)].
  - repeat destruct Hk as [Hk|Hk]; rewrite Hk; cbn [Z.eqb Pos.eqb];
      rewrite Hd; exec_index; eexists; reflexivity.
  - rewrite H1. cbn [Z.eqb Pos.eqb].
    destruct (Str.isdigit (Str.strip message)); exec_index;
      [| eexists; reflexivity].
    rewrite Hint.
    replace ((1 <=? gid) && (gid <=? 17)) with false
      by (symmetry; apply andb_false_iff; rewrite Z.leb_gt, Z.leb_gt; lia).
    eexists; reflexivity.
Qed.

Lemma index_group_at (gid : Z) :
  1 <= gid <= 17 ->
  exists name, Str.getitem Index.groupNames gid = Returned name.
Proof.
  intros H. unfold Str.getitem.
  assert (E : (gid <? 0) = false) by (apply Z.ltb_ge; lia). rewrite !E.
  destruct (lookup_lt_is_Some_2 Index.groupNames (Z.to_nat gid)) as [g Hg].
  { cbn. lia. }
  rewrite Hg. eauto.
Qed.

(** The group step of index.py, a text that [isdigit] accepts and [int]
    does not. *)
Lemma index_step_group_raises (phone message : string) (now : Z) (stamp : string)
    (w : Index.world) (s : Index.session) :
  Index.sessions w !! phone = Some s ->
  Index.step s = 1 ->
  Str.isdigit (Str.strip message) = true ->
  Str.int (Str.strip message) = Raised ValueError ->
  Index.handle_response phone message now stamp w =
  (Returned Index.ERROR_REPLY,
   Index.World (<[phone := Index.touch now s]> (Index.sessions w))
     (Index.csv_file w) (Index.port w)).
Proof.
  intros Hs Hstep Hd Hint. index_enter Hs.
  rewrite Hstep. cbn [Z.eqb Pos.eqb].
  unfold Index.group_number_ok. rewrite Hd. exec_index. rewrite Hint.
  reflexivity.
Qed.

(** A valid text moves the session of index.py one step on; after the
    last step the report is written and the session deleted. *)
Lemma index_step_valid (phone message : string) (now : Z) (stamp : string)
    (w : Index.world) (s : Index.session) :
  Index.sessions w !! phone = Some s ->
  index_session_ok s ->
  Str.isdigit (Str.strip message) = true ->
  (Index.step s = 1 ->
   exists gid, Str.int (Str.strip message) = Returned gid /\ 1 <= gid <= 17) ->
  index_accepted phone message now stamp w.
Proof.
  intros Hs [Hstep Hdata] Hd Hgroup. unfold index_accepted. rewrite Hs.
  index_enter Hs.
  assert (Hk : Index.step s = 1 \/ Index.step s = 2 \/ Index.step s = 3 \/
               Index.step s = 4 \/ Index.step s = 5 \/ Index.step s = 6) by lia.
  unfold Index.group_number_ok, Index.amount_step.
  destruct Hk as [Hk|Hk]; [|repeat destruct Hk as [Hk|Hk]].
  - destruct (Hgroup Hk) as (gid & Hint & Hrange).
    destruct (index_group_at gid Hrange) as [name Hname].
    rewrite Hk. cbn [Z.eqb Pos.eqb]. rewrite Hd. exec_index. rewrite Hint.
    rewrite (proj2 (Z.leb_le 1 gid)), (proj2 (Z.leb_le gid 17)) by lia.
    cbn [andb]. rewrite Hname. index_done.
    do 2 eexists. split; [reflexivity|].
    cbn [Index.sessions]. now rewrite lookup_insert_eq.
  - rewrite Hk. cbn [Z.eqb Pos.eqb]. rewrite Hd. exec_index. index_done.
    do 2 eexists. split; [reflexivity|].
    cbn [Index.sessions]. now rewrite lookup_insert_eq.
  - rewrite Hk. cbn [Z.eqb Pos.eqb]. rewrite Hd. exec_index. index_done.
    do 2 eexists. split; [reflexivity|].
    cbn [Index.sessions]. now rewrite lookup_insert_eq.
  - rewrite Hk. cbn [Z.eqb Pos.eqb]. rewrite Hd. exec_index. index_done.
    do 2 eexists. split; [reflexivity|].
    cbn [Index.sessions]. now rewrite lookup_insert_eq.
  - rewrite Hk. cbn [Z.eqb Pos.eqb]. rewrite Hd. exec_index. index_done.
    do 2 eexists. split; [reflexivity|].
    cbn [Index.sessions]. now rewrite lookup_insert_eq.
  - destruct (Hdata Hk) as ([g Hg] & [a Ha] & [b Hb] & [c Hc] & [d Hdd]).
    rewrite Hk. cbn [Z.eqb Pos.eqb]. rewrite Hd. exec_index. index_done.
    rewrite lookup_insert_eq. cbn [fmap option_fmap option_map default from_option
                                   Index.data Index.set_data Index.touch].
    unfold Index.save_to_csv. exec_index.
    unfold Index.report_row, Index.field.
    rewrite lookup_insert_eq.
    rewrite !lookup_insert_ne by discriminate.
    rewrite lookup_insert_eq, Hg, Ha, Hb, Hc, Hdd. cbn [rbind].
    unfold Dict.del. index_done.
    destruct (Index.csv_file w) as [rows|];
      cbn [Index.sessions Index.csv_file Index.port];
      rewrite lookup_insert_eq;
      (do 2 eexists; split; [reflexivity|]);
      cbn [Index.sessions]; now rewrite lookup_delete_eq.
Qed.

(** A whole conversation with index.py: before the last answer the
    session holds all the answers the report needs, and the last answer
    writes the report and deletes the session. *)
Example index_conversation :
  (exists s,
     Index.sessions
       (index_feed "265991112222"
          [ Inbound "VSLA" 10 "t"; Inbound "3" 20 "t"; Inbound "5000" 30 "t";
            Inbound "12" 40 "t"; Inbound "300" 50 "t"; Inbound "0" 60 "t" ]
          index_fresh) !! "265991112222" = Some s /\
     Index.step s = 6 /\ data_complete (Index.data s)) /\
  Index.csv_file
    (index_feed "265991112222"
       [ Inbound "VSLA" 10 "t"; Inbound "3" 20 "t"; Inbound "5000" 30 "t";
         Inbound "12" 40 "t"; Inbound "300" 50 "t"; Inbound "0" 60 "t";
         Inbound "250" 70 "t7" ]
       index_fresh) =
  Some [ Index.CSV_HEADER;
         [ "265991112222"; "Chimnyanga H&C Women's Group"; "5000"; "12"; "300";
           "0"; "250"; "t7" ] ].
Proof.
  split.
  - eexists. split; [vm_compute; reflexivity|]. split; [reflexivity|].
    repeat split; eexists; reflexivity.
  - vm_compute. reflexivity.
Qed.

(** ** Valid and invalid input in fullBot.py *)

Lemma all_c_ext (p q : ascii -> bool) (s : string) :
  Str.all_c (fun c => Bool.eqb (p c) (q c)) s = true ->
  Str.all_c p s = Str.all_c q s.
Proof.
  induction s as [|c s IH]; cbn [Str.all_c]; [reflexivity|].
  intros H. apply andb_true_iff in H as [Hc Hs].
  apply Bool.eqb_prop in Hc. now rewrite Hc, IH.
Qed.

(** Without superscript digits, [isdigit] asks for decimal digits. *)
Lemma isdigit_decimal_text (t : string) :
  no_superscript t = true -> Str.isdigit t = decimal_text t.
Proof.
  intros H. destruct t as [|c t]; [reflexivity|].
  unfold Str.isdigit, decimal_text. apply all_c_ext.
  revert H. unfold no_superscript. generalize (String c t). clear.
  intros s. induction s as [|c s IH]; cbn [Str.all_c]; [reflexivity|].
  intros H. apply andb_true_iff in H as [Hc Hs]. rewrite (IH Hs), andb_true_r.
  unfold Str.isdigit_c in *. destruct (Str.isdecimal_c c); [reflexivity|].
  cbn [orb implb] in *. destruct (_ || _ || _); [discriminate | reflexivity].
Qed.

(** Decimal digits are digits of [isdigit]. *)
Lemma decimal_text_isdigit (t : string) :
  decimal_text t = true -> Str.isdigit t = true.
Proof.
  destruct t as [|c t]; [discriminate|].
  unfold decimal_text, Str.isdigit. generalize (String c t). intros u.
  induction u as [|d u IH]; [reflexivity|].
  cbn [Str.all_c]. intros H. apply andb_true_iff in H as [Hd Hu].
  now rewrite (decimal_is_digit _ Hd), IH.
Qed.

(** [int] converts the texts of decimal digits that are not too long,
    and them only. *)
Lemma int_returns (t : string) (n : Z) :
  Str.int t = Returned n <->
  decimal_text t = true /\ within_limit t /\ n = Str.decimal_value t.
Proof.
  unfold Str.int, decimal_text, within_limit.
  destruct t as [|c t]; [split; [discriminate | now intros [? _]]|].
  destruct (Str.all_c Str.isdecimal_c (String c t)); cbn [andb].
  - destruct (Z.leb_spec (Z.of_nat (String.length (String c t))) Str.MAX_STR_DIGITS).
    + split; [intros [= <-]; auto | now intros (_ & _ & ->)].
    + split; [discriminate | intros (_ & ? & _); lia].
  - split; [discriminate | now intros [? _]].
Qed.

Lemma int_decimal_text (t : string) :
  decimal_text t = true -> within_limit t ->
  Str.int t = Returned (Str.decimal_value t).
Proof. intros H L. now apply int_returns. Qed.

(** What [int] raises is [ValueError]. *)
Lemma int_raises (t : string) (e : exn) :
  Str.int t = Raised e -> e = ValueError.
Proof.
  unfold Str.int. destruct t as [|c t]; [congruence|].
  destruct (_ && _); congruence.
Qed.

(** A text of decimal digits that is too long. *)
Lemma int_too_long (t : string) :
  decimal_text t = true -> ~ within_limit t -> Str.int t = Raised ValueError.
Proof.
  intros H L. destruct (Str.int t) as [n|e] eqn:E.
  - apply int_returns in E as (_ & ? & _). contradiction.
  - now rewrite (int_raises _ _ E).
Qed.

Lemma again_no_notice (prompt : list string) : again EmptyString prompt = prompt.
Proof. now destruct prompt. Qed.

(** In every state but the slip of the group step (a text [isdigit]
    accepts and [int] does not: a superscript digit, or more digits than
    [int] converts), a text the state does not accept changes nothing
    but [last_active], and the prompt of the state is sent again. *)
Lemma reprompt_on_invalid (phone text : string) (now : Z) (stamp : string)
    (w : FullBot.world) (s : FullBot.session) :
  FullBot.sessions w !! phone = Some s ->
  session_ok s ->
  no_superscript (Str.strip text) = true ->
  (FullBot.step s = 0 -> within_limit (Str.strip text)) ->
  accepts s (Str.strip text) = false ->
  handled phone text now stamp w
    (<[phone := FullBot.touch now s]> (FullBot.sessions w))
    (FullBot.csv_file w)
    (again (notice_of s) (prompt_of s)).
Proof.
  intros Hs Hok Hplain Hshort Hno. unfold accepts, notice_of, prompt_of in *.
  pose proof (isdigit_decimal_text _ Hplain) as Hdigit.
  destruct Hok as [Hstep | [Hstep [l Hl]]].
  - rewrite Hstep in *. cbn [Z.eqb Pos.eqb] in *. rewrite again_no_notice.
    apply step_language_invalid; try assumption.
    unfold FullBot.language_choice.
    apply orb_false_iff in Hno as [Hno H3]. apply orb_false_iff in Hno as [H1 H2].
    now rewrite H1, H2, H3.
  - rewrite (proj2 (Z.eqb_neq (FullBot.step s) (-1))) in * by lia.
    rewrite Hl. destruct (Z.eqb_spec (FullBot.step s) 0) as [H0|H0].
    + apply step_group_invalid; try assumption.
      destruct (decimal_text (Str.strip text)) eqn:Hd; [right | now left].
      exists (Str.decimal_value (Str.strip text)).
      split; [apply int_decimal_text; auto|].
      cbn [andb] in Hno. apply andb_false_iff in Hno.
      rewrite Z.leb_gt, Z.leb_gt in Hno. lia.
    + apply step_answer_invalid; try assumption; [lia | congruence].
Qed.

Lemma touch_keeps (now : Z) (s : FullBot.session) :
  FullBot.step (FullBot.touch now s) = FullBot.step s /\
  FullBot.answers (FullBot.touch now s) = FullBot.answers s /\
  FullBot.group (FullBot.touch now s) = FullBot.group s /\
  FullBot.lang (FullBot.touch now s) = FullBot.lang s.
Proof. now destruct s. Qed.

(** A text the state accepts moves the session on. *)
Lemma accepted_on_valid (phone text : string) (now : Z) (stamp : string)
    (w : FullBot.world) (s : FullBot.session) :
  FullBot.sessions w !! phone = Some s ->
  session_ok s ->
  0 <= FullBot.step s ->
  (FullBot.step s = 0 -> within_limit (Str.strip text)) ->
  accepts s (Str.strip text) = true ->
  accepted phone text now stamp w.
Proof.
  intros Hs Hok Hpos Hshort Hyes. unfold accepts in Hyes.
  destruct Hok as [Hstep | [Hstep [l Hl]]]; [lia|].
  rewrite (proj2 (Z.eqb_neq (FullBot.step s) (-1))) in Hyes by lia.
  assert (Hdec : decimal_text (Str.strip text) = true).
  { destruct (FullBot.step s =? 0); [|exact Hyes].
    apply andb_true_iff in Hyes as [Hyes _]. now apply andb_true_iff in Hyes as [? _]. }
  assert (Hdigit : Str.isdigit (Str.strip text) = true).
  { destruct (Str.strip text) as [|c t]; [discriminate|].
    unfold decimal_text in Hdec. unfold Str.isdigit.
    revert Hdec. generalize (String c t). intros u. induction u as [|d u IH]; [reflexivity|].
    cbn [Str.all_c]. intros H. apply andb_true_iff in H as [Hd Hu].
    now rewrite (decimal_is_digit _ Hd), IH. }
  unfold accepted. rewrite Hs.
  destruct (Z.eqb_spec (FullBot.step s) 0) as [H0|H0].
  - apply andb_true_iff in Hyes as [Hyes Hhi]. apply andb_true_iff in Hyes as [_ Hlo].
    apply Z.leb_le in Hlo, Hhi.
    destruct (step_group_chosen phone text now stamp w s l _ Hs H0 Hl Hdigit
                (int_decimal_text _ Hdec (Hshort H0)) (conj Hlo Hhi))
      as (w' & E & Hm & _).
    exists w'. split; [exact E|]. rewrite Hm, lookup_insert_eq. cbn. lia.
  - destruct (decide (FullBot.step s = 7)) as [H7|H7].
    + destruct (step_last_answer phone text now stamp w s Hs H7 Hdigit)
        as (w' & E & Hm & _).
      exists w'. split; [exact E|]. now rewrite Hm, lookup_delete_eq.
    + destruct (step_answer phone text now stamp w s l Hs ltac:(lia) Hl Hdigit)
        as (w' & E & Hm & _).
      exists w'. split; [exact E|]. now rewrite Hm, lookup_insert_eq.
Qed.

(** A text that leaves the session where it was is not accepted. *)
Lemma handled_in_place_not_accepted (phone text : string) (now : Z)
    (stamp : string) (w : FullBot.world) (s : FullBot.session)
    (f : option (list (list string))) (texts : list string) :
  FullBot.sessions w !! phone = Some s ->
  handled phone text now stamp w
    (<[phone := FullBot.touch now s]> (FullBot.sessions w)) f texts ->
  ~ accepted phone text now stamp w.
Proof.
  intros Hs (w1 & E1 & Hm & _) (w2 & E2 & Hmove).
  rewrite E1 in E2. injection E2 as <-.
  rewrite Hs, Hm, lookup_insert_eq in Hmove. cbn in Hmove. lia.
Qed.

(** [session_ok] is an invariant of the handler: whatever the text, and
    also when the handler raises, the sessions it leaves are in states
    the conversation can reach. *)
Lemma handle_message_keeps_sessions_ok (phone text : string) (now : Z)
    (stamp : string) (w : FullBot.world) :
  sessions_ok w ->
  sessions_ok (FullBot.handle_message phone text now stamp w).2.
Proof.
  intros Hok.
  assert (Hins : forall s', session_ok s' ->
            forall p s, <[phone := s']> (FullBot.sessions w) !! p = Some s -> session_ok s).
  { intros s' Hs' p s. destruct (decide (phone = p)) as [->|Hne].
    - rewrite lookup_insert_eq. now intros [= <-].
    - rewrite lookup_insert_ne by exact Hne. apply Hok. }
  assert (Hdel : forall p s, delete phone (FullBot.sessions w) !! p = Some s -> session_ok s).
  { intros p s. destruct (decide (phone = p)) as [->|Hne].
    - now rewrite lookup_delete_eq.
    - rewrite lookup_delete_ne by exact Hne. apply Hok. }
  assert (Hdone : forall m f texts,
            handled phone text now stamp w m f texts ->
            (forall p s, m !! p = Some s -> session_ok s) ->
            sessions_ok (FullBot.handle_message phone text now stamp w).2).
  { intros m f texts (w' & -> & <- & _) Hm. exact Hm. }
  destruct (FullBot.sessions w !! phone) as [s|] eqn:Hs.
  - pose proof (Hok _ _ Hs) as Hsok.
    assert (Htouch : session_ok (FullBot.touch now s)) by (now destruct s).
    destruct Hsok as [Hstep | [Hstep [l Hl]]].
    + destruct (FullBot.language_choice (Str.strip text)) as [l|] eqn:Hc.
      * eapply Hdone; [eapply step_language_chosen; eassumption|].
        apply Hins. right. split; [cbn; lia | now exists l].
      * eapply Hdone; [eapply step_language_invalid; eassumption|]. now apply Hins.
    + destruct (Str.isdigit (Str.strip text)) eqn:Hd.
      * destruct (decide (FullBot.step s = 0)) as [H0|H0].
        -- destruct (Str.int (Str.strip text)) as [gid|e] eqn:Hint.
           ++ destruct (decide (1 <= gid <= 17)) as [Hr|Hr].
              ** eapply Hdone; [eapply (step_group_chosen _ _ _ _ _ s l gid); eassumption|].
                 apply Hins. right. split; [cbn; lia | now exists l].
              ** eapply Hdone; [apply (step_group_invalid _ _ _ _ _ s l); eauto|].
                 now apply Hins.
           ++ assert (e = ValueError) as ->.
              { exact (int_raises _ _ Hint). }
              rewrite (step_group_raises _ _ _ _ _ s Hs H0 Hd Hint).
              intros p s'. cbn. now apply Hins.
        -- destruct (decide (FullBot.step s = 7)) as [H7|H7].
           ++ eapply Hdone; [eapply step_last_answer; eassumption|]. exact Hdel.
           ++ eapply Hdone; [apply (step_answer _ _ _ _ _ s l); auto; lia|].
              apply Hins. right. split; [cbn; lia | now exists l].
      * destruct (decide (FullBot.step s = 0)) as [H0|H0].
        -- eapply Hdone; [apply (step_group_invalid _ _ _ _ _ s l); auto|].
           now apply Hins.
        -- eapply Hdone; [apply (step_answer_invalid _ _ _ _ _ s l); auto; lia|].
           now apply Hins.
  - destruct (Str.contains "vsla" (Str.lower (Str.strip text))) eqn:Ht.
    + eapply Hdone; [eapply step_opened; eassumption|]. apply Hins. now left.
    + now rewrite step_ignored.
Qed.

(** The store of a fresh start is in order, and stays so message after
    message. *)
Lemma feed_keeps_sessions_ok (phone : string) (inputs : list inbound)
    (w : FullBot.world) :
  sessions_ok w -> sessions_ok (feed phone inputs w).
Proof.
  revert w. induction inputs as [|i rest IH]; intros w Hok; [exact Hok|].
  apply IH. now apply handle_message_keeps_sessions_ok.
Qed.

(** * The claims *)

(** ** C5: the sender's attempts *)

(** C5, on index.py: a modem that never gives a success token.  The
    claim has [send_sms] give up after exactly [MAX_RETRIES] = 3 attempts;
    the [send_sms] of index.py returns [False] after one attempt. *)
Lemma index_send_sms_one_attempt :
  exists p',
    Index.send_sms "265991112222" "Enter attendance:"
      (Serial.Port (fun _ => Serial.Data "ERROR") 0 []) = (Returned false, p') /\
    Serial.wire p' =
      [ Serial.Command "AT+CMGF=1";
        Serial.Compose "+265991112222" "Enter attendance:" ] /\
    Serial.attempts p' = 1%nat /\
    Serial.attempts p' <> FullBot.MAX_RETRIES.
Proof.
  eexists. split; [vm_compute; reflexivity|].
  split; [reflexivity|]. split; [reflexivity|]. vm_compute. discriminate.
Qed.

(** C5, as amended.  [send_sms] of fullBot.py makes at most
    [MAX_RETRIES] = 3 attempts: when the first response holds a success
    token ("OK" or "+CMGS") it returns [True] after that one attempt, and
    when none of the three exchanges gives a token (a response without
    one, or an I/O error) it returns [False] after exactly three attempts.
    [send_sms] of index.py has no retry: it makes one attempt and returns
    whether that response holds "OK" or ">". *)
Theorem send_sms_attempts (phone message : string) :
  FullBot.MAX_RETRIES = 3%nat /\
  (forall (w : FullBot.world) (resp : string),
     Serial.modem (FullBot.port w) (Serial.exchanges (FullBot.port w))
       = Serial.Data resp ->
     FullBot.success_token resp = true ->
     exists w', FullBot.send_sms phone message w = (Returned true, w') /\
       Serial.attempts (FullBot.port w') = S (Serial.attempts (FullBot.port w))) /\
  (forall w : FullBot.world,
     Serial.silent FullBot.success_token (FullBot.port w) FullBot.MAX_RETRIES ->
     exists w', FullBot.send_sms phone message w = (Returned false, w') /\
       Serial.attempts (FullBot.port w') =
         (Serial.attempts (FullBot.port w) + FullBot.MAX_RETRIES)%nat) /\
  (forall (p : Serial.port) (r resp : string),
     Serial.modem p (Serial.exchanges p) = Serial.Data r ->
     Serial.modem p (S (Serial.exchanges p)) = Serial.Data resp ->
     exists p', Index.send_sms phone message p
                  = (Returned (Index.success_token resp), p') /\
       Serial.attempts p' = S (Serial.attempts p)).
Proof.
  split; [reflexivity|]. split; [|split].
  - intros w resp Hresp Htok. eexists. split.
    + unfold FullBot.send_sms, FullBot.MAX_RETRIES. cbn [FullBot.send_loop].
      unfold Serial.exchange. rewrite Hresp, Htok. reflexivity.
    + unfold Serial.attempts. cbn.
      rewrite List.filter_app, length_app. cbn. lia.
  - intros w Hs. eexists. split.
    + unfold FullBot.send_sms. rewrite (send_loop_silent _ _ _ _ Hs). reflexivity.
    + unfold Serial.attempts. cbn [FullBot.port Serial.wire].
      rewrite List.filter_app, length_app, filter_replicate_compose.
      now rewrite length_replicate.
  - intros p r resp Hr Hresp. eexists. split.
    + unfold Index.send_sms, Index.send_at_command, Serial.transact, mbind,
        exec_bind, Exec.bind, Serial.exchange, mret, exec_ret, Exec.ret.
      rewrite Hr. cbn. rewrite Hresp. reflexivity.
    + unfold Serial.attempts. cbn.
      rewrite List.filter_app, length_app. cbn.
      rewrite List.filter_app, length_app. cbn. lia.
Qed.

(** The two cases of fullBot.py on sample modems: one that answers "OK"
    at once, one that answers "ERROR" for ever. *)
Example send_sms_samples :
  Serial.silent FullBot.success_token quiet_port FullBot.MAX_RETRIES /\
  (exists w',
     FullBot.send_sms "265991112222" "Amount repaid today"
       (FullBot.World ∅ None ready_port []) = (Returned true, w') /\
     Serial.attempts (FullBot.port w') = 1%nat) /\
  (exists w',
     FullBot.send_sms "265991112222" "Amount repaid today"
       (FullBot.World ∅ None quiet_port []) = (Returned false, w') /\
     Serial.attempts (FullBot.port w') = 3%nat /\
     requests (FullBot.outbox w') = [("265991112222", "Amount repaid today")]).
Proof.
  split; [intros k _; reflexivity|]. split.
  - eexists. split; [vm_compute; reflexivity | reflexivity].
  - eexists. split; [vm_compute; reflexivity|]. split; reflexivity.
Qed.

(** ** C6: the acknowledgment *)

Lemma catch_ret_returns {S A : Type} (m : Exec.M S A) (a : A) (s : S) :
  exists b s', Exec.catch m (mret a) s = (Returned b, s').
Proof.
  unfold Exec.catch. destruct (m s) as [[b|e] s']; cbn; eauto.
Qed.

Lemma handle_response_returns (phone message : string) (now : Z)
    (stamp : string) (w : Index.world) :
  exists reply w1,
    Index.handle_response phone message now stamp w = (Returned reply, w1) /\
    Index.port w1 = Index.port w.
Proof.
  pose proof (keeps_port_handle_response phone message now stamp w) as Hport.
  destruct (Index.handle_response phone message now stamp w)
    as [[reply|e] w1] eqn:E; [eauto|].
  exfalso. unfold Index.handle_response in E.
  unfold mbind, exec_bind, Exec.bind, Exec.get, Exec.modify in E.
  match type of E with
  | Exec.catch ?m (mret ?a) ?s = _ =>
      destruct (catch_ret_returns m a s) as (b & s' & Hb)
  end.
  unfold mret, exec_ret in E, Hb. congruence.
Qed.

(** C6, on index.py: the reply could not be sent (the modem reads back
    "ERROR").  The claim has the message deleted all the same; index.py
    writes the text-mode command and the reply, and no deletion. *)
Lemma index_no_ack_when_send_fails :
  exists w',
    Index.process_message (Message "4" "265991112222" "VSLA report") 100 "t"
      (Index.World ∅ None (Serial.Port (fun _ => Serial.Data "ERROR") 0 []))
    = (Returned tt, w') /\
    Serial.wire (Index.port w') =
      [ Serial.Command "AT+CMGF=1";
        Serial.Compose "+265991112222" "Welcome! Choose your group number (1-17):" ].
Proof. eexists. split; vm_compute; reflexivity. Qed.

(** C6, as amended.  In fullBot.py [process_message] returns normally
    whatever [handle_message] and the sends inside it did, and its last
    exchange with the modem is the deletion of the message by its index.
    In index.py the deletion is issued only after [send_sms] returned
    [True]: when the response to the reply holds no success token the
    worker ends without it. *)
Theorem ack_after_processing (msg : message) (now : Z) (stamp : string) :
  (forall w : FullBot.world,
     exists w' before,
       FullBot.process_message msg now stamp w = (Returned tt, w') /\
       Serial.wire (FullBot.port w') =
         Serial.wire (FullBot.port w) ++ before ++
           [Serial.Command ("AT+CMGD=" +:+ index msg)]) /\
  (forall (w : Index.world) (r resp : string),
     Serial.modem (Index.port w) (Serial.exchanges (Index.port w))
       = Serial.Data r ->
     Serial.modem (Index.port w) (S (Serial.exchanges (Index.port w)))
       = Serial.Data resp ->
     exists reply,
       Serial.wire (Index.port (Index.process_message msg now stamp w).2) =
         Serial.wire (Index.port w) ++
           [ Serial.Command "AT+CMGF=1";
             Serial.Compose (Serial.with_plus (phone msg)) reply ] ++
           (if Index.success_token resp
            then [Serial.Command ("AT+CMGD=" +:+ index msg +:+ ",1")]
            else [])).
Proof.
  split.
  - intros w.
    destruct (appends_handle_message (phone msg) (content msg) now stamp w)
      as [before Hbefore].
    unfold FullBot.process_message, mbind, exec_bind, Exec.bind, Exec.swallow.
    cbn [fst snd].
    set (w1 := (FullBot.handle_message _ _ _ _ w).2) in *.
    eexists. exists before. split; [reflexivity|].
    unfold FullBot.on_port, FullBot.delete_sms, FullBot.send_at_command,
      Serial.transact, mbind, exec_bind, Exec.bind, Serial.exchange.
    destruct (Serial.modem (FullBot.port w1) _); cbn;
      now rewrite Hbefore, <- app_assoc.
  - intros w r resp Hr Hresp.
    destruct (handle_response_returns (phone msg) (content msg) now stamp w)
      as (reply & w1 & Hh & Hport).
    unfold Index.process_message, mbind, exec_bind, Exec.bind.
    rewrite Hh.
    unfold Index.on_port, Index.send_sms, Index.send_at_command,
      Index.mark_sms_as_read, Serial.transact, mbind, exec_bind, Exec.bind,
      Serial.exchange, mret, exec_ret, Exec.ret.
    rewrite Hport, Hr. cbn. rewrite Hresp. cbn.
    exists reply.
    destruct (Index.success_token resp); cbn.
    + destruct (Serial.modem (Index.port w) (S (S _))); cbn;
        now rewrite <- !app_assoc.
    + now rewrite <- !app_assoc.
Qed.

(** fullBot.py deletes the message also when no reply could be sent. *)
Example fullbot_ack_when_send_fails :
  exists w',
    FullBot.process_message (Message "4" "265991112222" "VSLA report") 100 "t"
      (FullBot.World ∅ None quiet_port []) = (Returned tt, w') /\
    FullBot.outbox w' = [SmsCall "265991112222" FullBot.LANGUAGE_MENU false] /\
    last (Serial.wire (FullBot.port w')) = Some (Serial.Command "AT+CMGD=4").
Proof. eexists. split; [vm_compute; reflexivity|]. split; reflexivity. Qed.

(** ** C9 and C10: the listing of unread messages *)

(** C9, as stated, fails on a message whose text looks like a header:
    the listing has three lines that match the header pattern, and
    [read_sms] of fullBot.py gives two messages, the header-like line
    being the body of the first. *)
Lemma header_like_body_is_consumed :
  FullBot.parse_unread listing_header_like_body =
    Some (Returned [ Message "1" "+265991112222" "+CMGL: 7,x,y";
                     Message "2" "+265993334444" "VSLA report" ]) /\
  per_header_line (Str.splitlines listing_header_like_body) =
    [ Message "1" "+265991112222" "+CMGL: 7,x,y";
      Message "7" "y" ("+CMGL: 2," +:+ quoted "REC UNREAD" +:+ ","
                       +:+ quoted "+265993334444" +:+ ",,");
      Message "2" "+265993334444" "VSLA report" ] /\
  FullBot.parse_unread listing_header_like_body <>
    Some (Returned (per_header_line (Str.splitlines listing_header_like_body))).
Proof.
  split; [vm_compute; reflexivity|]. split; [vm_compute; reflexivity|].
  vm_compute. discriminate.
Qed.

(** C9, as amended.  [read_sms] of fullBot.py reads every response
    record by record and raises nothing: each line that matches the
    header pattern and is not the body of the record before it gives one
    message, with the index from after the tag up to the first comma, the
    sender from the third comma-separated field without its quote
    characters (empty when there are fewer than three fields), and the
    body the stripped next line (empty when there is none); that next line
    is consumed, and every other line gives nothing.  [read_sms] of
    index.py reads the same messages from a listing in which every header
    has three fields and a line after it.  When no body matches the header
    pattern, that is one message per header line. *)
Theorem unread_listing (out : string) :
  FullBot.parse_unread out = Some (Returned (records (Str.splitlines out))) /\
  (headers_complete (Str.splitlines out) = true ->
   Index.parse_unread out = Some (Returned (records (Str.splitlines out)))) /\
  (bodies_plain (Str.splitlines out) = true ->
   records (Str.splitlines out) = per_header_line (Str.splitlines out)).
Proof.
  split; [apply fullbot_parse_records|].
  split; [apply index_parse_records | apply records_per_header_line].
Qed.

Example unread_listing_plain :
  headers_complete (Str.splitlines listing_plain) = true /\
  bodies_plain (Str.splitlines listing_plain) = true /\
  Index.parse_unread listing_plain =
    Some (Returned [ Message "1" "+265991112222" "VSLA report";
                     Message "2" "+265993334444" "12" ]).
Proof. repeat split; vm_compute; reflexivity. Qed.

(** fullBot.py's parser is total. *)
Lemma fullbot_parse_total (out : string) :
  exists msgs, FullBot.parse_unread out = Some (Returned msgs).
Proof. eexists. apply fullbot_parse_records. Qed.

(** A header that is the only line left gives a message with an empty
    body in fullBot.py. *)
Lemma fullbot_header_last (fuel : nat) (lines : list string) (l : string)
    (msgs : list message) :
  is_header l = true ->
  FullBot.read_loop (S fuel) (lines ++ [l]) (Z.of_nat (length lines)) msgs =
  Some (Returned (msgs ++ [Message (header_index l) (header_sender l) EmptyString])).
Proof.
  intros Hh. rewrite fullbot_read_loop.
  - rewrite drop_app_length. cbn [records]. now rewrite Hh.
  - rewrite length_app. cbn. lia.
Qed.

(** C10, on index.py: the response ends right after a header.  The claim
    has the parser return a message with an empty body, and fullBot.py
    does; [read_sms] of index.py raises [IndexError] at [lines[i + 1]]. *)
Theorem index_read_sms_cut_short :
  Index.parse_unread listing_cut_short = Some (Raised IndexError) /\
  FullBot.parse_unread listing_cut_short =
    Some (Returned [Message "1" "+265991112222" EmptyString]).
Proof. split; vm_compute; reflexivity. Qed.

(** The same slip at [parts[2]]: a header with fewer than three fields
    has an empty sender in fullBot.py and raises in index.py. *)
Lemma index_read_sms_short_header :
  Index.parse_unread (join_nl ["+CMGL: 1,x"; "hello"]) = Some (Raised IndexError) /\
  FullBot.parse_unread (join_nl ["+CMGL: 1,x"; "hello"]) =
    Some (Returned [Message "1" EmptyString "hello"]).
Proof. split; vm_compute; reflexivity. Qed.

(** ** C2 and C3: the first message of a sender *)

(** C2, on index.py: a first message without the trigger.  The claim has
    it ignored; index.py opens a session at step 0 and sends a hint. *)
Lemma index_answers_without_trigger :
  ~ has_trigger "hello" /\
  exists w',
    Index.process_message (Message "4" "265991112222" "hello") 100 "t" index_fresh
      = (Returned tt, w') /\
    Index.sessions w' !! "265991112222" = Some (Index.Session 0 ∅ 100) /\
    Serial.wire (Index.port w') =
      [ Serial.Command "AT+CMGF=1";
        Serial.Compose "+265991112222"
          "Please start your message with 'VSLA' to report." ].
Proof.
  split; [apply trigger_gate_false; reflexivity|].
  eexists. split; [vm_compute; reflexivity|]. split; reflexivity.
Qed.

(** C2, as amended.  A sender without a session sends a text without
    the trigger keyword (in any case).  fullBot.py ignores the message:
    no session, no reply, no report, the world is as before.  index.py
    opens a session in its first state (step 0, waiting for the trigger),
    answers with the hint to start with 'VSLA', and writes no report. *)
Theorem untriggered_message (phone text : string) (now : Z) (stamp : string) :
  ~ has_trigger text ->
  (forall w : FullBot.world,
     FullBot.sessions w !! phone = None ->
     FullBot.handle_message phone text now stamp w = (Returned tt, w)) /\
  (forall w : Index.world,
     Index.sessions w !! phone = None ->
     Index.handle_response phone text now stamp w =
     (Returned "Please start your message with 'VSLA' to report.",
      Index.World (<[phone := Index.Session 0 ∅ now]> (Index.sessions w))
        (Index.csv_file w) (Index.port w))).
Proof.
  intros Ht. apply trigger_gate_false in Ht. split; intros w Hs.
  - now apply step_ignored.
  - now apply index_step_hint.
Qed.

Lemma untriggered_message_witness :
  (forall w : FullBot.world,
     FullBot.sessions w !! "265991112222" = None ->
     FullBot.handle_message "265991112222" "hello" 100 "t" w = (Returned tt, w)) /\
  (forall w : Index.world,
     Index.sessions w !! "265991112222" = None ->
     Index.handle_response "265991112222" "hello" 100 "t" w =
     (Returned "Please start your message with 'VSLA' to report.",
      Index.World (<[("265991112222" : string) := Index.Session 0 ∅ 100]> (Index.sessions w))
        (Index.csv_file w) (Index.port w))).
Proof.
  apply (untriggered_message "265991112222" "hello" 100 "t").
  apply trigger_gate_false. reflexivity.
Defined.

(** C3, on index.py: a first message with the trigger.  The claim has a
    session waiting for the language and the language menu as the reply;
    index.py knows no language: the session goes to the group step and
    the reply asks for the group number. *)
Lemma index_has_no_language_step :
  has_trigger "VSLA report" /\
  exists w',
    Index.handle_response "265991112222" "VSLA report" 100 "t" index_fresh
      = (Returned "Welcome! Choose your group number (1-17):", w') /\
    Index.sessions w' !! "265991112222" = Some (Index.Session 1 ∅ 100) /\
    "Welcome! Choose your group number (1-17):" <> FullBot.LANGUAGE_MENU.
Proof.
  split; [apply trigger_gate; reflexivity|].
  eexists. split; [vm_compute; reflexivity|]. split; [reflexivity|].
  vm_compute. discriminate.
Qed.

(** C3, as amended.  A sender without a session sends a text with the
    trigger keyword (in any case).  fullBot.py opens a session at the
    language step (step -1, nothing chosen or answered yet) and asks for
    the language menu to be sent.  index.py, which has no language step,
    opens a session at the group step (step 1) and answers with the
    request for the group number. *)
Theorem triggered_message (phone text : string) (now : Z) (stamp : string) :
  has_trigger text ->
  (forall w : FullBot.world,
     FullBot.sessions w !! phone = None ->
     handled phone text now stamp w
       (<[phone := FullBot.Session (-1) None [] None now]> (FullBot.sessions w))
       (FullBot.csv_file w) [FullBot.LANGUAGE_MENU]) /\
  (forall w : Index.world,
     Index.sessions w !! phone = None ->
     Index.handle_response phone text now stamp w =
     (Returned "Welcome! Choose your group number (1-17):",
      Index.World (<[phone := Index.Session 1 ∅ now]> (Index.sessions w))
        (Index.csv_file w) (Index.port w))).
Proof.
  intros Ht. apply trigger_gate in Ht. split; intros w Hs.
  - now apply step_opened.
  - now apply index_step_welcome.
Qed.

Lemma triggered_message_witness :
  (forall w : FullBot.world,
     FullBot.sessions w !! "265991112222" = None ->
     handled "265991112222" "VSLA report" 100 "t" w
       (<[("265991112222" : string) := FullBot.Session (-1) None [] None 100]>
          (FullBot.sessions w))
       (FullBot.csv_file w) [FullBot.LANGUAGE_MENU]) /\
  (forall w : Index.world,
     Index.sessions w !! "265991112222" = None ->
     Index.handle_response "265991112222" "VSLA report" 100 "t" w =
     (Returned "Welcome! Choose your group number (1-17):",
      Index.World (<[("265991112222" : string) := Index.Session 1 ∅ 100]> (Index.sessions w))
        (Index.csv_file w) (Index.port w))).
Proof.
  apply (triggered_message "265991112222" "VSLA report" 100 "t").
  apply trigger_gate. reflexivity.
Defined.

(** ** C4 and C8: input a state does not accept *)

(** C4, at the input where fullBot.py fails it: a sender at the group
    step sends the superscript digit two.  [str.isdigit] accepts the
    text, [int] does not: [handle_message] raises [ValueError] before any
    [send_sms].  The state, answers, group and language stay as they
    were, as the claim says, and no prompt is sent, against it. *)
Theorem group_step_superscript_digit :
  Str.isdigit SUPERSCRIPT_TWO = true /\
  Str.int SUPERSCRIPT_TWO = Raised ValueError /\
  accepts (FullBot.Session 0 (Some FullBot.english) [] None 50) SUPERSCRIPT_TWO = false /\
  exists w',
    FullBot.handle_message "265991112222" SUPERSCRIPT_TWO 100 "t" world_at_group
      = (Raised ValueError, w') /\
    FullBot.sessions w' !! "265991112222" =
      Some (FullBot.Session 0 (Some FullBot.english) [] None 100) /\
    FullBot.outbox w' = [] /\
    Serial.wire (FullBot.port w') = [].
Proof.
  split; [reflexivity|]. split; [reflexivity|]. split; [reflexivity|].
  eexists. split; [vm_compute; reflexivity|]. repeat split; reflexivity.
Qed.

(** The worker catches the exception and deletes the message: the sender
    hears nothing. *)
Lemma group_step_superscript_digit_worker :
  exists w',
    FullBot.process_message (Message "3" "265991112222" SUPERSCRIPT_TWO) 100 "t"
      world_at_group = (Returned tt, w') /\
    FullBot.outbox w' = [] /\
    Serial.wire (FullBot.port w') = [Serial.Command "AT+CMGD=3"].
Proof. eexists. split; [vm_compute; reflexivity|]. split; reflexivity. Qed.


Lemma index_in_place_not_accepted (phone text : string) (now : Z)
    (stamp : string) (w : Index.world) (s : Index.session) (reply : string) :
  Index.sessions w !! phone = Some s ->
  Index.handle_response phone text now stamp w =
    (Returned reply,
     Index.World (<[phone := Index.touch now s]> (Index.sessions w))
       (Index.csv_file w) (Index.port w)) ->
  ~ index_accepted phone text now stamp w.
Proof.
  intros Hs E1 (reply2 & w2 & E2 & Hmove).
  rewrite E1 in E2. injection E2 as _ <-.
  rewrite Hs in Hmove. cbn [Index.sessions] in Hmove.
  rewrite lookup_insert_eq in Hmove. cbn in Hmove. lia.
Qed.

(** The rule of fullBot.py, step by step. *)
Lemma fullbot_numeric_rule (phone text : string) (now : Z) (stamp : string)
    (w : FullBot.world) (s : FullBot.session) :
  FullBot.sessions w !! phone = Some s ->
  session_ok s ->
  0 <= FullBot.step s ->
  (accepted phone text now stamp w <->
   if FullBot.step s =? 0 then group_number (Str.strip text)
   else Str.isdigit (Str.strip text) = true).
Proof.
  intros Hs Hok Hpos.
  destruct Hok as [Hstep | [Hstep [l Hl]]]; [lia|].
  assert (Hin : forall f texts,
            handled phone text now stamp w
              (<[phone := FullBot.touch now s]> (FullBot.sessions w)) f texts ->
            accepted phone text now stamp w -> False).
  { intros f texts H. exact (handled_in_place_not_accepted _ _ _ _ _ _ _ _ Hs H). }
  destruct (Z.eqb_spec (FullBot.step s) 0) as [H0|H0].
  - split.
    + intros Hacc. destruct (Str.isdigit (Str.strip text)) eqn:Hd.
      * destruct (Str.int (Str.strip text)) as [gid|e] eqn:Hint.
        -- destruct (decide (1 <= gid <= 17)) as [Hr|Hr].
           ++ apply int_returns in Hint as (Hdec & Hshort & ->).
              split; [exact Hdec|]. split; [exact Hshort | exact Hr].
           ++ exfalso. apply (Hin _ _ (step_group_invalid _ _ _ _ _ s l Hs H0 Hl
                                        (or_intror (ex_intro _ gid (conj Hint Hr))))).
              exact Hacc.
        -- exfalso. pose proof (int_raises _ _ Hint) as ->.
           destruct Hacc as (w' & E & _).
           rewrite (step_group_raises _ _ _ _ _ s Hs H0 Hd Hint) in E.
           discriminate E.
      * exfalso. apply (Hin _ _ (step_group_invalid _ _ _ _ _ s l Hs H0 Hl
                                   (or_introl Hd))).
        exact Hacc.
    + intros (Hdec & Hshort & Hr). unfold accepted. rewrite Hs.
      destruct (step_group_chosen phone text now stamp w s l _ Hs H0 Hl
                  (decimal_text_isdigit _ Hdec)
                  (int_decimal_text _ Hdec Hshort) Hr) as (w' & E & Hm & _).
      exists w'. split; [exact E|]. rewrite Hm, lookup_insert_eq. cbn. lia.
  - split.
    + intros Hacc. destruct (Str.isdigit (Str.strip text)) eqn:Hd; [reflexivity|].
      exfalso.
      apply (Hin _ _ (step_answer_invalid _ _ _ _ _ s l Hs ltac:(lia) Hl Hd)).
      exact Hacc.
    + intros Hd. unfold accepted. rewrite Hs.
      destruct (decide (FullBot.step s = 7)) as [H7|H7].
      * destruct (step_last_answer phone text now stamp w s Hs H7 Hd)
          as (w' & E & Hm & _).
        exists w'. split; [exact E|]. now rewrite Hm, lookup_delete_eq.
      * destruct (step_answer phone text now stamp w s l Hs ltac:(lia) Hl Hd)
          as (w' & E & Hm & _).
        exists w'. split; [exact E|]. now rewrite Hm, lookup_insert_eq.
Qed.

(** The rule of index.py, step by step. *)
Lemma index_numeric_rule (phone text : string) (now : Z) (stamp : string)
    (w : Index.world) (s : Index.session) :
  Index.sessions w !! phone = Some s ->
  index_session_ok s ->
  (index_accepted phone text now stamp w <->
   if Index.step s =? 1 then group_number (Str.strip text)
   else Str.isdigit (Str.strip text) = true).
Proof.
  intros Hs Hok.
  assert (Hin : forall reply,
            Index.handle_response phone text now stamp w =
              (Returned reply,
               Index.World (<[phone := Index.touch now s]> (Index.sessions w))
                 (Index.csv_file w) (Index.port w)) ->
            index_accepted phone text now stamp w -> False).
  { intros reply E. exact (index_in_place_not_accepted _ _ _ _ _ _ _ Hs E). }
  assert (Hbad : Str.isdigit (Str.strip text) = false ->
                 index_accepted phone text now stamp w -> False).
  { intros Hd.
    destruct (index_step_invalid phone text now stamp w s Hs (proj1 Hok))
      as [reply E]; [now left|].
    exact (Hin reply E). }
  destruct (Z.eqb_spec (Index.step s) 1) as [H1|H1].
  - split.
    + intros Hacc. destruct (Str.isdigit (Str.strip text)) eqn:Hd;
        [|exfalso; exact (Hbad eq_refl Hacc)].
      destruct (Str.int (Str.strip text)) as [gid|e] eqn:Hint.
      * destruct (decide (1 <= gid <= 17)) as [Hr|Hr].
        -- apply int_returns in Hint as (Hdec & Hshort & ->).
           split; [exact Hdec|]. split; [exact Hshort | exact Hr].
        -- exfalso.
           destruct (index_step_invalid phone text now stamp w s Hs (proj1 Hok))
             as [reply E]; [right; eauto|].
           exact (Hin reply E Hacc).
      * exfalso. pose proof (int_raises _ _ Hint) as ->.
        exact (Hin _ (index_step_group_raises _ _ _ _ _ s Hs H1 Hd Hint) Hacc).
    + intros (Hdec & Hshort & Hr).
      apply index_step_valid with (s := s); try assumption.
      * now apply decimal_text_isdigit.
      * intros _. exists (Str.decimal_value (Str.strip text)).
        split; [now apply int_decimal_text | exact Hr].
  - split.
    + intros Hacc. destruct (Str.isdigit (Str.strip text)) eqn:Hd; [reflexivity|].
      exfalso. exact (Hbad eq_refl Hacc).
    + intros Hd. apply index_step_valid with (s := s); try assumption.
      intros H. contradiction.
Qed.



(** Without superscript digits, the rule of the later steps is the rule
    of the decimal digits. *)
Lemma numeric_rule_decimal (text : string) :
  no_superscript (Str.strip text) = true ->
  (Str.isdigit (Str.strip text) = true <-> decimal_text (Str.strip text) = true).
Proof. intros H. now rewrite (isdigit_decimal_text _ H). Qed.

(** The rule at work: "12" is a group number and an amount, "18" is an
    amount only, "-5", "1.5" and "1,000" are neither. *)
Example numeric_rule_samples :
  accepted "265991112222" "12" 100 "t" world_at_group /\
  ~ accepted "265991112222" "18" 100 "t" world_at_group /\
  accepted "265991112222" "18" 100 "t" world_at_question /\
  ~ accepted "265991112222" "-5" 100 "t" world_at_question /\
  ~ accepted "265991112222" "1.5" 100 "t" world_at_question /\
  ~ accepted "265991112222" "1,000" 100 "t" world_at_question /\
  index_accepted "265991112222" "5000" 100 "t" index_at_amount /\
  ~ index_accepted "265991112222" "1,000" 100 "t" index_at_amount.
Proof.
  pose proof (fun t => fullbot_numeric_rule "265991112222" t 100 "t"
                         world_at_group _ eq_refl) as G.
  pose proof (fun t => fullbot_numeric_rule "265991112222" t 100 "t"
                         world_at_question _ eq_refl) as Q.
  pose proof (fun t => index_numeric_rule "265991112222" t 100 "t"
                         index_at_amount _ eq_refl) as I.
  assert (Hg : session_ok (FullBot.Session 0 (Some FullBot.english) [] None 50))
    by (right; split; [cbn; lia | now exists FullBot.english]).
  assert (Hq : session_ok (FullBot.Session 1 (Some FullBot.english) []
                             (Some "Chimnyanga") 50))
    by (right; split; [cbn; lia | now exists FullBot.english]).
  assert (Hi : index_session_ok
                 (Index.Session 2 {[ "group_name" := "Chimnyanga H&C Women's Group" ]} 50))
    by (split; [cbn; lia | cbn; discriminate]).
  repeat split.
  - apply (G "12" Hg ltac:(cbn; lia)).
    split; [reflexivity|]. split; [now vm_compute|].
    change (1 <= 12 <= 17). lia.
  - intros H. apply (G "18" Hg ltac:(cbn; lia)) in H as (_ & _ & H).
    change (1 <= 18 <= 17) in H. lia.
  - apply (Q "18" Hq ltac:(cbn; lia)). reflexivity.
  - intros H. apply (Q "-5" Hq ltac:(cbn; lia)) in H. discriminate H.
  - intros H. apply (Q "1.5" Hq ltac:(cbn; lia)) in H. discriminate H.
  - intros H. apply (Q "1,000" Hq ltac:(cbn; lia)) in H. discriminate H.
  - apply (I "5000" Hi). reflexivity.
  - intros H. apply (I "1,000" Hi) in H. discriminate H.
Qed.

(** More digits than [int] converts: the number five in 4301 digits
    passes [isdigit], [int] raises on it, and the group step of neither
    script takes it. *)
Example overlong_group_number :
  decimal_text long_five = true /\
  Str.decimal_value long_five = 5 /\
  Str.isdigit long_five = true /\
  Str.int long_five = Raised ValueError /\
  (exists w',
     FullBot.handle_message "265991112222" long_five 100 "t" world_at_group
       = (Raised ValueError, w') /\
     FullBot.sessions w' !! "265991112222" =
       Some (FullBot.Session 0 (Some FullBot.english) [] None 100) /\
     FullBot.outbox w' = []) /\
  Index.handle_response "265991112222" long_five 100 "t"
    (Index.World {[ "265991112222" := Index.Session 1 ∅ 50 ]} None quiet_port) =
  (Returned "Error processing input. Please try again.",
   Index.World {[ "265991112222" := Index.Session 1 ∅ 100 ]} None quiet_port).
Proof.
  split; [vm_compute; reflexivity|]. split; [vm_compute; reflexivity|].
  split; [vm_compute; reflexivity|]. split; [vm_compute; reflexivity|].
  split.
  - eexists. split; [vm_compute; reflexivity|]. split; reflexivity.
  - vm_compute. reflexivity.
Qed.

(** A sign, a decimal point or a thousands separator makes a text
    invalid. *)
Lemma sign_point_comma_rejected (pre post : string) (c : ascii) :
  c = "-"%char \/ c = "."%char \/ c = ","%char ->
  decimal_text (pre +:+ String c post) = false.
Proof.
  intros Hc.
  assert (Hd : Str.isdecimal_c c = false) by (destruct Hc as [->|[->| ->]]; reflexivity).
  assert (Hall : Str.all_c Str.isdecimal_c (pre +:+ String c post) = false).
  { induction pre as [|d pre IH]; cbn [String.append Str.all_c].
    - change (EmptyString +:+ String c post) with (String c post).
      cbn [Str.all_c]. now rewrite Hd.
    - change (String d pre +:+ String c post) with (String d (pre +:+ String c post)).
      cbn [Str.all_c]. now rewrite IH, andb_false_r. }
  unfold decimal_text. now destruct (pre +:+ String c post).
Qed.

(** The later steps take a superscript digit as an answer. *)
Lemma superscript_answer_is_stored :
  exists w',
    FullBot.handle_message "265991112222" SUPERSCRIPT_TWO 100 "t" world_at_question
      = (Returned tt, w') /\
    FullBot.sessions w' !! "265991112222" =
      Some (FullBot.Session 2 (Some FullBot.english) [SUPERSCRIPT_TWO]
              (Some "Chimnyanga") 100).
Proof. eexists. split; [vm_compute; reflexivity | reflexivity]. Qed.

(** ** C1: seven answers make a report *)

Lemma handled_snd (phone text : string) (now : Z) (stamp : string)
    (w : FullBot.world) (m : gmap string FullBot.session)
    (f : option (list (list string))) (texts : list string) :
  handled phone text now stamp w m f texts ->
  FullBot.sessions (FullBot.handle_message phone text now stamp w).2 = m /\
  FullBot.csv_file (FullBot.handle_message phone text now stamp w).2 = f /\
  requests (FullBot.outbox (FullBot.handle_message phone text now stamp w).2) =
    requests (FullBot.outbox w) ++ map (pair phone) texts.
Proof. intros (w' & -> & H). exact H. Qed.

Lemma feed_cons (phone : string) (i : inbound) (rest : list inbound)
    (w : FullBot.world) :
  feed phone (i :: rest) w =
  feed phone rest
    (FullBot.handle_message phone (text_of i) (time_of i) (stamp_of i) w).2.
Proof. reflexivity. Qed.

(** From any answer step on: the answers still due, all valid, end the
    conversation with the report of all answers. *)
Lemma feed_remaining_answers (phone : string) (l : FullBot.language)
    (inputs : list inbound) :
  forall (w : FullBot.world) (s : FullBot.session) (final : inbound),
    FullBot.sessions w !! phone = Some s ->
    FullBot.lang s = Some l ->
    1 <= FullBot.step s ->
    FullBot.step s + Z.of_nat (length inputs) = 7 ->
    Forall (fun i => Str.isdigit (answer_of i) = true) (inputs ++ [final]) ->
    FullBot.sessions (feed phone (inputs ++ [final]) w) =
      delete phone (FullBot.sessions w) /\
    FullBot.csv_file (feed phone (inputs ++ [final]) w) =
      with_row
        (FullBot.report_row phone (Some l) (FullBot.group s)
           (FullBot.answers s ++ map answer_of (inputs ++ [final])) (stamp_of final))
        (FullBot.csv_file w) /\
    exists asked,
      requests (FullBot.outbox (feed phone (inputs ++ [final]) w)) =
      requests (FullBot.outbox w) ++ map (pair phone) (asked ++ [FullBot.THANK_YOU]).
Proof.
  induction inputs as [|i rest IH]; intros w s final Hs Hl Hlo Hlen Hall.
  - cbn [length Z.of_nat] in Hlen. cbn [app map]. rewrite feed_cons.
    change (feed phone [] ?x) with x.
    apply Forall_cons in Hall as [Hd _].
    destruct (handled_snd _ _ _ _ _ _ _ _
                (step_last_answer phone (text_of final) (time_of final)
                   (stamp_of final) w s Hs ltac:(lia) Hd))
      as (Hm & Hf & Hr).
    rewrite <- Hl. split; [exact Hm|]. split; [exact Hf|].
    now exists [].
  - cbn [length] in Hlen. rewrite <- app_comm_cons in *.
    apply Forall_cons in Hall as [Hd Hall].
    destruct (handled_snd _ _ _ _ _ _ _ _
                (step_answer phone (text_of i) (time_of i) (stamp_of i) w s l
                   Hs ltac:(lia) Hl Hd))
      as (Hm & Hf & Hr).
    rewrite feed_cons.
    set (w1 := (FullBot.handle_message phone (text_of i) (time_of i) (stamp_of i) w).2) in *.
    set (s1 := FullBot.set_step (FullBot.step s + 1)
                 (FullBot.append_answer (Str.strip (text_of i))
                    (FullBot.touch (time_of i) s))) in *.
    destruct (IH w1 s1 final) as (Hm' & Hf' & asked & Hr').
    + rewrite Hm. apply lookup_insert_eq.
    + exact Hl.
    + cbn. lia.
    + cbn. lia.
    + exact Hall.
    + split; [|split].
      * rewrite Hm', Hm. apply delete_insert_eq.
      * rewrite Hf', Hf. cbn [s1 FullBot.group FullBot.answers FullBot.set_step
                               FullBot.append_answer FullBot.touch map].
        now rewrite <- app_assoc.
      * exists (question l (FullBot.step s + 1) :: asked).
        rewrite Hr', Hr, <- app_assoc. reflexivity.
Qed.

Lemma report_row_seven (phone : string) (l : FullBot.language) (g : string)
    (answers : list string) (stamp : string) :
  length answers = 7%nat ->
  FullBot.report_row phone (Some l) (Some g) answers stamp =
  [phone; FullBot.lang_key l; g] ++ answers ++ [stamp].
Proof.
  intros H.
  destruct answers as [|a1 [|a2 [|a3 [|a4 [|a5 [|a6 [|a7 [|a8 rest]]]]]]]];
    try discriminate H.
  reflexivity.
Qed.

(** C1.  A sender whose session has its language and group recorded
    and stands at the first question sends seven texts that, stripped,
    [isdigit] accepts.  After the seventh, the report file has one more
    row (after the header row, when the file is new) with the sender, the
    language, the group, the seven answers in the order of arrival and the
    time stamp of the last; the sender's session is gone from the store,
    the other sessions are as they were; and the last text asked to be
    sent is the thanks. *)
Theorem seven_answers_make_a_report (phone : string) (w : FullBot.world)
    (s : FullBot.session) (l : FullBot.language) (g : string)
    (earlier : list inbound) (final : inbound) :
  FullBot.sessions w !! phone = Some s ->
  FullBot.step s = 1 ->
  FullBot.lang s = Some l ->
  FullBot.group s = Some g ->
  FullBot.answers s = [] ->
  length (earlier ++ [final]) = 7%nat ->
  Forall (fun i => Str.isdigit (answer_of i) = true) (earlier ++ [final]) ->
  FullBot.sessions (feed phone (earlier ++ [final]) w) =
    delete phone (FullBot.sessions w) /\
  FullBot.csv_file (feed phone (earlier ++ [final]) w) =
    with_row
      ([phone; FullBot.lang_key l; g] ++ map answer_of (earlier ++ [final])
         ++ [stamp_of final])
      (FullBot.csv_file w) /\
  exists asked,
    requests (FullBot.outbox (feed phone (earlier ++ [final]) w)) =
    requests (FullBot.outbox w) ++ map (pair phone) (asked ++ [FullBot.THANK_YOU]).
Proof.
  intros Hs Hstep Hl Hg Ha Hlen Hall.
  destruct (feed_remaining_answers phone l earlier w s final Hs Hl) as (Hm & Hf & Hr).
  - lia.
  - rewrite length_app in Hlen. cbn in Hlen. lia.
  - exact Hall.
  - split; [exact Hm|]. split; [|exact Hr].
    rewrite Hf, Hg, Ha. cbn [app].
    rewrite report_row_seven; [reflexivity|]. now rewrite length_map.
Qed.

Lemma seven_answers_make_a_report_witness :
  FullBot.sessions (feed "265991112222" seven_answers world_at_question) =
    delete "265991112222" (FullBot.sessions world_at_question) /\
  FullBot.csv_file (feed "265991112222" seven_answers world_at_question) =
    with_row
      (["265991112222"; "english"; "Chimnyanga"] ++ map answer_of seven_answers ++ ["t7"])
      None /\
  exists asked,
    requests (FullBot.outbox (feed "265991112222" seven_answers world_at_question)) =
    [] ++ map (pair "265991112222") (asked ++ [FullBot.THANK_YOU]).
Proof.
  apply (seven_answers_make_a_report "265991112222" world_at_question
           (FullBot.Session 1 (Some FullBot.english) [] (Some "Chimnyanga") 50)
           FullBot.english "Chimnyanga"
           [ Inbound "12" 100 "t1"; Inbound " 5000 " 110 "t2"; Inbound "300" 120 "t3";
             Inbound "0" 130 "t4"; Inbound "250" 140 "t5"; Inbound "25" 150 "t6" ]
           (Inbound "100" 160 "t7")).
  - reflexivity.
  - reflexivity.
  - reflexivity.
  - reflexivity.
  - reflexivity.
  - reflexivity.
  - repeat constructor.
Defined.

(** A text of digits alone is its own answer. *)
Lemma answer_of_digits (i : inbound) :
  Str.isdigit (text_of i) = true -> answer_of i = text_of i.
Proof. apply strip_isdigit. Qed.

(** The whole conversation of the specification's example, run. *)
Example example_conversation :
  FullBot.csv_file
    (feed "265991112222"
       (Inbound "VSLA report" 10 "t" :: Inbound "1" 20 "t" :: Inbound "3" 30 "t"
        :: seven_answers)
       (FullBot.World ∅ None ready_port [])) =
  Some [ FullBot.CSV_HEADER;
         [ "265991112222"; "english"; "Chimnyanga"; "12"; "5000"; "300"; "0";
           "250"; "25"; "100"; "t7" ] ].
Proof. vm_compute. reflexivity. Qed.

(** * Further properties of the two scripts *)

(** ** Carrying a property through a computation *)

Section Steps.

Context {S : Type} (R : relation S) `{!PreOrder R}.

Lemma steps_ret {A : Type} (a : A) : steps R (mret a : Exec.M S A).
Proof. intros s. reflexivity. Qed.

Lemma steps_raise {A : Type} (e : exn) : steps R (Exec.raise e : Exec.M S A).
Proof. intros s. reflexivity. Qed.

Lemma steps_lift {A : Type} (r : result A) : steps R (Exec.lift r : Exec.M S A).
Proof. intros s. reflexivity. Qed.

Lemma steps_get : steps R (Exec.get : Exec.M S S).
Proof. intros s. reflexivity. Qed.

Lemma steps_modify (f : S -> S) :
  (forall s, R s (f s)) -> steps R (Exec.modify f).
Proof. intros Hf s. apply Hf. Qed.

Lemma steps_bind {A B : Type} (m : Exec.M S A) (k : A -> Exec.M S B) :
  steps R m -> (forall a, steps R (k a)) -> steps R (m ≫= k).
Proof.
  intros Hm Hk s. unfold mbind, exec_bind, Exec.bind.
  specialize (Hm s). destruct (m s) as [[a|e] s1]; cbn in *.
  - etransitivity; [exact Hm | apply Hk].
  - exact Hm.
Qed.

Lemma steps_catch {A : Type} (m h : Exec.M S A) :
  steps R m -> steps R h -> steps R (Exec.catch m h).
Proof.
  intros Hm Hh s. unfold Exec.catch.
  specialize (Hm s). destruct (m s) as [[a|e] s1]; cbn in *.
  - exact Hm.
  - etransitivity; [exact Hm | apply Hh].
Qed.

Lemma steps_swallow {A : Type} (m : Exec.M S A) :
  steps R m -> steps R (Exec.swallow m).
Proof. intros Hm s. apply Hm. Qed.

End Steps.

(** The first steps of a handler, run. *)
Lemma bind_get {S B : Type} (k : S -> Exec.M S B) (s : S) :
  (Exec.get ≫= k) s = k s s.
Proof. reflexivity. Qed.

Lemma bind_modify {S B : Type} (f : S -> S) (k : unit -> Exec.M S B) (s : S) :
  (Exec.modify f ≫= k) s = k tt (f s).
Proof. reflexivity. Qed.

Lemma bind_returned {S A B : Type} (m : Exec.M S A) (k : A -> Exec.M S B)
    (s s' : S) (a : A) :
  m s = (Returned a, s') -> (m ≫= k) s = k a s'.
Proof. intros H. unfold mbind, exec_bind, Exec.bind. now rewrite H. Qed.

(** ** The sessions of the other senders *)

Lemma others_kept_send_sms (phone to message : string) :
  steps (others_kept phone) (FullBot.send_sms to message).
Proof.
  intros w q _.
  destruct (send_sms_frame to message w) as (ok & p' & -> & _). reflexivity.
Qed.

Lemma others_kept_get_session (phone : string) :
  steps (others_kept phone) (FullBot.get_session phone).
Proof.
  intros w q _. unfold FullBot.get_session.
  now destruct (FullBot.sessions w !! phone).
Qed.

Lemma others_kept_update_session (phone : string)
    (f : FullBot.session -> FullBot.session) :
  steps (others_kept phone) (FullBot.update_session phone f).
Proof.
  intros w q Hq. unfold FullBot.update_session, FullBot.get_session.
  unfold mbind, exec_bind, Exec.bind, Exec.modify.
  destruct (FullBot.sessions w !! phone); cbn; [|reflexivity].
  now rewrite lookup_insert_ne by congruence.
Qed.

Lemma others_kept_modify (phone : string) (f : FullBot.world -> FullBot.world) :
  (forall w q, q <> phone ->
     FullBot.sessions (f w) !! q = FullBot.sessions w !! q) ->
  steps (others_kept phone) (Exec.modify f).
Proof. intros Hf. apply steps_modify; [apply _ .. |]. exact Hf. Qed.

Lemma others_kept_handle_message (phone text : string) (now : Z) (stamp : string) :
  steps (others_kept phone) (FullBot.handle_message phone text now stamp).
Proof.
  unfold FullBot.handle_message, FullBot.group_number_ok, FullBot.questions_for,
    FullBot.group_list_for, FullBot.save_to_csv.
  step_through
    ltac:(apply steps_bind; [apply _ .. | |])
    ltac:(fail)
    ltac:(first
      [ apply steps_ret; apply _
      | apply steps_raise; apply _
      | apply steps_lift; apply _
      | apply steps_get; apply _
      | apply others_kept_send_sms
      | apply others_kept_get_session
      | apply others_kept_update_session
      | apply others_kept_modify; intros ? q Hq; cbn;
        rewrite ?lookup_insert_ne, ?lookup_delete_ne by congruence; reflexivity ]).
Qed.

Lemma index_others_kept_write_session (phone : string)
    (f : Index.session -> Index.session) :
  steps (index_others_kept phone) (Index.write_session phone f).
Proof.
  intros w q Hq. cbn. now rewrite lookup_alter_ne by congruence.
Qed.

Lemma index_others_kept_modify (phone : string) (f : Index.world -> Index.world) :
  (forall w q, q <> phone ->
     Index.sessions (f w) !! q = Index.sessions w !! q) ->
  steps (index_others_kept phone) (Exec.modify f).
Proof. intros Hf. apply steps_modify; [apply _ .. |]. exact Hf. Qed.

(** [del sessions[phone]] as the last step of index.py reaches it. *)
Lemma index_others_kept_del (phone : string) {A : Type} (k : unit -> Index.M A) :
  (forall u, steps (index_others_kept phone) (k u)) ->
  steps (index_others_kept phone)
    (Exec.get ≫= λ w,
       Exec.lift (Dict.del phone (Index.sessions w)) ≫= λ m,
         Exec.modify (Index.set_sessions m) ≫= k).
Proof.
  intros Hk w. rewrite bind_get. unfold Dict.del.
  destruct (Index.sessions w !! phone) as [s|].
  - erewrite bind_returned by reflexivity. rewrite bind_modify.
    etransitivity; [|apply Hk].
    intros q Hq. cbn. now rewrite lookup_delete_ne by congruence.
  - reflexivity.
Qed.

Lemma index_others_kept_handle_response (phone message : string) (now : Z)
    (stamp : string) :
  steps (index_others_kept phone) (Index.handle_response phone message now stamp).
Proof.
  unfold Index.handle_response, Index.group_number_ok, Index.amount_step,
    Index.save_to_csv.
  step_through
    ltac:(apply steps_bind; [apply _ .. | |])
    ltac:(apply steps_catch; [apply _ .. | |])
    ltac:(first
      [ apply steps_ret; apply _
      | apply steps_lift; apply _
      | apply steps_get; apply _
      | apply index_others_kept_write_session
      | apply index_others_kept_del; intros ?; apply steps_ret; apply _
      | apply index_others_kept_modify; intros [? [?|] ?] q Hq; cbn;
        rewrite ?lookup_insert_ne by congruence; reflexivity ]).
Qed.

(** ** The time of the last activity *)

Lemma stamp_kept_send_sms (phone : string) (now : Z) (to message : string) :
  steps (stamp_kept phone now) (FullBot.send_sms to message).
Proof.
  intros w H.
  destruct (send_sms_frame to message w) as (ok & p' & -> & _). exact H.
Qed.

Lemma stamp_kept_get_session (phone : string) (now : Z) :
  steps (stamp_kept phone now) (FullBot.get_session phone).
Proof.
  intros w H. unfold FullBot.get_session.
  now destruct (FullBot.sessions w !! phone).
Qed.

Lemma stamp_kept_update_session (phone : string) (now : Z)
    (f : FullBot.session -> FullBot.session) :
  (forall s, FullBot.last_active (f s) = FullBot.last_active s) ->
  steps (stamp_kept phone now) (FullBot.update_session phone f).
Proof.
  intros Hf w H. unfold FullBot.update_session, FullBot.get_session.
  unfold mbind, exec_bind, Exec.bind, Exec.modify.
  destruct (FullBot.sessions w !! phone) as [s|] eqn:Hs; cbn; [|exact H].
  intros s'. cbn. rewrite lookup_insert_eq. intros [= <-].
  rewrite Hf. now apply H.
Qed.

Lemma stamp_kept_modify (phone : string) (now : Z)
    (f : FullBot.world -> FullBot.world) :
  (forall w, stamped phone now w -> stamped phone now (f w)) ->
  steps (stamp_kept phone now) (Exec.modify f).
Proof. intros Hf. apply steps_modify; [apply _ .. |]. exact Hf. Qed.

(** After [handle_message] the sender's session, if there is one, has
    [now] as the time of its last activity: also when the handler
    raised, and whatever the session held before. *)
Lemma stamped_handle_message (phone text : string) (now : Z) (stamp : string)
    (w : FullBot.world) :
  stamped phone now (FullBot.handle_message phone text now stamp w).2.
Proof.
  unfold FullBot.handle_message. rewrite bind_get. cbv beta.
  destruct (negb _ && negb _) eqn:Hgate.
  - apply andb_true_iff in Hgate as [Hnone _].
    apply negb_true_iff, bool_decide_eq_false in Hnone.
    intros s Hs. cbn in Hs. exfalso. apply Hnone. now exists s.
  - rewrite bind_modify. cbv beta.
    match goal with
    | |- stamped _ _ (?m ?w1).2 =>
        cut (steps (stamp_kept phone now) m);
          [ intros Hm; apply (Hm w1) |]
    end.
    + intros s. cbn. rewrite lookup_insert_eq. intros [= <-]. reflexivity.
    + unfold FullBot.group_number_ok, FullBot.questions_for,
        FullBot.group_list_for, FullBot.save_to_csv.
      step_through
        ltac:(apply steps_bind; [apply _ .. | |])
        ltac:(fail)
        ltac:(first
          [ apply steps_ret; apply _
          | apply steps_raise; apply _
          | apply steps_lift; apply _
          | apply stamp_kept_send_sms
          | apply stamp_kept_get_session
          | apply stamp_kept_update_session; intros []; reflexivity
          | apply stamp_kept_modify; intros ? H s; cbn;
            rewrite ?lookup_delete_eq; first [ discriminate | apply H ] ]).
Qed.

Lemma index_stamp_kept_write_session (phone : string) (now : Z)
    (f : Index.session -> Index.session) :
  (forall s, Index.last_active (f s) = Index.last_active s) ->
  steps (index_stamp_kept phone now) (Index.write_session phone f).
Proof.
  intros Hf w H s. cbn. rewrite lookup_alter_eq.
  destruct (Index.sessions w !! phone) as [s0|] eqn:Hs; cbn; [|discriminate].
  intros [= <-]. rewrite Hf. now apply H.
Qed.

Lemma index_stamp_kept_modify (phone : string) (now : Z)
    (f : Index.world -> Index.world) :
  (forall w, Index.sessions (f w) = Index.sessions w) ->
  steps (index_stamp_kept phone now) (Exec.modify f).
Proof.
  intros Hf. apply steps_modify; [apply _ .. |].
  intros w H s. rewrite Hf. apply H.
Qed.

Lemma index_stamp_kept_del (phone : string) (now : Z) {A : Type}
    (k : unit -> Index.M A) :
  (forall u, steps (index_stamp_kept phone now) (k u)) ->
  steps (index_stamp_kept phone now)
    (Exec.get ≫= λ w,
       Exec.lift (Dict.del phone (Index.sessions w)) ≫= λ m,
         Exec.modify (Index.set_sessions m) ≫= k).
Proof.
  intros Hk w. rewrite bind_get. unfold Dict.del.
  destruct (Index.sessions w !! phone) as [s|].
  - erewrite bind_returned by reflexivity. rewrite bind_modify.
    etransitivity; [|apply Hk].
    intros _ s'. cbn. now rewrite lookup_delete_eq.
  - reflexivity.
Qed.

(** The same in index.py: [handle_response] leaves the sender's
    session, if it leaves one, with [now] as the time of its last
    activity. *)
Lemma index_stamped_handle_response (phone message : string) (now : Z)
    (stamp : string) (w : Index.world) :
  index_stamped phone now (Index.handle_response phone message now stamp w).2.
Proof.
  unfold Index.handle_response. rewrite bind_get. cbv beta.
  rewrite bind_modify. cbv beta.
  match goal with
  | |- index_stamped _ _ (?m ?w1).2 =>
      cut (steps (index_stamp_kept phone now) m);
        [ intros Hm; apply (Hm w1) |]
  end.
  - intros s. cbn. rewrite lookup_insert_eq. intros [= <-]. reflexivity.
  - unfold Index.group_number_ok, Index.amount_step, Index.save_to_csv.
    step_through
      ltac:(apply steps_bind; [apply _ .. | |])
      ltac:(apply steps_catch; [apply _ .. | |])
      ltac:(first
        [ apply steps_ret; apply _
        | apply steps_lift; apply _
        | apply steps_get; apply _
        | apply index_stamp_kept_write_session; intros []; reflexivity
        | apply index_stamp_kept_del; intros ?; apply steps_ret; apply _
        | apply index_stamp_kept_modify; intros [? [?|] ?]; reflexivity ]).
Qed.

(** ** What is written to the modem *)

Lemma writes_to_send_sms (phone message : string) :
  steps (writes_to phone) (FullBot.send_sms phone message).
Proof.
  intros w.
  destruct (send_sms_frame phone message w) as (ok & p' & -> & _ & k & _ & Hw).
  exists (replicate k (Serial.Compose (Serial.with_plus phone) message)).
  split; [exact Hw|].
  apply Forall_forall. intros e He. apply elem_of_replicate in He as [-> _].
  now exists message.
Qed.

Lemma writes_to_keeps_port (phone : string) {A : Type} (m : FullBot.M A) :
  (forall w, FullBot.port (m w).2 = FullBot.port w) ->
  steps (writes_to phone) m.
Proof.
  intros Hm w. exists []. rewrite Hm, app_nil_r. split; [reflexivity | constructor].
Qed.

Lemma writes_to_handle_message (phone text : string) (now : Z) (stamp : string) :
  steps (writes_to phone) (FullBot.handle_message phone text now stamp).
Proof.
  unfold FullBot.handle_message, FullBot.group_number_ok, FullBot.questions_for,
    FullBot.group_list_for, FullBot.save_to_csv.
  step_through
    ltac:(apply steps_bind; [apply _ .. | |])
    ltac:(fail)
    ltac:(first
      [ apply steps_ret; apply _
      | apply steps_raise; apply _
      | apply steps_lift; apply _
      | apply steps_get; apply _
      | apply writes_to_send_sms
      | apply writes_to_keeps_port; intros w;
        unfold FullBot.update_session, FullBot.get_session, mbind, exec_bind,
          Exec.bind, Exec.modify;
        destruct (FullBot.sessions w !! phone); reflexivity ]).
Qed.

(** ** The steps of [handle_response] in index.py, run *)

(** The group step of index.py, a number from 1 to 17. *)
Lemma index_step_group (phone message : string) (now : Z) (stamp : string)
    (w : Index.world) (s : Index.session) (gid : Z) :
  Index.sessions w !! phone = Some s ->
  Index.step s = 1 ->
  Str.isdigit (Str.strip message) = true ->
  Str.int (Str.strip message) = Returned gid ->
  1 <= gid <= 17 ->
  Index.handle_response phone message now stamp w =
  (Returned "Enter amount saved:",
   Index.World
     (<[phone := Index.set_step 2
                   (Index.set_data "group_name" (index_group_name gid)
                      (Index.touch now s))]> (Index.sessions w))
     (Index.csv_file w) (Index.port w)).
Proof.
  intros Hs Hstep Hd Hint Hrange. index_enter Hs.
  rewrite Hstep. cbn [Z.eqb Pos.eqb].
  unfold Index.group_number_ok. rewrite Hd. exec_index. rewrite Hint.
  rewrite (proj2 (Z.leb_le 1 gid)), (proj2 (Z.leb_le gid 17)) by lia.
  cbn [andb].
  assert (Hname : Str.getitem Index.groupNames gid = Returned (index_group_name gid)).
  { unfold Str.getitem, index_group_name.
    assert (E : (gid <? 0) = false) by (apply Z.ltb_ge; lia). rewrite !E.
    destruct (lookup_lt_is_Some_2 Index.groupNames (Z.to_nat gid)) as [g Hg].
    { cbn. lia. }
    now rewrite Hg. }
  rewrite Hname. index_done. reflexivity.
Qed.

(** An amount step of index.py before the last. *)
Lemma index_step_amount (phone message : string) (now : Z) (stamp : string)
    (w : Index.world) (s : Index.session) :
  Index.sessions w !! phone = Some s ->
  2 <= Index.step s <= 5 ->
  Str.isdigit (Str.strip message) = true ->
  exists reply,
    Index.handle_response phone message now stamp w =
    (Returned reply,
     Index.World
       (<[phone := Index.set_step (Index.step s + 1)
                     (Index.set_data (amount_key (Index.step s)) (Str.strip message)
                        (Index.touch now s))]> (Index.sessions w))
       (Index.csv_file w) (Index.port w)).
Proof.
  intros Hs Hstep Hd. index_enter Hs.
  assert (Hk : Index.step s = 2 \/ Index.step s = 3 \/ Index.step s = 4 \/
               Index.step s = 5) by lia.
  unfold Index.amount_step.
  repeat destruct Hk as [Hk|Hk]; rewrite Hk; cbn [Z.eqb Pos.eqb]; rewrite Hd;
    exec_index; index_done; eexists; reflexivity.
Qed.

(** The last step of index.py: the report is written and the session
    deleted. *)
Lemma index_step_last (phone message : string) (now : Z) (stamp : string)
    (w : Index.world) (s : Index.session) (g a b c d : string) :
  Index.sessions w !! phone = Some s ->
  Index.step s = 6 ->
  Index.data s !! "group_name" = Some g ->
  Index.data s !! "amount_saved" = Some a ->
  Index.data s !! "attendance" = Some b ->
  Index.data s !! "social_fund" = Some c ->
  Index.data s !! "loans_taken" = Some d ->
  Str.isdigit (Str.strip message) = true ->
  Index.handle_response phone message now stamp w =
  (Returned "Thank you! Your report has been received.",
   Index.World (delete phone (Index.sessions w))
     (index_with_row [phone; g; a; b; c; d; Str.strip message; stamp]
        (Index.csv_file w))
     (Index.port w)).
Proof.
  intros Hs Hstep Hg Ha Hb Hc Hdd Hd. index_enter Hs.
  rewrite Hstep. cbn [Z.eqb Pos.eqb]. rewrite Hd. exec_index. index_done.
  rewrite lookup_insert_eq. cbn [fmap option_fmap option_map default from_option
                                 Index.data Index.set_data Index.touch].
  unfold Index.save_to_csv. exec_index.
  unfold Index.report_row, Index.field.
  rewrite lookup_insert_eq.
  rewrite !lookup_insert_ne by discriminate.
  rewrite lookup_insert_eq, Hg, Ha, Hb, Hc, Hdd. cbn [rbind].
  unfold Dict.del. index_done.
  destruct (Index.csv_file w) as [rows|];
    cbn [Index.sessions Index.csv_file Index.port];
    rewrite lookup_insert_eq; cbn [default from_option id];
    unfold index_with_row; now rewrite delete_insert_eq.
Qed.

(** ** The sender of fullBot.py, attempt by attempt *)

Lemma silent_step (token : string -> bool) (p : Serial.port)
    (e : Serial.wire_event) (n : nat) :
  Serial.silent token p (S n) <->
  match Serial.modem p (Serial.exchanges p) with
  | Serial.Data resp => token resp = false
  | Serial.Fault => True
  end /\ Serial.silent token (Serial.exchange e p).2 n.
Proof.
  split.
  - intros H. split.
    + specialize (H 0%nat ltac:(lia)). now rewrite Nat.add_0_r in H.
    + now apply silent_S.
  - intros [H0 Hn] k Hk. destruct k as [|k].
    + now rewrite Nat.add_0_r.
    + specialize (Hn k ltac:(lia)). cbn in Hn.
      now replace (Serial.exchanges p + S k)%nat
        with (S (Serial.exchanges p + k)) by lia.
Qed.

(** The loop stops at the first attempt that reads a token. *)
Lemma send_loop_first_success (k : nat) :
  forall (n : nat) (phone message : string) (p : Serial.port) (resp : string),
    (k < n)%nat ->
    Serial.silent FullBot.success_token p k ->
    Serial.modem p (Serial.exchanges p + k) = Serial.Data resp ->
    FullBot.success_token resp = true ->
    FullBot.send_loop n phone message p =
    (true,
     Serial.Port (Serial.modem p) (Serial.exchanges p + S k)
       (Serial.wire p ++
        replicate (S k) (Serial.Compose (Serial.with_plus phone) message))).
Proof.
  induction k as [|k IH]; intros n phone message p resp Hk Hs Hresp Htok;
    (destruct n as [|n]; [lia|]); cbn [FullBot.send_loop]; unfold Serial.exchange.
  - rewrite Nat.add_0_r in Hresp. rewrite Hresp, Htok.
    do 2 f_equal. lia.
  - apply (silent_step _ _ (Serial.Compose (Serial.with_plus phone) message))
      in Hs as [H0 Hs].
    unfold Serial.exchange in Hs. cbn [snd] in Hs.
    set (p' := Serial.Port _ _ _) in *.
    assert (E : FullBot.send_loop n phone message p' =
      (true,
       Serial.Port (Serial.modem p) (Serial.exchanges p + S (S k))
         (Serial.wire p ++
          replicate (S (S k)) (Serial.Compose (Serial.with_plus phone) message)))).
    { rewrite (IH n phone message p' resp); [| lia | exact Hs | | exact Htok].
      - subst p'. cbn. do 2 f_equal; [lia|]. now rewrite <- app_assoc.
      - subst p'. cbn. rewrite <- Hresp. f_equal. lia. }
    destruct (Serial.modem p (Serial.exchanges p)) as [|r]; [exact E|].
    now rewrite H0.
Qed.

(** The loop gives up exactly when no attempt reads a token. *)
Lemma send_loop_false_iff (n : nat) :
  forall (phone message : string) (p : Serial.port),
    (FullBot.send_loop n phone message p).1 = false <->
    Serial.silent FullBot.success_token p n.
Proof.
  induction n as [|n IH]; intros phone message p.
  - split; [intros _ k Hk; lia | reflexivity].
  - rewrite (silent_step _ _ (Serial.Compose (Serial.with_plus phone) message)).
    cbn [FullBot.send_loop]. unfold Serial.exchange. cbn [snd].
    destruct (Serial.modem p (Serial.exchanges p)) as [|resp].
    + rewrite IH. tauto.
    + destruct (FullBot.success_token resp).
      * cbn. split; [discriminate | intros [? _]; discriminate].
      * rewrite IH. tauto.
Qed.

(** X1. [send_sms] of fullBot.py stops at the first success: when the
    first [k] attempts (fewer than [MAX_RETRIES]) read no success token,
    the response being without one or the exchange failing, and attempt
    [k + 1] reads one, [send_sms] returns [True] after exactly [k + 1]
    attempts, each of them the same message to the same number, and
    leaves the sessions and the report file as they were. *)
Theorem send_sms_first_success (phone message : string) (w : FullBot.world)
    (k : nat) (resp : string) :
  (k < FullBot.MAX_RETRIES)%nat ->
  Serial.silent FullBot.success_token (FullBot.port w) k ->
  Serial.modem (FullBot.port w) (Serial.exchanges (FullBot.port w) + k)
    = Serial.Data resp ->
  FullBot.success_token resp = true ->
  exists w',
    FullBot.send_sms phone message w = (Returned true, w') /\
    Serial.wire (FullBot.port w') =
      Serial.wire (FullBot.port w) ++
      replicate (S k) (Serial.Compose (Serial.with_plus phone) message) /\
    Serial.attempts (FullBot.port w') = (Serial.attempts (FullBot.port w) + S k)%nat /\
    FullBot.sessions w' = FullBot.sessions w /\
    FullBot.csv_file w' = FullBot.csv_file w.
Proof.
  intros Hk Hs Hresp Htok. unfold FullBot.send_sms.
  rewrite (send_loop_first_success k _ phone message _ resp Hk Hs Hresp Htok).
  eexists. split; [reflexivity|]. cbn [FullBot.port Serial.wire].
  split; [reflexivity|]. split; [|split; reflexivity].
  unfold Serial.attempts. cbn [Serial.wire].
  rewrite List.filter_app, length_app, filter_replicate_compose.
  now rewrite length_replicate.
Qed.

Lemma send_sms_first_success_witness :
  exists w',
    FullBot.send_sms "265991112222" "Amount repaid today"
      (FullBot.World ∅ None flaky_port []) = (Returned true, w') /\
    Serial.wire (FullBot.port w') =
      Serial.wire flaky_port ++
      replicate 3 (Serial.Compose (Serial.with_plus "265991112222")
                     "Amount repaid today") /\
    Serial.attempts (FullBot.port w') = (Serial.attempts flaky_port + 3)%nat /\
    FullBot.sessions w' = ∅ /\
    FullBot.csv_file w' = None.
Proof.
  apply (send_sms_first_success "265991112222" "Amount repaid today"
           (FullBot.World ∅ None flaky_port []) 2 "+CMGS: 12").
  - unfold FullBot.MAX_RETRIES. lia.
  - intros k Hk. destruct k as [|[|k]]; [reflexivity | exact I | lia].
  - reflexivity.
  - reflexivity.
Defined.

(** X2. [send_sms] of fullBot.py never raises, and it returns [False]
    exactly when none of its [MAX_RETRIES] attempts reads a success
    token, an attempt whose exchange fails counting as one that reads
    none; the call and its outcome are what it adds to the outbox. *)
Theorem send_sms_fails_iff_silent (phone message : string) (w : FullBot.world) :
  exists ok w',
    FullBot.send_sms phone message w = (Returned ok, w') /\
    (ok = false <->
     Serial.silent FullBot.success_token (FullBot.port w) FullBot.MAX_RETRIES) /\
    FullBot.outbox w' = FullBot.outbox w ++ [SmsCall phone message ok].
Proof.
  unfold FullBot.send_sms.
  pose proof (send_loop_false_iff FullBot.MAX_RETRIES phone message (FullBot.port w))
    as Hiff.
  destruct (FullBot.send_loop _ _ _ _) as [ok p'].
  exists ok. eexists. split; [reflexivity|]. split; [exact Hiff | reflexivity].
Qed.

(** On a line that is down, three attempts and no exception. *)
Example send_sms_on_dead_port :
  exists w',
    FullBot.send_sms "265991112222" "Amount repaid today"
      (FullBot.World ∅ None dead_port []) = (Returned false, w') /\
    Serial.attempts (FullBot.port w') = 3%nat.
Proof. eexists. split; [vm_compute; reflexivity | reflexivity]. Qed.

(** ** The listing of unread messages, further *)

(** *** Where index.py raises *)

Lemma getitem_short {A : Type} (l : list A) (n : nat) :
  (length l <= n)%nat -> Str.getitem l (Z.of_nat n) = Raised IndexError.
Proof.
  intros H. rewrite getitem_nat. now rewrite lookup_ge_None_2.
Qed.

(** On a listing with an incomplete header in what is left of it, the
    loop of index.py ends in an [IndexError]. *)
Lemma index_read_loop_raises (fuel : nat) (lines : list string) :
  forall (n : nat) (msgs : list message),
    (length lines - n <= fuel)%nat ->
    headers_complete (drop n lines) = false ->
    Index.read_loop fuel lines (Z.of_nat n) msgs = Some (Raised IndexError).
Proof.
  induction fuel as [|fuel IH]; intros n msgs Hfuel Hc.
  - rewrite drop_ge in Hc by lia. discriminate.
  - destruct (decide (length lines <= n)%nat) as [Hn|Hn].
    { rewrite drop_ge in Hc by lia. discriminate. }
    destruct (lookup_lt_is_Some_2 lines n ltac:(lia)) as [l Hl].
    rewrite (drop_S _ _ _ Hl) in Hc.
    cbn [Index.read_loop]. cbn [headers_complete] in Hc.
    rewrite (proj2 (Z.ltb_lt _ _)) by lia.
    rewrite getitem_nat, Hl. cbn [rbind].
    unfold is_header in Hc.
    destruct (Str.startswith "+CMGL:" (Str.strip l)) eqn:Hh.
    + rewrite (index_index_of _ Hh). cbn [rbind].
      replace (Z.of_nat n + 1 + 1) with (Z.of_nat (S (S n))) by lia.
      replace (Z.of_nat n + 1) with (Z.of_nat (S n)) by lia.
      destruct (3 <=? Z.of_nat (length (Str.split "," (Str.strip l)))) eqn:Hparts.
      * rewrite (index_sender_of _ Hparts). cbn [rbind].
        rewrite getitem_nat.
        destruct (lines !! S n) as [b|] eqn:Hbody; [|reflexivity].
        rewrite (drop_S _ _ _ Hbody) in Hc. cbn [andb rbind] in Hc |- *.
        now rewrite IH by (lia || assumption).
      * change 2 with (Z.of_nat 2). rewrite getitem_short; [reflexivity|].
        apply Z.leb_gt in Hparts. lia.
    + replace (Z.of_nat n + 1) with (Z.of_nat (S n)) by lia.
      now rewrite IH by (lia || assumption).
Qed.

Lemma index_parse_unread_cases (resp : string) :
  Index.parse_unread resp =
  Some (if headers_complete (Str.splitlines resp)
        then Returned (records (Str.splitlines resp))
        else Raised IndexError).
Proof.
  destruct (headers_complete (Str.splitlines resp)) eqn:Hc.
  - now apply index_parse_records.
  - unfold Index.parse_unread. change 0 with (Z.of_nat 0).
    apply index_read_loop_raises; [lia | now rewrite drop_0].
Qed.

(** X5. [read_sms] of index.py on any response: it returns the
    messages of the listing read record by record when every header
    line has three comma-separated fields or more and a line after it,
    and it raises [IndexError], returning no message at all, when one
    header has not. *)
Theorem index_read_sms_raises_iff (resp : string) :
  Index.parse_unread resp =
  Some (if headers_complete (Str.splitlines resp)
        then Returned (records (Str.splitlines resp))
        else Raised IndexError).
Proof. apply index_parse_unread_cases. Qed.

(** Two complete messages and a third whose body has not arrived yet:
    index.py gives none of them. *)
Example index_read_sms_loses_the_poll :
  Index.parse_unread (listing_plain +:+ NL +:+ listing_cut_short)
    = Some (Raised IndexError) /\
  FullBot.parse_unread (listing_plain +:+ NL +:+ listing_cut_short)
    = Some (Returned [ Message "1" "+265991112222" "VSLA report";
                       Message "2" "+265993334444" "12";
                       Message "1" "+265991112222" EmptyString ]).
Proof. split; vm_compute; reflexivity. Qed.

(** *** A listing without messages *)

Lemma records_no_header (lines : list string) :
  Forall (fun l => is_header l = false) lines -> records lines = [].
Proof.
  induction 1 as [|l rest Hl _ IH]; [reflexivity|].
  cbn [records]. now rewrite Hl.
Qed.

Lemma headers_complete_no_header (lines : list string) :
  Forall (fun l => is_header l = false) lines -> headers_complete lines = true.
Proof.
  induction 1 as [|l rest Hl _ IH]; [reflexivity|].
  cbn [headers_complete]. now rewrite Hl.
Qed.

(** X4. A response of the modem in which no line matches the header
    pattern (the empty response, or the bare "OK" of an empty inbox) is
    read as no message, without an exception, by both scripts. *)
Theorem listing_without_headers (out : string) :
  Forall (fun l => is_header l = false) (Str.splitlines out) ->
  FullBot.parse_unread out = Some (Returned []) /\
  Index.parse_unread out = Some (Returned []).
Proof.
  intros H. split.
  - now rewrite fullbot_parse_records, records_no_header.
  - rewrite index_parse_records by now apply headers_complete_no_header.
    now rewrite records_no_header.
Qed.

Lemma listing_without_headers_witness :
  FullBot.parse_unread (String "013" NL +:+ "OK" +:+ String "013" NL)
    = Some (Returned []) /\
  Index.parse_unread (String "013" NL +:+ "OK" +:+ String "013" NL)
    = Some (Returned []).
Proof.
  apply (listing_without_headers (String "013" NL +:+ "OK" +:+ String "013" NL)).
  repeat constructor.
Defined.

(** *** The fields of a message *)

Lemma lstrip_all (p : ascii -> bool) (s : string) :
  Str.all_c p s = true -> Str.all_c p (Str.lstrip s) = true.
Proof.
  induction s as [|c s IH]; [reflexivity|]. cbn [Str.lstrip].
  destruct (Str.isspace_c c); [|auto]. cbn [Str.all_c].
  intros H. apply andb_true_iff in H as [_ H]. auto.
Qed.

Lemma rstrip_all (p : ascii -> bool) (s : string) :
  Str.all_c p s = true -> Str.all_c p (Str.rstrip s) = true.
Proof.
  induction s as [|c s IH]; [reflexivity|]. rewrite rstrip_cons.
  cbn [Str.all_c]. intros H. apply andb_true_iff in H as [Hc Hs].
  specialize (IH Hs). destruct (Str.rstrip s) as [|d r].
  - destruct (Str.isspace_c c); [reflexivity|]. cbn [Str.all_c].
    now rewrite Hc.
  - cbn [Str.all_c] in *. now rewrite Hc, IH.
Qed.

Lemma replace_removes (old : ascii) (s : string) :
  Str.all_c (fun c => negb (Ascii.eqb c old)) (Str.replace old EmptyString s) = true.
Proof.
  induction s as [|c s IH]; [reflexivity|]. cbn [Str.replace].
  destruct (Ascii.eqb c old) eqn:Hc; [exact IH|].
  cbn [Str.all_c]. now rewrite Hc, IH.
Qed.

Lemma contains_char_absent (a : ascii) (s : string) :
  Str.all_c (fun c => negb (Ascii.eqb c a)) s = true ->
  Str.contains (String a EmptyString) s = false.
Proof.
  induction s as [|c s IH]; [reflexivity|]. cbn [Str.all_c Str.contains String.prefix].
  intros H. apply andb_true_iff in H as [Hc Hs]. rewrite (IH Hs), orb_false_r.
  destruct (ascii_dec a c) as [->|]; [|reflexivity].
  now rewrite Ascii.eqb_refl in Hc.
Qed.

(** No field of a message has blanks around it, and no sender a quote
    character. *)
Lemma message_of_trimmed (header : string) (next : option string) :
  Str.strip (index (message_of header next)) = index (message_of header next) /\
  Str.strip (phone (message_of header next)) = phone (message_of header next) /\
  Str.strip (content (message_of header next)) = content (message_of header next) /\
  Str.contains (String QUOTE EmptyString) (phone (message_of header next)) = false.
Proof.
  unfold message_of, header_index, header_sender. cbn [index phone content].
  split; [apply strip_idem|]. split; [|split; [apply strip_idem|]].
  - destruct (Str.split "," (Str.strip header)) as [|a [|b [|f rest]]];
      try reflexivity. apply strip_idem.
  - destruct (Str.split "," (Str.strip header)) as [|a [|b [|f rest]]];
      try reflexivity.
    apply contains_char_absent. unfold Str.strip.
    apply rstrip_all, lstrip_all, replace_removes.
Qed.

Lemma records_trimmed (n : nat) :
  forall lines : list string,
    (length lines <= n)%nat ->
    (2 * length (records lines) <= length lines + 1)%nat /\
    Forall (fun m =>
              Str.strip (index m) = index m /\
              Str.strip (phone m) = phone m /\
              Str.strip (content m) = content m /\
              Str.contains (String QUOTE EmptyString) (phone m) = false)
           (records lines).
Proof.
  induction n as [|n IH]; intros lines Hn.
  - destruct lines; [|cbn in Hn; lia]. split; [cbn; lia | constructor].
  - destruct lines as [|l rest]; [split; [cbn; lia | constructor]|].
    cbn [length] in Hn. cbn [records].
    destruct (is_header l).
    + destruct rest as [|b rest'].
      * split; [cbn; lia|]. constructor; [apply message_of_trimmed | constructor].
      * destruct (IH rest') as [Hlen Hall]; [cbn [length] in Hn; lia|].
        split; [cbn [length]; lia|].
        constructor; [apply message_of_trimmed | exact Hall].
    + destruct (IH rest) as [Hlen Hall]; [lia|].
      split; [cbn [length]; lia | exact Hall].
Qed.

(** X3. What [read_sms] of fullBot.py returns, whatever the modem
    answered: a list with at most one message per two lines of the
    response (the last line may count alone), in which no index, sender
    or text has blanks around it and no sender holds a quote
    character. *)
Theorem fullbot_read_sms_fields (out : string) :
  exists msgs,
    FullBot.parse_unread out = Some (Returned msgs) /\
    (2 * length msgs <= length (Str.splitlines out) + 1)%nat /\
    Forall (fun m =>
              Str.strip (index m) = index m /\
              Str.strip (phone m) = phone m /\
              Str.strip (content m) = content m /\
              Str.contains (String QUOTE EmptyString) (phone m) = false)
           msgs.
Proof.
  exists (records (Str.splitlines out)). split; [apply fullbot_parse_records|].
  now apply (records_trimmed (length (Str.splitlines out))).
Qed.

(** *** One round of the polling loop *)

(** X6. One round of the loop of [main], in both scripts, never
    raises.  fullBot.py writes the listing command and starts a worker
    for every record of the modem's answer, and for none when the
    exchange fails.  index.py writes the text-mode command and the
    listing command and starts a worker for every record when every
    header of the answer is complete; when one header is not, or an
    exchange fails, the round starts no worker at all. *)
Theorem main_round_workers (p : Serial.port) :
  (exists p',
     FullBot.main_round p =
       (Returned
          (Some match Serial.modem p (Serial.exchanges p) with
                | Serial.Data out => records (Str.splitlines out)
                | Serial.Fault => []
                end), p') /\
     Serial.wire p' = Serial.wire p ++ [Serial.Command FullBot.LIST_UNREAD]) /\
  (exists p',
     Index.main_round p =
       (Returned
          (Some match Serial.modem p (Serial.exchanges p),
                      Serial.modem p (S (Serial.exchanges p)) with
                | Serial.Data _, Serial.Data resp =>
                    if headers_complete (Str.splitlines resp)
                    then records (Str.splitlines resp) else []
                | _, _ => []
                end), p') /\
     exists l,
       Serial.wire p' = Serial.wire p ++ Serial.Command "AT+CMGF=1" :: l).
Proof.
  split.
  - unfold FullBot.main_round, Exec.catch, FullBot.read_sms,
      FullBot.send_at_command, Serial.transact, Serial.exchange.
    destruct (Serial.modem p (Serial.exchanges p)) as [|out].
    + eexists. split; reflexivity.
    + rewrite fullbot_parse_records. eexists. split; reflexivity.
  - unfold Index.main_round, Exec.catch, Index.read_sms,
      Index.send_at_command, Serial.transact, Serial.exchange,
      mbind, exec_bind, Exec.bind.
    destruct (Serial.modem p (Serial.exchanges p)) as [|r].
    + eexists. split; [reflexivity|]. now exists [].
    + cbn [Serial.modem Serial.exchanges].
      destruct (Serial.modem p (S (Serial.exchanges p))) as [|resp].
      * eexists. split; [reflexivity|]. cbn. eexists. now rewrite <- app_assoc.
      * rewrite index_parse_unread_cases.
        destruct (headers_complete (Str.splitlines resp));
          (eexists; split; [reflexivity|]); cbn; eexists; now rewrite <- app_assoc.
Qed.

(** ** What a worker leaves alone *)

Lemma others_kept_on_port (phone : string) {A : Type} (m : Exec.M Serial.port A) :
  steps (others_kept phone) (FullBot.on_port m).
Proof.
  intros w q _. unfold FullBot.on_port. now destruct (m (FullBot.port w)).
Qed.

Lemma index_others_kept_on_port (phone : string) {A : Type}
    (m : Exec.M Serial.port A) :
  steps (index_others_kept phone) (Index.on_port m).
Proof.
  intros w q _. unfold Index.on_port. now destruct (m (Index.port w)).
Qed.

(** X7. A worker changes the session of the sender of its message and
    of nobody else: in both scripts, whatever the text, the modem's
    answers and the outcome, the entry of every other sender in the
    session store is after [process_message] what it was before. *)
Theorem other_sessions_untouched (msg : message) (other : string) (now : Z)
    (stamp : string) :
  other <> phone msg ->
  (forall w : FullBot.world,
     FullBot.sessions (FullBot.process_message msg now stamp w).2 !! other =
     FullBot.sessions w !! other) /\
  (forall w : Index.world,
     Index.sessions (Index.process_message msg now stamp w).2 !! other =
     Index.sessions w !! other).
Proof.
  intros Hother. split; intros w.
  - revert w other Hother. change (steps (others_kept (phone msg))
                                     (FullBot.process_message msg now stamp)).
    unfold FullBot.process_message.
    apply steps_bind; [apply _ .. | |].
    + apply steps_swallow; [apply _ .. |]. apply others_kept_handle_message.
    + intros _. apply steps_swallow; [apply _ .. |]. apply others_kept_on_port.
  - revert w other Hother. change (steps (index_others_kept (phone msg))
                                     (Index.process_message msg now stamp)).
    unfold Index.process_message.
    apply steps_bind; [apply _ .. | |];
      [apply index_others_kept_handle_response |].
    intros reply. apply steps_bind; [apply _ .. | |];
      [apply index_others_kept_on_port |].
    intros [|]; [apply index_others_kept_on_port | apply steps_ret; apply _].
Qed.

Lemma other_sessions_untouched_witness :
  (forall w : FullBot.world,
     FullBot.sessions
       (FullBot.process_message (Message "4" "265991112222" "VSLA") 100 "t" w).2
       !! "265993334444" =
     FullBot.sessions w !! "265993334444") /\
  (forall w : Index.world,
     Index.sessions
       (Index.process_message (Message "4" "265991112222" "VSLA") 100 "t" w).2
       !! "265993334444" =
     Index.sessions w !! "265993334444").
Proof.
  apply (other_sessions_untouched (Message "4" "265991112222" "VSLA")
           "265993334444" 100 "t").
  discriminate.
Defined.

(** X8. Handling a message refreshes the sender's session: in both
    scripts the session the handler leaves for the sender, if it leaves
    one, has the time of the handling as [last_active], also when the
    handler of fullBot.py raised, and whatever the session held
    before. *)
Theorem last_active_refreshed (phone text : string) (now : Z) (stamp : string) :
  (forall (w : FullBot.world) (s : FullBot.session),
     FullBot.sessions (FullBot.handle_message phone text now stamp w).2 !! phone
       = Some s ->
     FullBot.last_active s = now) /\
  (forall (w : Index.world) (s : Index.session),
     Index.sessions (Index.handle_response phone text now stamp w).2 !! phone
       = Some s ->
     Index.last_active s = now).
Proof.
  split; intros w s.
  - apply stamped_handle_message.
  - apply index_stamped_handle_response.
Qed.

(** The refreshed session where the handler raises: the superscript
    digit at the group step. *)
Example last_active_refreshed_on_raise :
  exists w',
    FullBot.handle_message "265991112222" SUPERSCRIPT_TWO 100 "t" world_at_group
      = (Raised ValueError, w') /\
    FullBot.last_active <$> FullBot.sessions w' !! "265991112222" = Some 100.
Proof. eexists. split; [vm_compute; reflexivity | reflexivity]. Qed.

(** X9. A session that has just been served outlives the reaper for the
    time of the timeout: after [handle_message] at time [now], a sweep
    of [cleanup_sessions] at time [t] raises nothing, keeps the sender's
    session as the handler left it when [t - now] is at most
    [SESSION_TIMEOUT] (the boundary included), and removes it when
    [t - now] is more. *)
Theorem handled_session_outlives_sweep (phone text : string) (now : Z)
    (stamp : string) (w : FullBot.world) (s : FullBot.session) (t : Z) :
  FullBot.sessions (FullBot.handle_message phone text now stamp w).2 !! phone
    = Some s ->
  exists m',
    FullBot.cleanup_sweep t
      (FullBot.sessions (FullBot.handle_message phone text now stamp w).2)
      = Returned m' /\
    (t - now <= FullBot.SESSION_TIMEOUT -> m' !! phone = Some s) /\
    (FullBot.SESSION_TIMEOUT < t - now -> m' !! phone = None).
Proof.
  intros Hs.
  pose proof (stamped_handle_message phone text now stamp w s Hs) as Hnow.
  destruct (sweep_spec
              (fun s => FullBot.SESSION_TIMEOUT <? t - FullBot.last_active s)
              (FullBot.sessions (FullBot.handle_message phone text now stamp w).2))
    as (m' & Hm' & Hkeep & _).
  exists m'. split; [exact Hm'|].
  destruct (Hkeep phone s Hs) as [Hold Hyoung]. rewrite Hnow in Hold, Hyoung.
  split; intros H.
  - apply Hyoung. apply Z.ltb_ge. lia.
  - apply Hold. now apply Z.ltb_lt.
Qed.

Lemma handled_session_outlives_sweep_witness :
  exists m',
    FullBot.cleanup_sweep 2500
      (FullBot.sessions
         (FullBot.handle_message "265991112222" "3" 100 "t" world_at_group).2)
      = Returned m' /\
    (2500 - 100 <= FullBot.SESSION_TIMEOUT ->
     m' !! "265991112222" =
       Some (FullBot.Session 1 (Some FullBot.english) [] (Some "Chimnyanga") 100)) /\
    (FullBot.SESSION_TIMEOUT < 2500 - 100 -> m' !! "265991112222" = None).
Proof.
  apply (handled_session_outlives_sweep "265991112222" "3" 100 "t" world_at_group
           (FullBot.Session 1 (Some FullBot.english) [] (Some "Chimnyanga") 100)
           2500).
  reflexivity.
Defined.

(** X10. The handler never looks at the age of a session: for a sender
    with a session, [handle_message] does the same whatever the
    session's [last_active] was.  A conversation past its timeout that
    the reaper has not swept yet goes on as if it had never paused. *)
Theorem stale_session_still_served (phone text : string) (now : Z)
    (stamp : string) (w : FullBot.world) (s : FullBot.session) (idle_since : Z) :
  FullBot.sessions w !! phone = Some s ->
  FullBot.handle_message phone text now stamp
    (FullBot.set_sessions
       (<[phone := FullBot.touch idle_since s]> (FullBot.sessions w)) w) =
  FullBot.handle_message phone text now stamp w.
Proof.
  intros Hs. unfold FullBot.handle_message. rewrite !bind_get. cbv beta.
  unfold FullBot.set_sessions.
  cbn [FullBot.sessions FullBot.csv_file FullBot.port FullBot.outbox].
  rewrite !lookup_insert_eq, !Hs.
  rewrite !bool_decide_eq_true_2 by eauto.
  cbn [negb andb default from_option id].
  rewrite !bind_modify. cbv beta.
  cbn [FullBot.sessions FullBot.csv_file FullBot.port FullBot.outbox].
  rewrite insert_insert_eq.
  replace (FullBot.touch now (FullBot.touch idle_since s))
    with (FullBot.touch now s) by now destruct s.
  reflexivity.
Qed.

Lemma stale_session_still_served_witness :
  FullBot.handle_message "265991112222" "3" 100000 "t"
    (FullBot.set_sessions
       (<[("265991112222" : string) :=
            FullBot.touch 7
              (FullBot.Session 0 (Some FullBot.english) [] None 50)]>
          (FullBot.sessions world_at_group)) world_at_group) =
  FullBot.handle_message "265991112222" "3" 100000 "t" world_at_group.
Proof.
  apply (stale_session_still_served "265991112222" "3" 100000 "t" world_at_group
           (FullBot.Session 0 (Some FullBot.english) [] None 50) 7).
  reflexivity.
Defined.

(** X11. The handler of fullBot.py writes to nobody but the sender:
    whatever the text and the state, all that [handle_message] adds to
    what was written on the serial line are messages composed for the
    sender's number (with the [+] in front). *)
Theorem replies_go_to_the_sender (phone text : string) (now : Z)
    (stamp : string) (w : FullBot.world) :
  exists l,
    Serial.wire (FullBot.port (FullBot.handle_message phone text now stamp w).2)
      = Serial.wire (FullBot.port w) ++ l /\
    Forall (fun e => exists body,
              e = Serial.Compose (Serial.with_plus phone) body) l.
Proof. apply writes_to_handle_message. Qed.

(** ** The report file of fullBot.py *)

Lemma report_kept_run {A : Type} (m : FullBot.M A) (w : FullBot.world) :
  steps report_kept m -> FullBot.csv_file (m w).2 = FullBot.csv_file w.
Proof. intros H. apply H. Qed.

Lemma report_kept_send_sms (to message : string) :
  steps report_kept (FullBot.send_sms to message).
Proof.
  intros w.
  destruct (send_sms_frame to message w) as (ok & p' & -> & _). reflexivity.
Qed.

Lemma report_kept_get_session (phone : string) :
  steps report_kept (FullBot.get_session phone).
Proof.
  intros w. unfold FullBot.get_session.
  now destruct (FullBot.sessions w !! phone).
Qed.

Lemma report_kept_update_session (phone : string)
    (f : FullBot.session -> FullBot.session) :
  steps report_kept (FullBot.update_session phone f).
Proof.
  intros w. unfold FullBot.update_session, FullBot.get_session.
  unfold mbind, exec_bind, Exec.bind, Exec.modify.
  now destruct (FullBot.sessions w !! phone).
Qed.

(** What one message does to the report file, whatever the state. *)
Lemma handle_message_report_cases (phone text : string) (now : Z)
    (stamp : string) (w : FullBot.world) :
  FullBot.csv_file (FullBot.handle_message phone text now stamp w).2
    = FullBot.csv_file w \/
  exists s,
    FullBot.sessions w !! phone = Some s /\
    FullBot.step s = 7 /\
    Str.isdigit (Str.strip text) = true /\
    FullBot.csv_file (FullBot.handle_message phone text now stamp w).2 =
      with_row
        (FullBot.report_row phone (FullBot.lang s) (FullBot.group s)
           (FullBot.answers s ++ [Str.strip text]) stamp)
        (FullBot.csv_file w) /\
    FullBot.sessions (FullBot.handle_message phone text now stamp w).2 !! phone
      = None.
Proof.
  destruct (FullBot.sessions w !! phone) as [s|] eqn:Hs.
  2:{ left. destruct (Str.contains "vsla" (Str.lower (Str.strip text))) eqn:Ht.
      - now destruct (handled_snd _ _ _ _ _ _ _ _
                        (step_opened phone text now stamp w Hs Ht)) as (_ & -> & _).
      - now rewrite step_ignored. }
  destruct (decide (FullBot.step s = 7 /\ Str.isdigit (Str.strip text) = true))
    as [[H7 Hd]|Hnot].
  { right. exists s. split; [reflexivity|]. split; [exact H7|]. split; [exact Hd|].
    destruct (handled_snd _ _ _ _ _ _ _ _
                (step_last_answer phone text now stamp w s Hs H7 Hd))
      as (Hm & Hf & _).
    split; [exact Hf|]. rewrite Hm. apply lookup_delete_eq. }
  left. unfold FullBot.handle_message. rewrite bind_get. cbv beta.
  rewrite Hs. rewrite bool_decide_eq_true_2 by eauto.
  cbn [negb andb default from_option id].
  rewrite bind_modify. cbv beta.
  set (w1 := FullBot.set_sessions _ w).
  change (FullBot.csv_file w) with (FullBot.csv_file w1).
  cbn [FullBot.step FullBot.touch FullBot.lang].
  assert (Hkept : forall (A : Type) (m : FullBot.M A) (w0 : FullBot.world),
            steps report_kept m ->
            FullBot.csv_file w0 = FullBot.csv_file w1 ->
            FullBot.csv_file (m w0).2 = FullBot.csv_file w1).
  { intros A m w0 Hm <-. now apply report_kept_run. }
  destruct (FullBot.step s =? -1);
    [| destruct (FullBot.step s =? 0);
       [| destruct ((1 <=? FullBot.step s) && (FullBot.step s <=? 7)) eqn:Hrange;
          [destruct (Str.isdigit (Str.strip text)) eqn:Hd |] ]].
  3:{ (* a valid answer: the session is there, the updates are run *)
      erewrite bind_returned
        by (apply update_session_some; subst w1; cbn; apply lookup_insert_eq).
      erewrite bind_returned
        by (apply update_session_some; subst w1; cbn; apply lookup_insert_eq).
      erewrite bind_returned
        by (apply get_session_some; subst w1; cbn; apply lookup_insert_eq).
      cbn [FullBot.step FullBot.set_step FullBot.append_answer FullBot.touch
           FullBot.lang].
      destruct (FullBot.step s + 1 <=? 7) eqn:Hnext.
      2:{ exfalso. apply Hnot. split; [|reflexivity].
          apply andb_true_iff in Hrange as [_ Hhi]. apply Z.leb_le in Hhi.
          apply Z.leb_gt in Hnext. lia. }
      apply Hkept; [|reflexivity]. unfold FullBot.questions_for.
      step_through
        ltac:(apply steps_bind; [apply _ .. | |]) ltac:(fail)
        ltac:(first [ apply steps_ret; apply _ | apply steps_raise; apply _
                    | apply steps_lift; apply _ | apply report_kept_send_sms ]). }
  4: reflexivity.
  all: apply Hkept; [|reflexivity];
    unfold FullBot.group_number_ok, FullBot.questions_for, FullBot.group_list_for;
    step_through
      ltac:(apply steps_bind; [apply _ .. | |]) ltac:(fail)
      ltac:(first [ apply steps_ret; apply _ | apply steps_raise; apply _
                  | apply steps_lift; apply _ | apply report_kept_send_sms
                  | apply report_kept_update_session ]).
Qed.


(** ** What the session store and the report file always hold *)

Lemma session_sound_touch (now : Z) (s : FullBot.session) :
  session_sound s -> session_sound (FullBot.touch now s).
Proof. now destruct s. Qed.

Lemma session_sound_lang (s : FullBot.session) :
  session_sound s -> 0 <= FullBot.step s -> exists l, FullBot.lang s = Some l.
Proof.
  intros [(H & _) | (l & Hl & _)] Hpos; [lia | now exists l].
Qed.

Lemma session_sound_range (s : FullBot.session) :
  session_sound s -> -1 <= FullBot.step s <= 7.
Proof.
  intros [(H & _) | (l & _ & [(H & _) | (H & _)])]; lia.
Qed.

(** One message keeps every session of the store sound, also when the
    handler raises. *)
Lemma handle_message_keeps_store_sound (phone text : string) (now : Z)
    (stamp : string) (w : FullBot.world) :
  store_sound w ->
  store_sound (FullBot.handle_message phone text now stamp w).2.
Proof.
  intros Hok.
  assert (Hins : forall s', session_sound s' ->
            forall p s, <[phone := s']> (FullBot.sessions w) !! p = Some s ->
                        session_sound s).
  { intros s' Hs' p s. destruct (decide (phone = p)) as [->|Hne].
    - rewrite lookup_insert_eq. now intros [= <-].
    - rewrite lookup_insert_ne by exact Hne. apply Hok. }
  assert (Hdel : forall p s, delete phone (FullBot.sessions w) !! p = Some s ->
                             session_sound s).
  { intros p s. destruct (decide (phone = p)) as [->|Hne].
    - now rewrite lookup_delete_eq.
    - rewrite lookup_delete_ne by exact Hne. apply Hok. }
  assert (Hdone : forall m f texts,
            handled phone text now stamp w m f texts ->
            (forall p s, m !! p = Some s -> session_sound s) ->
            store_sound (FullBot.handle_message phone text now stamp w).2).
  { intros m f texts (w' & -> & <- & _) Hm. exact Hm. }
  destruct (FullBot.sessions w !! phone) as [s|] eqn:Hs.
  2:{ destruct (Str.contains "vsla" (Str.lower (Str.strip text))) eqn:Ht.
      - eapply Hdone; [eapply step_opened; eassumption|]. apply Hins.
        left. now repeat split.
      - now rewrite step_ignored. }
  pose proof (Hok _ _ Hs) as Hsound.
  pose proof (session_sound_touch now s Hsound) as Htouch.
  destruct Hsound as [(Hstep & Hlang & Hgroup & Hans)
                     | (l & Hl & [(Hstep & Hgroup & Hans)
                                 | (Hstep & (gid & Hgid & Hgroup) & Hlen & Hdig)])].
  - (* the language step *)
    destruct (FullBot.language_choice (Str.strip text)) as [l|] eqn:Hc.
    + eapply Hdone; [eapply step_language_chosen; eassumption|].
      apply Hins. right. exists l. split; [reflexivity|]. left.
      cbn. now rewrite Hgroup, Hans.
    + eapply Hdone; [eapply step_language_invalid; eassumption|]. now apply Hins.
  - (* the group step *)
    destruct (Str.isdigit (Str.strip text)) eqn:Hd.
    + destruct (Str.int (Str.strip text)) as [n|e] eqn:Hint.
      * destruct (decide (1 <= n <= 17)) as [Hr|Hr].
        -- eapply Hdone;
             [eapply (step_group_chosen _ _ _ _ _ s l n); eassumption|].
           apply Hins. right. exists l. split; [exact Hl|]. right. cbn.
           rewrite Hans. split; [lia|]. split; [now exists n|].
           split; [reflexivity | constructor].
        -- eapply Hdone; [apply (step_group_invalid _ _ _ _ _ s l); eauto|].
           now apply Hins.
      * assert (e = ValueError) as ->.
        { exact (int_raises _ _ Hint). }
        rewrite (step_group_raises _ _ _ _ _ s Hs Hstep Hd Hint).
        intros p s'. cbn. now apply Hins.
    + eapply Hdone; [apply (step_group_invalid _ _ _ _ _ s l); auto|].
      now apply Hins.
  - (* an answer step *)
    destruct (Str.isdigit (Str.strip text)) eqn:Hd.
    + destruct (decide (FullBot.step s = 7)) as [H7|H7].
      * eapply Hdone; [eapply step_last_answer; eassumption|]. exact Hdel.
      * eapply Hdone; [apply (step_answer _ _ _ _ _ s l); auto; lia|].
        apply Hins. right. exists l. split; [exact Hl|]. right. cbn.
        split; [lia|]. split; [now exists gid|].
        rewrite length_app. cbn [length]. split; [lia|].
        apply Forall_app. split; [exact Hdig | now constructor].
    + eapply Hdone; [apply (step_answer_invalid _ _ _ _ _ s l); auto|].
      now apply Hins.
Qed.

Lemma serve_snoc (arrivals : list arrival) (a : arrival) (w : FullBot.world) :
  serve (arrivals ++ [a]) w =
  (FullBot.handle_message (sender_of a) (text_of (inbound_of a))
     (time_of (inbound_of a)) (stamp_of (inbound_of a)) (serve arrivals w)).2.
Proof. unfold serve. now rewrite foldl_app. Qed.

Lemma serve_keeps_store_sound (arrivals : list arrival) (w : FullBot.world) :
  store_sound w -> store_sound (serve arrivals w).
Proof.
  intros Hok. induction arrivals as [|a arrivals IH] using rev_ind; [exact Hok|].
  rewrite serve_snoc. now apply handle_message_keeps_store_sound.
Qed.

(** X13. The session store of fullBot.py stays sound: if every session
    holds what its step calls for (nothing at the language step; the
    language at the group step; from the first question on the language,
    the name of one of the seventeen groups and exactly [step - 1]
    answers, all of digits), then so does every session after any
    sequence of messages of any senders, handled one after the other,
    also through the runs in which the handler raises. *)
Theorem store_sound_invariant (arrivals : list arrival) (w : FullBot.world) :
  store_sound w -> store_sound (serve arrivals w).
Proof. apply serve_keeps_store_sound. Qed.

Lemma store_sound_invariant_witness :
  store_sound
    (serve [ Arrival "265991112222" (Inbound "VSLA" 10 "t");
             Arrival "265993334444" (Inbound "vsla report" 11 "t");
             Arrival "265991112222" (Inbound "2" 20 "t");
             Arrival "265991112222" (Inbound SUPERSCRIPT_TWO 30 "t");
             Arrival "265991112222" (Inbound "17" 40 "t");
             Arrival "265991112222" (Inbound " 40 " 50 "t") ]
       (FullBot.World ∅ None ready_port [])).
Proof.
  apply (store_sound_invariant
           [ Arrival "265991112222" (Inbound "VSLA" 10 "t");
             Arrival "265993334444" (Inbound "vsla report" 11 "t");
             Arrival "265991112222" (Inbound "2" 20 "t");
             Arrival "265991112222" (Inbound SUPERSCRIPT_TWO 30 "t");
             Arrival "265991112222" (Inbound "17" 40 "t");
             Arrival "265991112222" (Inbound " 40 " 50 "t") ]
           (FullBot.World ∅ None ready_port [])).
  intros p s H. cbn in H. rewrite lookup_empty in H. discriminate H.
Defined.

(** The store that witness leaves. *)
Example store_after_six_messages :
  FullBot.sessions
    (serve [ Arrival "265991112222" (Inbound "VSLA" 10 "t");
             Arrival "265993334444" (Inbound "vsla report" 11 "t");
             Arrival "265991112222" (Inbound "2" 20 "t");
             Arrival "265991112222" (Inbound SUPERSCRIPT_TWO 30 "t");
             Arrival "265991112222" (Inbound "17" 40 "t");
             Arrival "265991112222" (Inbound " 40 " 50 "t") ]
       (FullBot.World ∅ None ready_port [])) =
  {[ "265991112222" :=
       FullBot.Session 2 (Some FullBot.chichewa) ["40"] (Some "Kanjeza") 50;
     "265993334444" := FullBot.Session (-1) None [] None 11 ]}.
Proof. vm_compute. reflexivity. Qed.

Lemma with_row_keeps_report_file_ok (row : list string)
    (f : option (list (list string))) :
  complete_row row -> report_file_ok f -> report_file_ok (with_row row f).
Proof.
  intros Hrow Hf. destruct f as [rows|]; cbn in *.
  - destruct Hf as (body & -> & Hbody). exists (body ++ [row]).
    split; [reflexivity|]. apply Forall_app. split; [exact Hbody | now constructor].
  - exists [row]. split; [reflexivity | now constructor].
Qed.

Lemma handle_message_keeps_report_file_ok (phone text : string) (now : Z)
    (stamp : string) (w : FullBot.world) :
  store_sound w ->
  report_file_ok (FullBot.csv_file w) ->
  report_file_ok (FullBot.csv_file (FullBot.handle_message phone text now stamp w).2).
Proof.
  intros Hok Hf.
  destruct (handle_message_report_cases phone text now stamp w)
    as [-> | (s & Hs & H7 & Hd & -> & _)]; [exact Hf|].
  apply with_row_keeps_report_file_ok; [|exact Hf].
  destruct (Hok _ _ Hs) as [(Hstep & _)
                           | (l & Hl & [(Hstep & _)
                                       | (_ & (gid & Hgid & Hgroup) & Hlen & Hdig)])];
    try lia.
  exists phone, l, gid, (FullBot.answers s ++ [Str.strip text]), stamp.
  split; [exact Hgid|].
  assert (Hseven : length (FullBot.answers s ++ [Str.strip text]) = 7%nat).
  { rewrite length_app. cbn [length]. lia. }
  split; [exact Hseven|]. split.
  - apply Forall_app. split; [exact Hdig | now constructor].
  - rewrite Hl, Hgroup. now apply report_row_seven.
Qed.

(** X14. The report file of fullBot.py is well formed and stays so:
    starting from a sound session store and a report file that does not
    exist yet or starts with the header row followed by complete rows
    only, after any sequence of messages of any senders the file, if it
    exists, starts with the header row and every row after it holds the
    sender, a language, the name of one of the seventeen groups, seven
    answers of digits and the time stamp.  The header is never written
    twice, and no row ever has an empty cell. *)
Theorem report_file_invariant (arrivals : list arrival) (w : FullBot.world) :
  store_sound w ->
  report_file_ok (FullBot.csv_file w) ->
  report_file_ok (FullBot.csv_file (serve arrivals w)).
Proof.
  intros Hok Hf. induction arrivals as [|a arrivals IH] using rev_ind; [exact Hf|].
  rewrite serve_snoc. apply handle_message_keeps_report_file_ok; [|exact IH].
  now apply serve_keeps_store_sound.
Qed.

Lemma report_file_invariant_witness :
  report_file_ok
    (FullBot.csv_file
       (serve (map (Arrival "265991112222")
                 (Inbound "VSLA report" 10 "t" :: Inbound "1" 20 "t"
                  :: Inbound "3" 30 "t" :: seven_answers))
          (FullBot.World ∅ None ready_port []))).
Proof.
  apply (report_file_invariant
           (map (Arrival "265991112222")
              (Inbound "VSLA report" 10 "t" :: Inbound "1" 20 "t"
               :: Inbound "3" 30 "t" :: seven_answers))
           (FullBot.World ∅ None ready_port [])).
  - intros p s H. cbn in H. rewrite lookup_empty in H. discriminate H.
  - exact I.
Defined.

(** ** The steps of the conversation of fullBot.py *)

Lemma language_choice_code (l : FullBot.language) :
  FullBot.language_choice (language_code l) = Some l.
Proof. now destruct l. Qed.

(** X15. The choice of the language.  A sender at the language step
    whose text, stripped, is "1", "2" or "3" gets English, Chichewa or
    Tumbuka recorded as the language of the session; the session moves
    to the group step with nothing else changed but the time of its last
    activity, nothing is written to the report file, and the group list
    of that language is asked to be sent, in its two parts, in this
    order. *)
Theorem language_selection (phone text : string) (now : Z) (stamp : string)
    (w : FullBot.world) (s : FullBot.session) (l : FullBot.language) :
  FullBot.sessions w !! phone = Some s ->
  FullBot.step s = -1 ->
  Str.strip text = language_code l ->
  handled phone text now stamp w
    (<[phone := FullBot.Session 0 (Some l) (FullBot.answers s) (FullBot.group s) now]>
       (FullBot.sessions w))
    (FullBot.csv_file w)
    [(FullBot.group_list_parts l).1; (FullBot.group_list_parts l).2].
Proof.
  intros Hs Hstep Htext.
  assert (Hc : FullBot.language_choice (Str.strip text) = Some l)
    by (rewrite Htext; apply language_choice_code).
  exact (step_language_chosen phone text now stamp w s l Hs Hstep Hc).
Qed.

Lemma language_selection_witness :
  handled "265991112222" " 2 " 100 "t"
    (FullBot.World {[ "265991112222" := FullBot.Session (-1) None [] None 50 ]}
       None ready_port [])
    (<[("265991112222" : string) :=
         FullBot.Session 0 (Some FullBot.chichewa) [] None 100]>
       {[ "265991112222" := FullBot.Session (-1) None [] None 50 ]})
    None
    [(FullBot.group_list_parts FullBot.chichewa).1;
     (FullBot.group_list_parts FullBot.chichewa).2].
Proof.
  exact (language_selection "265991112222" " 2 " 100 "t"
           (FullBot.World {[ "265991112222" := FullBot.Session (-1) None [] None 50 ]}
              None ready_port [])
           (FullBot.Session (-1) None [] None 50) FullBot.chichewa
           eq_refl eq_refl eq_refl).
Defined.

Lemma group_name_listed (gid : Z) :
  1 <= gid <= 17 ->
  group_name gid <> EmptyString /\
  FullBot.groupNames !! Z.to_nat gid = Some (group_name gid).
Proof.
  intros H.
  assert (Hk : gid = 1 \/ gid = 2 \/ gid = 3 \/ gid = 4 \/ gid = 5 \/ gid = 6 \/
               gid = 7 \/ gid = 8 \/ gid = 9 \/ gid = 10 \/ gid = 11 \/ gid = 12 \/
               gid = 13 \/ gid = 14 \/ gid = 15 \/ gid = 16 \/ gid = 17) by lia.
  repeat destruct Hk as [->|Hk]; subst; (split; [discriminate | reflexivity]).
Qed.

(** X16. The choice of the group.  A sender at the group step, with
    language [l], whose text, stripped, is a number from 1 to 17 in
    decimal digits (leading zeros allowed, no more digits than [int]
    converts: 4300) gets the name that
    [groupNames] has at that index recorded as the group of the
    session: never the unused empty entry at index 0.  The session moves
    to step 1 with nothing else changed but the time of its last
    activity, and the first question is asked to be sent in language
    [l]. *)
Theorem group_selection (phone text : string) (now : Z) (stamp : string)
    (w : FullBot.world) (s : FullBot.session) (l : FullBot.language) :
  FullBot.sessions w !! phone = Some s ->
  FullBot.step s = 0 ->
  FullBot.lang s = Some l ->
  decimal_text (Str.strip text) = true ->
  within_limit (Str.strip text) ->
  1 <= Str.decimal_value (Str.strip text) <= 17 ->
  exists name,
    FullBot.groupNames !! Z.to_nat (Str.decimal_value (Str.strip text)) = Some name /\
    name <> EmptyString /\
    handled phone text now stamp w
      (<[phone := FullBot.Session 1 (Some l) (FullBot.answers s) (Some name) now]>
         (FullBot.sessions w))
      (FullBot.csv_file w)
      [question l 1].
Proof.
  intros Hs Hstep Hl Hdec Hshort Hrange.
  destruct (group_name_listed _ Hrange) as [Hne Hlisted].
  exists (group_name (Str.decimal_value (Str.strip text))).
  split; [exact Hlisted|]. split; [exact Hne|].
  pose proof (step_group_chosen phone text now stamp w s l _ Hs Hstep Hl
                (decimal_text_isdigit _ Hdec) (int_decimal_text _ Hdec Hshort)
                Hrange)
    as H.
  replace (FullBot.set_step 1 (FullBot.set_group _ (FullBot.touch now s)))
    with (FullBot.Session 1 (Some l) (FullBot.answers s)
            (Some (group_name (Str.decimal_value (Str.strip text)))) now) in H
    by (destruct s; cbn in Hl; subst; reflexivity).
  exact H.
Qed.

Lemma group_selection_witness :
  exists name,
    FullBot.groupNames !! Z.to_nat (Str.decimal_value (Str.strip " 007 ")) = Some name /\
    name <> EmptyString /\
    handled "265991112222" " 007 " 100 "t" world_at_group
      (<[("265991112222" : string) :=
           FullBot.Session 1 (Some FullBot.english) [] (Some name) 100]>
         (FullBot.sessions world_at_group))
      (FullBot.csv_file world_at_group)
      [question FullBot.english 1].
Proof.
  refine (group_selection "265991112222" " 007 " 100 "t" world_at_group
            (FullBot.Session 0 (Some FullBot.english) [] None 50) FullBot.english
            eq_refl eq_refl eq_refl eq_refl _ _).
  - now vm_compute.
  - change (1 <= 7 <= 17). lia.
Defined.

(** " 007 " is group 7. *)
Example group_selection_leading_zeros :
  exists w',
    FullBot.handle_message "265991112222" " 007 " 100 "t" world_at_group
      = (Returned tt, w') /\
    FullBot.group <$> FullBot.sessions w' !! "265991112222" = Some (Some "Kabira").
Proof. eexists. split; [vm_compute; reflexivity | reflexivity]. Qed.

Lemma questions_length (l : FullBot.language) :
  length (FullBot.followup_questions l) = 7%nat.
Proof. now destruct l. Qed.

(** From any answer step on: the answers still due, all valid, make the
    handler ask for the questions still open, in their order, and for
    the thanks after them. *)
Lemma feed_asks_the_open_questions (phone : string) (l : FullBot.language)
    (inputs : list inbound) :
  forall (w : FullBot.world) (s : FullBot.session),
    FullBot.sessions w !! phone = Some s ->
    FullBot.lang s = Some l ->
    1 <= FullBot.step s <= 7 ->
    Z.of_nat (length inputs) = 8 - FullBot.step s ->
    Forall (fun i => Str.isdigit (answer_of i) = true) inputs ->
    requests (FullBot.outbox (feed phone inputs w)) =
    requests (FullBot.outbox w) ++
    map (pair phone)
      (questions_from l (Z.to_nat (FullBot.step s)) ++ [FullBot.THANK_YOU]).
Proof.
  induction inputs as [|i rest IH]; intros w s Hs Hl Hstep Hlen Hall.
  - cbn [length] in Hlen. lia.
  - apply Forall_cons in Hall as [Hd Hall]. rewrite feed_cons.
    cbn [length] in Hlen.
    destruct (decide (FullBot.step s = 7)) as [H7|H7].
    + destruct rest as [|j rest]; [|cbn [length] in Hlen; lia].
      destruct (handled_snd _ _ _ _ _ _ _ _
                  (step_last_answer phone (text_of i) (time_of i) (stamp_of i)
                     w s Hs H7 Hd)) as (_ & _ & Hr).
      change (feed phone [] ?x) with x. rewrite Hr, H7.
      unfold questions_from. rewrite drop_ge by (rewrite questions_length; lia).
      reflexivity.
    + destruct (handled_snd _ _ _ _ _ _ _ _
                  (step_answer phone (text_of i) (time_of i) (stamp_of i) w s l
                     Hs ltac:(lia) Hl Hd)) as (Hm & _ & Hr).
      set (w1 := (FullBot.handle_message phone (text_of i) (time_of i)
                    (stamp_of i) w).2) in *.
      rewrite (IH w1 _ ltac:(rewrite Hm; apply lookup_insert_eq));
        [| exact Hl | cbn; lia | cbn; lia | exact Hall].
      rewrite Hr, <- app_assoc, <- map_app. do 2 f_equal.
      cbn [FullBot.step FullBot.set_step].
      unfold questions_from, question.
      replace (Z.to_nat (FullBot.step s + 1 - 1)) with (Z.to_nat (FullBot.step s))
        by lia.
      replace (Z.to_nat (FullBot.step s + 1)) with (S (Z.to_nat (FullBot.step s)))
        by lia.
      destruct (lookup_lt_is_Some_2 (FullBot.followup_questions l)
                  (Z.to_nat (FullBot.step s))) as [q Hq].
      { rewrite questions_length. lia. }
      rewrite Hq. cbn [default from_option id app].
      now rewrite (drop_S _ _ _ Hq).
Qed.

(** X17. The questions come in their order.  A sender at the first
    question, with language [l], who sends seven texts that, stripped,
    [isdigit] accepts is asked, message after message, for exactly the
    second to the seventh question of [followup_questions] in language
    [l], in the order of the list, and then for the thanks; nothing else
    is asked to be sent. *)
Theorem questions_asked_in_order (phone : string) (w : FullBot.world)
    (s : FullBot.session) (l : FullBot.language) (inputs : list inbound) :
  FullBot.sessions w !! phone = Some s ->
  FullBot.step s = 1 ->
  FullBot.lang s = Some l ->
  length inputs = 7%nat ->
  Forall (fun i => Str.isdigit (answer_of i) = true) inputs ->
  requests (FullBot.outbox (feed phone inputs w)) =
  requests (FullBot.outbox w) ++
  map (pair phone) (drop 1 (FullBot.followup_questions l) ++ [FullBot.THANK_YOU]).
Proof.
  intros Hs Hstep Hl Hlen Hall.
  rewrite (feed_asks_the_open_questions phone l inputs w s Hs Hl);
    [| lia | lia | exact Hall].
  now rewrite Hstep.
Qed.

Lemma questions_asked_in_order_witness :
  requests (FullBot.outbox (feed "265991112222" seven_answers world_at_question)) =
  requests (FullBot.outbox world_at_question) ++
  map (pair "265991112222")
    (drop 1 (FullBot.followup_questions FullBot.english) ++ [FullBot.THANK_YOU]).
Proof.
  refine (questions_asked_in_order "265991112222" world_at_question
            (FullBot.Session 1 (Some FullBot.english) [] (Some "Chimnyanga") 50)
            FullBot.english seven_answers eq_refl eq_refl eq_refl eq_refl _).
  repeat constructor.
Defined.

(** ** One sweep after another *)

Section SweepTwice.

Context {A : Type}.
Variables early late : A -> bool.
Hypothesis early_late : forall s, early s = true -> late s = true.

(** What an early sweep removes a late sweep removes as well: sweeping
    early and then late leaves what the late sweep alone leaves. *)
Lemma sweep_twice (m : gmap string A) :
  exists m1 m2,
    Dict.del_all (Dict.keys_where early m) m = Returned m1 /\
    Dict.del_all (Dict.keys_where late m1) m1 = Returned m2 /\
    Dict.del_all (Dict.keys_where late m) m = Returned m2.
Proof.
  destruct (sweep_spec early m) as (m1 & E1 & Hk1 & Hn1).
  destruct (sweep_spec late m1) as (m2 & E2 & Hk2 & Hn2).
  destruct (sweep_spec late m) as (m3 & E3 & Hk3 & Hn3).
  exists m1, m2. split; [exact E1|]. split; [exact E2|].
  rewrite E3. f_equal. apply map_eq. intros p.
  destruct (m !! p) as [s|] eqn:Hp.
  - destruct (Hk1 p s Hp) as [Hold1 Hyoung1].
    destruct (Hk3 p s Hp) as [Hold3 Hyoung3].
    destruct (early s) eqn:He.
    + rewrite (Hold3 (early_late s He)). rewrite (Hn2 p (Hold1 eq_refl)).
      reflexivity.
    + destruct (Hk2 p s (Hyoung1 eq_refl)) as [Hold2 Hyoung2].
      destruct (late s).
      * now rewrite Hold2, Hold3.
      * now rewrite Hyoung2, Hyoung3.
  - now rewrite (Hn3 p Hp), (Hn2 p (Hn1 p Hp)).
Qed.

End SweepTwice.

(** X18. A later sweep of the reaper makes up for an earlier one: in
    both scripts, sweeping the session store at time [t] and then at a
    time [t'] not before [t] raises nothing and leaves exactly the store
    that one sweep at [t'] leaves.  With [t' = t]: a second sweep at the
    same time changes nothing. *)
Theorem sweep_then_later_sweep (t t' : Z) :
  t <= t' ->
  (forall m : gmap string FullBot.session,
     exists m1 m2,
       FullBot.cleanup_sweep t m = Returned m1 /\
       FullBot.cleanup_sweep t' m1 = Returned m2 /\
       FullBot.cleanup_sweep t' m = Returned m2) /\
  (forall m : gmap string Index.session,
     exists m1 m2,
       Index.cleanup_sweep t m = Returned m1 /\
       Index.cleanup_sweep t' m1 = Returned m2 /\
       Index.cleanup_sweep t' m = Returned m2).
Proof.
  intros Ht. split; intros m; apply sweep_twice; intros s H;
    apply Z.ltb_lt in H; apply Z.ltb_lt; lia.
Qed.

Lemma sweep_then_later_sweep_witness :
  (forall m : gmap string FullBot.session,
     exists m1 m2,
       FullBot.cleanup_sweep 3000 m = Returned m1 /\
       FullBot.cleanup_sweep 3060 m1 = Returned m2 /\
       FullBot.cleanup_sweep 3060 m = Returned m2) /\
  (forall m : gmap string Index.session,
     exists m1 m2,
       Index.cleanup_sweep 3000 m = Returned m1 /\
       Index.cleanup_sweep 3060 m1 = Returned m2 /\
       Index.cleanup_sweep 3060 m = Returned m2).
Proof. apply (sweep_then_later_sweep 3000 3060). lia. Defined.

(** ** index.py: errors and the whole conversation *)

(** X19. The group step of index.py on a text that [isdigit] accepts
    and [int] does not (a superscript digit): the [ValueError] is caught
    inside [handle_response], which returns the error reply; the session
    stays at the group step with nothing changed but the time of its
    last activity, and the report file and the port are untouched. *)
Theorem index_group_step_error_reply (phone message : string) (now : Z)
    (stamp : string) (w : Index.world) (s : Index.session) :
  Index.sessions w !! phone = Some s ->
  Index.step s = 1 ->
  Str.isdigit (Str.strip message) = true ->
  Str.int (Str.strip message) = Raised ValueError ->
  Index.handle_response phone message now stamp w =
  (Returned "Error processing input. Please try again.",
   Index.World
     (<[phone := Index.Session 1 (Index.data s) now]> (Index.sessions w))
     (Index.csv_file w) (Index.port w)).
Proof.
  intros Hs Hstep Hd Hint.
  rewrite (index_step_group_raises _ _ _ _ _ _ Hs Hstep Hd Hint).
  unfold Index.touch. now rewrite Hstep.
Qed.

Lemma index_group_step_error_reply_witness :
  Index.handle_response "265991112222" SUPERSCRIPT_TWO 100 "t"
    (Index.World {[ "265991112222" := Index.Session 1 ∅ 50 ]} None quiet_port) =
  (Returned "Error processing input. Please try again.",
   Index.World
     (<[("265991112222" : string) := Index.Session 1 ∅ 100]>
        {[ "265991112222" := Index.Session 1 ∅ 50 ]})
     None quiet_port).
Proof.
  exact (index_group_step_error_reply "265991112222" SUPERSCRIPT_TWO 100 "t"
           (Index.World {[ "265991112222" := Index.Session 1 ∅ 50 ]} None quiet_port)
           (Index.Session 1 ∅ 50) eq_refl eq_refl eq_refl eq_refl).
Defined.

(** X20. A whole conversation with index.py.  A sender without a
    session sends a text with the trigger, then a group number from 1
    to 17 in decimal digits, no more of them than [int] converts
    (4300), then five texts that, stripped, [isdigit] accepts.  After
    the seventh message the report file has one more row (after the
    header row, when the file is new): the sender, the name
    [groupNames] has for the number, the five answers in the order of
    arrival, stripped, and the time stamp of the last message.  The
    sender's session is gone, the store is as it was before the first
    message, and [handle_response] has not touched the port. *)
Theorem index_conversation_makes_a_report (phone : string) (w : Index.world)
    (hello group a1 a2 a3 a4 a5 : inbound) :
  Index.sessions w !! phone = None ->
  has_trigger (text_of hello) ->
  decimal_text (answer_of group) = true ->
  within_limit (answer_of group) ->
  1 <= Str.decimal_value (answer_of group) <= 17 ->
  Forall (fun i => Str.isdigit (answer_of i) = true) [a1; a2; a3; a4; a5] ->
  Index.sessions (index_feed phone [hello; group; a1; a2; a3; a4; a5] w)
    = Index.sessions w /\
  Index.csv_file (index_feed phone [hello; group; a1; a2; a3; a4; a5] w) =
    index_with_row
      [ phone; index_group_name (Str.decimal_value (answer_of group));
        answer_of a1; answer_of a2; answer_of a3; answer_of a4; answer_of a5;
        stamp_of a5 ]
      (Index.csv_file w) /\
  Index.port (index_feed phone [hello; group; a1; a2; a3; a4; a5] w)
    = Index.port w.
Proof.
  intros Hnone Htrig Hdec Hshort Hrange Hall.
  apply trigger_gate in Htrig.
  apply Forall_cons in Hall as [H1 Hall]. apply Forall_cons in Hall as [H2 Hall].
  apply Forall_cons in Hall as [H3 Hall]. apply Forall_cons in Hall as [H4 Hall].
  apply Forall_cons in Hall as [H5 _].
  unfold answer_of in *. unfold index_feed. cbn [foldl].
  rewrite (index_step_welcome _ _ _ _ _ Hnone Htrig). cbn [snd].
  set (gid := Str.decimal_value (Str.strip (text_of group))) in *.
  match goal with
  | |- context [Index.World (<[phone := ?s]> ?m) ?f ?p] =>
      rewrite (index_step_group phone (text_of group) (time_of group)
                 (stamp_of group) (Index.World (<[phone := s]> m) f p) s gid
                 (lookup_insert_eq _ _ _) eq_refl
                 (decimal_text_isdigit _ Hdec) (int_decimal_text _ Hdec Hshort)
                 Hrange)
  end.
  cbn [snd Index.sessions Index.csv_file Index.port]. rewrite insert_insert_eq.
  do 4 (match goal with
        | |- context [Index.handle_response phone ?t ?n ?st
                        (Index.World (<[phone := ?s]> ?m) ?f ?p)] =>
            destruct (index_step_amount phone t n st
                        (Index.World (<[phone := s]> m) f p) s
                        (lookup_insert_eq _ _ _) ltac:(cbn; lia)
                        ltac:(assumption)) as [? ->]
        end;
        cbn [snd Index.sessions Index.csv_file Index.port];
        rewrite insert_insert_eq).
  match goal with
  | |- context [Index.handle_response phone ?t ?n ?st
                  (Index.World (<[phone := ?s]> ?m) ?f ?p)] =>
      rewrite (index_step_last phone t n st (Index.World (<[phone := s]> m) f p) s
                 (index_group_name gid) (Str.strip (text_of a1))
                 (Str.strip (text_of a2)) (Str.strip (text_of a3))
                 (Str.strip (text_of a4))
                 (lookup_insert_eq _ _ _) eq_refl eq_refl eq_refl eq_refl eq_refl
                 eq_refl H5)
  end.
  cbn [snd Index.sessions Index.csv_file Index.port].
  rewrite delete_insert_eq, (delete_id _ _ Hnone). now repeat split.
Qed.

Lemma index_conversation_makes_a_report_witness :
  Index.sessions
    (index_feed "265991112222"
       [ Inbound "VSLA" 10 "t"; Inbound "3" 20 "t"; Inbound "5000" 30 "t";
         Inbound " 12 " 40 "t"; Inbound "300" 50 "t"; Inbound "0" 60 "t";
         Inbound "250" 70 "t7" ] index_fresh)
    = Index.sessions index_fresh /\
  Index.csv_file
    (index_feed "265991112222"
       [ Inbound "VSLA" 10 "t"; Inbound "3" 20 "t"; Inbound "5000" 30 "t";
         Inbound " 12 " 40 "t"; Inbound "300" 50 "t"; Inbound "0" 60 "t";
         Inbound "250" 70 "t7" ] index_fresh) =
    index_with_row
      [ "265991112222";
        index_group_name (Str.decimal_value (answer_of (Inbound "3" 20 "t")));
        answer_of (Inbound "5000" 30 "t"); answer_of (Inbound " 12 " 40 "t");
        answer_of (Inbound "300" 50 "t"); answer_of (Inbound "0" 60 "t");
        answer_of (Inbound "250" 70 "t7"); stamp_of (Inbound "250" 70 "t7") ]
      (Index.csv_file index_fresh) /\
  Index.port
    (index_feed "265991112222"
       [ Inbound "VSLA" 10 "t"; Inbound "3" 20 "t"; Inbound "5000" 30 "t";
         Inbound " 12 " 40 "t"; Inbound "300" 50 "t"; Inbound "0" 60 "t";
         Inbound "250" 70 "t7" ] index_fresh)
    = Index.port index_fresh.
Proof.
  apply (index_conversation_makes_a_report "265991112222" index_fresh
           (Inbound "VSLA" 10 "t") (Inbound "3" 20 "t") (Inbound "5000" 30 "t")
           (Inbound " 12 " 40 "t") (Inbound "300" 50 "t") (Inbound "0" 60 "t")
           (Inbound "250" 70 "t7")).
  - reflexivity.
  - apply trigger_gate. reflexivity.
  - reflexivity.
  - now vm_compute.
  - change (1 <= 3 <= 17). lia.
  - repeat constructor.
Defined.

(** X21. A fault of the serial line in a worker of index.py.  When the
    exchange of the text-mode command, or after it the exchange of the
    reply, fails, [process_message] raises the port's exception out of
    the worker; the session store and the report file are as
    [handle_response] left them, so the conversation has moved on, and
    the deletion of the message has not been written to the port. *)
Theorem index_worker_port_fault (msg : message) (now : Z) (stamp : string)
    (w : Index.world) :
  Serial.modem (Index.port w) (Serial.exchanges (Index.port w)) = Serial.Fault \/
  Serial.modem (Index.port w) (S (Serial.exchanges (Index.port w))) = Serial.Fault ->
  exists w' l,
    Index.process_message msg now stamp w = (Raised SerialException, w') /\
    Index.sessions w' =
      Index.sessions (Index.handle_response (phone msg) (content msg) now stamp w).2 /\
    Index.csv_file w' =
      Index.csv_file (Index.handle_response (phone msg) (content msg) now stamp w).2 /\
    Serial.wire (Index.port w') = Serial.wire (Index.port w) ++ l /\
    Serial.Command ("AT+CMGD=" +:+ index msg +:+ ",1") ∉ l.
Proof.
  intros Hfault.
  destruct (handle_response_returns (phone msg) (content msg) now stamp w)
    as (reply & w1 & Hh & Hport).
  unfold Index.process_message. rewrite (bind_returned _ _ _ _ _ Hh).
  rewrite Hh. cbn [snd].
  unfold Index.on_port, Index.send_sms, Index.send_at_command, Serial.transact,
    mbind, exec_bind, Exec.bind, Serial.exchange.
  rewrite Hport.
  destruct (Serial.modem (Index.port w) (Serial.exchanges (Index.port w)))
    as [|r] eqn:H0.
  - eexists. exists [Serial.Command "AT+CMGF=1"].
    split; [reflexivity|]. split; [reflexivity|]. split; [reflexivity|].
    split; [reflexivity|]. intros Hin. apply list_elem_of_singleton in Hin.
    discriminate Hin.
  - destruct Hfault as [Hf|Hf]; [discriminate|].
    cbn [Serial.modem Serial.exchanges]. rewrite Hf.
    eexists.
    exists [Serial.Command "AT+CMGF=1";
            Serial.Compose (Serial.with_plus (phone msg)) reply].
    split; [reflexivity|]. split; [reflexivity|]. split; [reflexivity|].
    split; [cbn; now rewrite <- app_assoc|].
    intros Hin. apply elem_of_cons in Hin as [Hin|Hin]; [discriminate Hin|].
    apply list_elem_of_singleton in Hin. discriminate Hin.
Qed.

Lemma index_worker_port_fault_witness :
  exists w' l,
    Index.process_message (Message "4" "265991112222" "VSLA") 100 "t"
      (Index.World ∅ None dead_port) = (Raised SerialException, w') /\
    Index.sessions w' =
      Index.sessions
        (Index.handle_response (phone (Message "4" "265991112222" "VSLA"))
           (content (Message "4" "265991112222" "VSLA")) 100 "t"
           (Index.World ∅ None dead_port)).2 /\
    Index.csv_file w' =
      Index.csv_file
        (Index.handle_response (phone (Message "4" "265991112222" "VSLA"))
           (content (Message "4" "265991112222" "VSLA")) 100 "t"
           (Index.World ∅ None dead_port)).2 /\
    Serial.wire (Index.port w') =
      Serial.wire (Index.port (Index.World ∅ None dead_port)) ++ l /\
    Serial.Command
      ("AT+CMGD=" +:+ index (Message "4" "265991112222" "VSLA") +:+ ",1") ∉ l.
Proof.
  apply (index_worker_port_fault (Message "4" "265991112222" "VSLA") 100 "t"
           (Index.World ∅ None dead_port)).
  left. reflexivity.
Defined.

(** The session that worker leaves: the conversation has moved to the
    group step, though the welcome was never sent. *)
Example index_worker_port_fault_session :
  exists w',
    Index.process_message (Message "4" "265991112222" "VSLA") 100 "t"
      (Index.World ∅ None dead_port) = (Raised SerialException, w') /\
    Index.sessions w' !! "265991112222" = Some (Index.Session 1 ∅ 100).
Proof. eexists. split; [vm_compute; reflexivity | reflexivity]. Qed.

Lemma report_row_missing_key (d : gmap string string) (stamp key : string) :
  key ∈ REPORT_KEYS -> d !! key = None ->
  Index.report_row d stamp = Raised KeyError.
Proof.
  intros Hkey Hnone. unfold Index.report_row, Index.field.
  unfold REPORT_KEYS in Hkey.
  repeat (apply elem_of_cons in Hkey as [->|Hkey]);
    [ .. | now apply elem_of_nil in Hkey ];
    repeat match goal with
           | |- context [d !! ?k] =>
               lazymatch goal with
               | H : d !! k = _ |- _ => rewrite H
               | _ => destruct (d !! k) eqn:?
               end; cbn [rbind]
           end; reflexivity.
Qed.

(** X22. [save_to_csv] of index.py on a dictionary that lacks one of
    the seven keys of a report: it raises [KeyError] and writes no row,
    but a report file that did not exist has been created by then, with
    the header row alone; a file that existed is as it was. *)
Theorem index_save_to_csv_missing_key (d : gmap string string)
    (stamp key : string) (w : Index.world) :
  key ∈ REPORT_KEYS ->
  d !! key = None ->
  Index.save_to_csv d stamp w =
  (Raised KeyError,
   Index.World (Index.sessions w)
     (Some (default [Index.CSV_HEADER] (Index.csv_file w)))
     (Index.port w)).
Proof.
  intros Hkey Hnone. unfold Index.save_to_csv.
  rewrite bind_modify. cbv beta.
  unfold mbind, exec_bind, Exec.bind, Exec.lift.
  rewrite (report_row_missing_key d stamp key Hkey Hnone).
  destruct w as [m [rows|] p]; reflexivity.
Qed.

Lemma index_save_to_csv_missing_key_witness :
  Index.save_to_csv {[ "phone" := "265991112222"; "group_name" := "Ukwe Bank Mkhonde" ]}
    "t" index_fresh =
  (Raised KeyError,
   Index.World (Index.sessions index_fresh)
     (Some (default [Index.CSV_HEADER] (Index.csv_file index_fresh)))
     (Index.port index_fresh)).
Proof.
  apply (index_save_to_csv_missing_key
           {[ "phone" := "265991112222"; "group_name" := "Ukwe Bank Mkhonde" ]}
           "t" "attendance" index_fresh).
  - unfold REPORT_KEYS. set_solver.
  - reflexivity.
Defined.

(** ** What does not depend on the modem *)

Lemma port_blind_ret {A : Type} (a : A) : port_blind (mret a : FullBot.M A).
Proof. intros w1 w2 H. now split. Qed.

Lemma port_blind_raise {A : Type} (e : exn) :
  port_blind (Exec.raise e : FullBot.M A).
Proof. intros w1 w2 H. now split. Qed.

Lemma port_blind_lift {A : Type} (r : result A) :
  port_blind (Exec.lift r : FullBot.M A).
Proof. intros w1 w2 H. now split. Qed.

Lemma port_blind_bind {A B : Type} (m : FullBot.M A) (k : A -> FullBot.M B) :
  port_blind m -> (forall a, port_blind (k a)) -> port_blind (m ≫= k).
Proof.
  intros Hm Hk w1 w2 H. unfold mbind, exec_bind, Exec.bind.
  destruct (Hm w1 w2 H) as [Hr Ha].
  destruct (m w1) as [[a1|e1] v1], (m w2) as [[a2|e2] v2]; cbn in *;
    try discriminate.
  - injection Hr as ->. now apply Hk.
  - injection Hr as ->. now split.
Qed.

(** A send whose outcome is not looked at. *)
Lemma port_blind_send_then {B : Type} (to message : string)
    (k : bool -> FullBot.M B) :
  (forall ok, port_blind (k ok)) -> (forall a b, k a = k b) ->
  port_blind (FullBot.send_sms to message ≫= k).
Proof.
  intros Hk Hsame w1 w2 (Hs & Hc & Ho).
  destruct (send_sms_frame to message w1) as (ok1 & p1 & E1 & _).
  destruct (send_sms_frame to message w2) as (ok2 & p2 & E2 & _).
  rewrite (bind_returned _ _ _ _ _ E1), (bind_returned _ _ _ _ _ E2).
  rewrite (Hsame ok1 ok2). apply Hk.
  split; [exact Hs|]. split; [exact Hc|]. cbn [FullBot.outbox].
  unfold requests in *. rewrite !map_app. cbn. now rewrite Ho.
Qed.

Lemma port_blind_get_session (phone : string) :
  port_blind (FullBot.get_session phone).
Proof.
  intros w1 w2 H. unfold FullBot.get_session.
  destruct H as (Hs & Hrest). rewrite Hs.
  destruct (FullBot.sessions w2 !! phone); (split; [reflexivity|]);
    (split; [exact Hs | exact Hrest]).
Qed.

Lemma port_blind_modify (f : FullBot.world -> FullBot.world) :
  (forall w1 w2, agree w1 w2 -> agree (f w1) (f w2)) ->
  port_blind (Exec.modify f).
Proof. intros Hf w1 w2 H. split; [reflexivity | now apply Hf]. Qed.

Lemma port_blind_update_session (phone : string)
    (f : FullBot.session -> FullBot.session) :
  port_blind (FullBot.update_session phone f).
Proof.
  unfold FullBot.update_session. apply port_blind_bind.
  - apply port_blind_get_session.
  - intros s. apply port_blind_modify.
    intros w1 w2 (Hs & Hc & Ho).
    repeat split; unfold FullBot.set_sessions; cbn;
      try rewrite Hs; first [reflexivity | assumption].
Qed.

Lemma port_blind_handle_message (phone text : string) (now : Z) (stamp : string)
    (w1 w2 : FullBot.world) :
  agree w1 w2 ->
  (FullBot.handle_message phone text now stamp w1).1 =
  (FullBot.handle_message phone text now stamp w2).1 /\
  agree (FullBot.handle_message phone text now stamp w1).2
        (FullBot.handle_message phone text now stamp w2).2.
Proof.
  intros Hagree. pose proof Hagree as (Hs & Hc & Ho).
  unfold FullBot.handle_message. rewrite !bind_get. cbv beta. rewrite Hs.
  destruct (negb _ && negb _); [now split|].
  rewrite !bind_modify. cbv beta.
  match goal with
  | |- (?m ?v1).1 = (?m ?v2).1 /\ _ =>
      cut (port_blind m); [intros Hm; apply Hm |]
  end.
  { repeat split; unfold FullBot.set_sessions; cbn;
      try rewrite Hs; first [reflexivity | assumption]. }
  unfold FullBot.group_number_ok, FullBot.questions_for, FullBot.group_list_for,
    FullBot.save_to_csv.
  repeat lazymatch goal with
         | |- port_blind (FullBot.send_sms _ _ ≫= _) =>
             apply port_blind_send_then; [intros ? | reflexivity]
         | |- port_blind (_ ≫= _) => apply port_blind_bind; [| intros ?]
         | |- port_blind (if ?b then _ else _) => destruct b
         | |- port_blind (match ?x with _ => _ end) => destruct x
         | |- _ =>
             solve [ apply port_blind_ret | apply port_blind_raise
                   | apply port_blind_lift | apply port_blind_get_session
                   | apply port_blind_update_session
                   | apply port_blind_modify; intros ? ? (Hs' & Hc' & Ho');
                     repeat split;
                     unfold FullBot.set_sessions, FullBot.set_csv; cbn;
                     try rewrite Hs'; try rewrite Hc';
                     first [reflexivity | assumption] ]
         end.
Qed.

(** X23. What [handle_message] of fullBot.py does never depends on the
    modem.  On two worlds with the same sessions, the same report file
    and the same texts asked to be sent so far, whatever their serial
    ports answer and whichever sends go through or fail, the handler
    returns or raises the same, leaves the same sessions and the same
    report file, and asks for the same texts to be sent: a conversation
    moves on, and the report is written, also when no reply reaches the
    sender. *)
Theorem outcome_independent_of_modem (phone text : string) (now : Z)
    (stamp : string) (w1 w2 : FullBot.world) :
  FullBot.sessions w1 = FullBot.sessions w2 ->
  FullBot.csv_file w1 = FullBot.csv_file w2 ->
  requests (FullBot.outbox w1) = requests (FullBot.outbox w2) ->
  (FullBot.handle_message phone text now stamp w1).1 =
    (FullBot.handle_message phone text now stamp w2).1 /\
  FullBot.sessions (FullBot.handle_message phone text now stamp w1).2 =
    FullBot.sessions (FullBot.handle_message phone text now stamp w2).2 /\
  FullBot.csv_file (FullBot.handle_message phone text now stamp w1).2 =
    FullBot.csv_file (FullBot.handle_message phone text now stamp w2).2 /\
  requests (FullBot.outbox (FullBot.handle_message phone text now stamp w1).2) =
    requests (FullBot.outbox (FullBot.handle_message phone text now stamp w2).2).
Proof.
  intros Hs Hc Ho.
  apply (port_blind_handle_message phone text now stamp w1 w2).
  now repeat split.
Qed.

Lemma outcome_independent_of_modem_witness :
  (FullBot.handle_message "265991112222" "100" 160 "t7"
     (world_at_last_question ready_port)).1 =
  (FullBot.handle_message "265991112222" "100" 160 "t7"
     (world_at_last_question dead_port)).1 /\
  FullBot.sessions
    (FullBot.handle_message "265991112222" "100" 160 "t7"
       (world_at_last_question ready_port)).2 =
  FullBot.sessions
    (FullBot.handle_message "265991112222" "100" 160 "t7"
       (world_at_last_question dead_port)).2 /\
  FullBot.csv_file
    (FullBot.handle_message "265991112222" "100" 160 "t7"
       (world_at_last_question ready_port)).2 =
  FullBot.csv_file
    (FullBot.handle_message "265991112222" "100" 160 "t7"
       (world_at_last_question dead_port)).2 /\
  requests
    (FullBot.outbox
       (FullBot.handle_message "265991112222" "100" 160 "t7"
          (world_at_last_question ready_port)).2) =
  requests
    (FullBot.outbox
       (FullBot.handle_message "265991112222" "100" 160 "t7"
          (world_at_last_question dead_port)).2).
Proof.
  apply (outcome_independent_of_modem "265991112222" "100" 160 "t7"
           (world_at_last_question ready_port)
           (world_at_last_question dead_port)).
  - reflexivity.
  - reflexivity.
  - reflexivity.
Defined.

(** On the line that is down the report is written all the same, and
    the thanks is asked for and not sent. *)
Example report_saved_on_dead_port :
  exists w',
    FullBot.handle_message "265991112222" "100" 160 "t7"
      (world_at_last_question dead_port) = (Returned tt, w') /\
    FullBot.csv_file w' =
      Some [ FullBot.CSV_HEADER;
             [ "265991112222"; "english"; "Chimnyanga"; "12"; "5000"; "300"; "0";
               "250"; "25"; "100"; "t7" ] ] /\
    FullBot.outbox w' = [SmsCall "265991112222" FullBot.THANK_YOU false].
Proof. eexists. split; [vm_compute; reflexivity|]. split; reflexivity. Qed.

(** ** The listing as the modem writes it, read back *)

Lemma app_cons (c : ascii) (a b : string) :
  String c a +:+ b = String c (a +:+ b).
Proof. reflexivity. Qed.

Lemma app_nil (b : string) : EmptyString +:+ b = b.
Proof. reflexivity. Qed.

Lemma all_c_app (p : ascii -> bool) (a b : string) :
  Str.all_c p (a +:+ b) = Str.all_c p a && Str.all_c p b.
Proof.
  induction a as [|c a IH]; [reflexivity|].
  rewrite app_cons. cbn [Str.all_c]. now rewrite IH, andb_assoc.
Qed.

Lemma all_c_impl (p q : ascii -> bool) (s : string) :
  (forall c, p c = true -> q c = true) ->
  Str.all_c p s = true -> Str.all_c q s = true.
Proof.
  intros Hpq. induction s as [|c s IH]; [reflexivity|]. cbn [Str.all_c].
  intros H. apply andb_true_iff in H as [Hc Hs]. now rewrite (Hpq _ Hc), IH.
Qed.

(** *** Lines *)

Lemma splitlines_line (l r : string) :
  one_line l = true ->
  Str.splitlines (l +:+ CRLF +:+ r) = l :: Str.splitlines r.
Proof.
  unfold one_line. induction l as [|c l IH]; intros H.
  - rewrite app_nil. unfold CRLF, NL. rewrite !app_cons, app_nil. reflexivity.
  - cbn [Str.all_c] in H. apply andb_true_iff in H as [Hc Hl].
    apply negb_true_iff in Hc. rewrite app_cons.
    cbn [Str.splitlines]. now rewrite Hc, (IH Hl).
Qed.

Lemma splitlines_unlines (lines : list string) :
  Forall (fun l => one_line l = true) lines ->
  Str.splitlines (unlines lines) = lines.
Proof.
  induction 1 as [|l rest Hl _ IH]; [reflexivity|].
  cbn [unlines]. now rewrite (splitlines_line _ _ Hl), IH.
Qed.

(** *** The header *)

Lemma rstrip_app_fix (a r : string) :
  Str.rstrip r = r -> r <> EmptyString -> Str.rstrip (a +:+ r) = a +:+ r.
Proof.
  intros Hr Hne. induction a as [|c a IH]; [exact Hr|].
  rewrite app_cons, rstrip_cons, IH. destruct a.
  - rewrite app_nil. destruct r; [contradiction | reflexivity].
  - now rewrite app_cons.
Qed.

Lemma until_app (stop : ascii -> bool) (a r : string) (c : ascii) :
  Str.all_c (fun x => negb (stop x)) a = true -> stop c = true ->
  until stop (a +:+ String c r) = a.
Proof.
  intros Ha Hc. induction a as [|x a IH].
  - rewrite app_nil. cbn. now rewrite Hc.
  - cbn [Str.all_c] in Ha. apply andb_true_iff in Ha as [Hx Ha].
    apply negb_true_iff in Hx. rewrite app_cons. cbn [until].
    now rewrite Hx, (IH Ha).
Qed.

Lemma split_app (sep : ascii) (a r : string) :
  Str.all_c (fun x => negb (Ascii.eqb x sep)) a = true ->
  Str.split sep (a +:+ String sep r) = a :: Str.split sep r.
Proof.
  intros Ha. induction a as [|x a IH].
  - rewrite app_nil. cbn [Str.split]. now rewrite Ascii.eqb_refl.
  - cbn [Str.all_c] in Ha. apply andb_true_iff in Ha as [Hx Ha].
    apply negb_true_iff in Hx. rewrite app_cons.
    cbn [Str.split]. now rewrite Hx, (IH Ha).
Qed.

Lemma replace_end (old : ascii) (s : string) :
  Str.all_c (fun x => negb (Ascii.eqb x old)) s = true ->
  Str.replace old EmptyString (s +:+ String old EmptyString) = s.
Proof.
  intros Hs. induction s as [|x s IH].
  - rewrite app_nil. cbn [Str.replace]. now rewrite Ascii.eqb_refl.
  - cbn [Str.all_c] in Hs. apply andb_true_iff in Hs as [Hx Hs].
    apply negb_true_iff in Hx. rewrite app_cons. cbn [Str.replace].
    now rewrite Hx, (IH Hs).
Qed.

Section Header.

Variables (stamp : string) (m : message).
Hypothesis stamp_ok : one_line stamp = true.
Hypothesis m_ok : message_ok m = true.

Lemma message_ok_fields :
  (Str.strip (index m) = index m /\ Str.all_c field_char (index m) = true) /\
  (Str.strip (phone m) = phone m /\ Str.all_c field_char (phone m) = true) /\
  (Str.strip (content m) = content m /\ one_line (content m) = true).
Proof.
  unfold message_ok, field_ok, text_ok in m_ok.
  apply andb_true_iff in m_ok as [Hip Hc].
  apply andb_true_iff in Hip as [Hi Hp].
  apply andb_true_iff in Hi as [Hi1 Hi2].
  apply andb_true_iff in Hp as [Hp1 Hp2].
  apply andb_true_iff in Hc as [Hc1 Hc2].
  apply String.eqb_eq in Hi1, Hp1, Hc1. auto.
Qed.

Lemma field_one_line (s : string) :
  Str.all_c field_char s = true -> one_line s = true.
Proof.
  apply all_c_impl. intros c. unfold field_char.
  rewrite negb_true_iff, !orb_false_iff. now intros (_ & ->).
Qed.

Lemma header_one_line : one_line (cmgl_header stamp m) = true.
Proof.
  destruct message_ok_fields as ((_ & Hi) & (_ & Hp) & _).
  apply field_one_line in Hi, Hp. unfold one_line in *.
  unfold cmgl_header, quoted.
  repeat (progress (rewrite ?app_cons, ?app_nil, ?all_c_app; cbn [Str.all_c])).
  now rewrite Hi, Hp, stamp_ok.
Qed.

Lemma header_strip : Str.strip (cmgl_header stamp m) = cmgl_header stamp m.
Proof.
  unfold Str.strip.
  assert (Hl : Str.lstrip (cmgl_header stamp m) = cmgl_header stamp m)
    by reflexivity.
  rewrite Hl. unfold cmgl_header, quoted.
  repeat (apply rstrip_app_fix;
          [| match goal with
             | |- ?a +:+ ?b <> EmptyString =>
                 let H := fresh in
                 intros H; destruct a; discriminate H
             | |- _ => discriminate
             end]).
  reflexivity.
Qed.

Lemma header_is_header : is_header (cmgl_header stamp m) = true.
Proof. unfold is_header. now rewrite header_strip. Qed.

Lemma header_index_back : header_index (cmgl_header stamp m) = index m.
Proof.
  destruct message_ok_fields as ((Hstrip & Hi) & _).
  unfold header_index. rewrite header_strip. unfold cmgl_header.
  rewrite !app_cons, app_nil. cbn [drop_chars until Ascii.eqb orb].
  change (Ascii.eqb " " ",") with false. change (Ascii.eqb " " ":") with false.
  cbn [orb].
  rewrite until_app; [| | reflexivity].
  - unfold Str.strip in *. cbn [Str.lstrip]. exact Hstrip.
  - revert Hi. apply all_c_impl. intros c. unfold field_char.
    rewrite !negb_true_iff, !orb_false_iff. now intros ((H & _) & _).
Qed.

Lemma header_split :
  exists rest,
    Str.split "," (cmgl_header stamp m) =
    ("+CMGL: " +:+ index m) :: quoted "REC UNREAD" :: quoted (phone m) :: rest.
Proof.
  destruct message_ok_fields as ((_ & Hi) & (_ & Hp) & _).
  assert (Hcomma : forall s, Str.all_c field_char s = true ->
            Str.all_c (fun x => negb (Ascii.eqb x ",")) s = true).
  { intros s. apply all_c_impl. intros c. unfold field_char.
    rewrite !negb_true_iff, !orb_false_iff. now intros (((-> & _) & _) & _). }
  unfold cmgl_header.
  change ("+CMGL: " +:+ index m +:+ "," +:+ ?r)
    with (("+CMGL: " +:+ index m) +:+ String "," r).
  rewrite split_app.
  2:{ rewrite all_c_app, (Hcomma _ Hi). reflexivity. }
  change (quoted "REC UNREAD" +:+ "," +:+ ?r)
    with (quoted "REC UNREAD" +:+ String "," r).
  rewrite split_app by reflexivity.
  change (quoted (phone m) +:+ ",," +:+ ?r)
    with (quoted (phone m) +:+ String "," (String "," r)).
  rewrite split_app.
  2:{ unfold quoted. rewrite app_cons. cbn [Str.all_c].
      rewrite all_c_app, (Hcomma _ Hp). reflexivity. }
  eauto.
Qed.

Lemma header_sender_back : header_sender (cmgl_header stamp m) = phone m.
Proof.
  destruct message_ok_fields as (_ & (Hstrip & Hp) & _).
  unfold header_sender. rewrite header_strip.
  destruct header_split as [rest ->].
  unfold quoted. rewrite app_cons. cbn [Str.replace].
  rewrite Ascii.eqb_refl, app_nil, replace_end; [exact Hstrip|].
  revert Hp. apply all_c_impl. intros c. unfold field_char.
  rewrite !negb_true_iff, !orb_false_iff. now intros ((_ & ->) & _).
Qed.

Lemma header_three_fields :
  (3 <=? Z.of_nat (length (Str.split "," (Str.strip (cmgl_header stamp m))))) = true.
Proof.
  rewrite header_strip. destruct header_split as [rest ->].
  apply Z.leb_le. cbn [length]. lia.
Qed.

Lemma message_back :
  message_of (cmgl_header stamp m) (Some (content m)) = m.
Proof.
  destruct message_ok_fields as (_ & _ & (Hstrip & _)).
  unfold message_of. rewrite header_index_back, header_sender_back.
  cbn [default from_option id]. rewrite Hstrip. now destruct m.
Qed.

End Header.

Lemma records_listing (stamp : string) (msgs : list message) (trailer : list string) :
  one_line stamp = true ->
  Forall (fun m => message_ok m = true) msgs ->
  records (flat_map (fun m => [cmgl_header stamp m; content m]) msgs ++ trailer)
    = msgs ++ records trailer /\
  headers_complete
    (flat_map (fun m => [cmgl_header stamp m; content m]) msgs ++ trailer)
    = headers_complete trailer /\
  (Forall (fun l => one_line l = true) trailer ->
   Forall (fun l => one_line l = true)
     (flat_map (fun m => [cmgl_header stamp m; content m]) msgs ++ trailer)).
Proof.
  intros Hstamp Hall. induction Hall as [|m rest Hm _ (IH1 & IH2 & IH3)].
  - now repeat split.
  - cbn [flat_map app records headers_complete].
    rewrite (header_is_header stamp m), (header_three_fields stamp m Hm).
    rewrite (message_back stamp m Hm), IH1, IH2.
    split; [reflexivity|]. split; [reflexivity|]. intros Ht.
    constructor; [now apply header_one_line|].
    constructor; [|now apply IH3].
    now destruct (message_ok_fields m Hm) as (_ & _ & (_ & ?)).
Qed.

(** X24. The listing read back.  For any messages whose index and
    sender have no blanks around them and hold no comma, colon, quote
    character or line boundary, and whose text is one line without
    blanks around it, [read_sms] of both scripts, given the modem's
    answer in the format of the text mode (for each message the line
    [+CMGL: index,"REC UNREAD","sender",,"time stamp"] and the line of
    its text, then an empty line and [OK], each line ended by CR LF),
    returns exactly these messages, in their order. *)
Theorem read_sms_decodes_listing (stamp : string) (msgs : list message) :
  one_line stamp = true ->
  Forall (fun m => message_ok m = true) msgs ->
  FullBot.parse_unread (listing_of stamp msgs) = Some (Returned msgs) /\
  Index.parse_unread (listing_of stamp msgs) = Some (Returned msgs).
Proof.
  intros Hs Hall.
  destruct (records_listing stamp msgs [EmptyString; "OK"] Hs Hall)
    as (Hr & Hc & Hl).
  assert (Hlines : Str.splitlines (listing_of stamp msgs) =
            flat_map (fun m => [cmgl_header stamp m; content m]) msgs
            ++ [EmptyString; "OK"]).
  { apply splitlines_unlines, Hl. repeat constructor. }
  split.
  - rewrite fullbot_parse_records, Hlines, Hr. cbn [records].
    change (is_header EmptyString) with false. change (is_header "OK") with false.
    now rewrite app_nil_r.
  - rewrite index_parse_records; rewrite Hlines; [|now rewrite Hc].
    rewrite Hr. cbn [records].
    change (is_header EmptyString) with false. change (is_header "OK") with false.
    now rewrite app_nil_r.
Qed.

Lemma read_sms_decodes_listing_witness :
  FullBot.parse_unread
    (listing_of "25/03/01,10:15:00+08"
       [ Message "1" "+265991112222" "VSLA report";
         Message "2" "+265993334444" "12" ]) =
    Some (Returned [ Message "1" "+265991112222" "VSLA report";
                     Message "2" "+265993334444" "12" ]) /\
  Index.parse_unread
    (listing_of "25/03/01,10:15:00+08"
       [ Message "1" "+265991112222" "VSLA report";
         Message "2" "+265993334444" "12" ]) =
    Some (Returned [ Message "1" "+265991112222" "VSLA report";
                     Message "2" "+265993334444" "12" ]).
Proof.
  apply (read_sms_decodes_listing "25/03/01,10:15:00+08"
           [ Message "1" "+265991112222" "VSLA report";
             Message "2" "+265993334444" "12" ]).
  - reflexivity.
  - repeat constructor.
Defined.

(** The answer of that witness, as the modem writes it. *)
Example listing_of_sample :
  listing_of "25/03/01,10:15:00+08" [Message "1" "+265991112222" "VSLA report"] =
  "+CMGL: 1," +:+ quoted "REC UNREAD" +:+ "," +:+ quoted "+265991112222" +:+ ",,"
    +:+ quoted "25/03/01,10:15:00+08" +:+ CRLF +:+ "VSLA report" +:+ CRLF
    +:+ CRLF +:+ "OK" +:+ CRLF.
Proof. reflexivity. Qed.

(** ** What the sessions of index.py always hold *)

(** Step 0 with a session: the hint again, or the welcome. *)
Lemma index_step_zero (phone message : string) (now : Z) (stamp : string)
    (w : Index.world) (s : Index.session) :
  Index.sessions w !! phone = Some s ->
  Index.step s = 0 ->
  exists reply s',
    Index.handle_response phone message now stamp w =
    (Returned reply,
     Index.World (<[phone := s']> (Index.sessions w))
       (Index.csv_file w) (Index.port w)) /\
    (s' = Index.touch now s \/ s' = Index.set_step 1 (Index.touch now s)).
Proof.
  intros Hs Hstep. index_enter Hs. rewrite Hstep. cbn [Z.eqb].
  destruct (Str.contains "vsla" (Str.lower (Str.strip message)));
    exec_index; index_done; do 2 eexists; (split; [reflexivity|]); auto.
Qed.

Lemma step_key_data (s : Index.session) (k : Z) (key value : string) :
  is_Some (Index.data s !! step_key k) ->
  is_Some (<[key := value]> (Index.data s) !! step_key k).
Proof.
  intros H. destruct (decide (key = step_key k)) as [->|Hne].
  - rewrite lookup_insert_eq. eauto.
  - now rewrite lookup_insert_ne.
Qed.

Lemma index_sound_complete (s : Index.session) :
  index_session_sound s -> Index.step s = 6 -> data_complete (Index.data s).
Proof.
  intros [_ Hkeys] H6. rewrite H6 in Hkeys.
  repeat split;
    [ apply (Hkeys 1) | apply (Hkeys 2) | apply (Hkeys 3) | apply (Hkeys 4)
    | apply (Hkeys 5) ]; lia.
Qed.

(** One message keeps every session of index.py's store sound. *)
Lemma handle_response_keeps_store_sound (phone message : string) (now : Z)
    (stamp : string) (w : Index.world) :
  index_store_sound w ->
  index_store_sound (Index.handle_response phone message now stamp w).2.
Proof.
  intros Hok.
  assert (Hins : forall s' reply f p0,
            Index.handle_response phone message now stamp w =
              (Returned reply,
               Index.World (<[phone := s']> (Index.sessions w)) f p0) ->
            index_session_sound s' ->
            index_store_sound (Index.handle_response phone message now stamp w).2).
  { intros s' reply f p0 -> Hs' p s. cbn.
    destruct (decide (phone = p)) as [->|Hne].
    - rewrite lookup_insert_eq. now intros [= <-].
    - rewrite lookup_insert_ne by exact Hne. apply Hok. }
  destruct (Index.sessions w !! phone) as [s|] eqn:Hs.
  2:{ destruct (Str.contains "vsla" (Str.lower (Str.strip message))) eqn:Ht.
      - eapply Hins; [now apply index_step_welcome|].
        split; [cbn; lia|]. intros k Hk. cbn in Hk. lia.
      - eapply Hins; [now apply index_step_hint|].
        split; [cbn; lia|]. intros k Hk. cbn in Hk. lia. }
  pose proof (Hok _ _ Hs) as [Hrange Hkeys].
  assert (Htouch : index_session_sound (Index.touch now s)) by (now split).
  destruct (decide (Index.step s = 0)) as [H0|H0].
  { destruct (index_step_zero phone message now stamp w s Hs H0)
      as (reply & s' & E & [-> | ->]).
    - eapply Hins; [exact E | exact Htouch].
    - eapply Hins; [exact E|]. split; [cbn; lia|]. intros k Hk. cbn in Hk. lia. }
  assert (Hplace : forall reply,
            Index.handle_response phone message now stamp w =
              (Returned reply,
               Index.World (<[phone := Index.touch now s]> (Index.sessions w))
                 (Index.csv_file w) (Index.port w)) ->
            index_store_sound (Index.handle_response phone message now stamp w).2).
  { intros reply E. eapply Hins; [exact E | exact Htouch]. }
  destruct (Str.isdigit (Str.strip message)) eqn:Hd.
  2:{ destruct (index_step_invalid phone message now stamp w s Hs ltac:(lia))
        as [reply E]; [now left|]. now apply (Hplace reply). }
  destruct (decide (Index.step s = 1)) as [H1|H1].
  { destruct (Str.int (Str.strip message)) as [gid|e] eqn:Hint.
    - destruct (decide (1 <= gid <= 17)) as [Hr|Hr].
      + eapply Hins; [now apply (index_step_group _ _ _ _ _ s gid)|].
        split; [cbn; lia|]. intros k Hk. cbn in Hk.
        assert (k = 1) as -> by lia. cbn. rewrite lookup_insert_eq. eauto.
      + destruct (index_step_invalid phone message now stamp w s Hs ltac:(lia))
          as [reply E]; [right; eauto|]. now apply (Hplace reply).
    - assert (e = ValueError) as ->.
      { exact (int_raises _ _ Hint). }
      apply (Hplace Index.ERROR_REPLY).
      now apply index_step_group_raises. }
  destruct (decide (Index.step s = 6)) as [H6|H6].
  { destruct (index_sound_complete s (conj Hrange Hkeys) H6)
      as ([g Hg] & [a Ha] & [b Hb] & [c Hc] & [d Hdd]).
    rewrite (index_step_last phone message now stamp w s g a b c d Hs H6
               Hg Ha Hb Hc Hdd Hd).
    intros p s'. cbn. destruct (decide (phone = p)) as [->|Hne].
    - now rewrite lookup_delete_eq.
    - rewrite lookup_delete_ne by exact Hne. apply Hok. }
  destruct (index_step_amount phone message now stamp w s Hs ltac:(lia) Hd)
    as [reply E].
  eapply Hins; [exact E|]. split; [cbn; lia|]. intros k Hk. cbn in Hk.
  cbn [Index.data Index.set_step Index.set_data Index.touch].
  destruct (decide (k = Index.step s)) as [->|Hne].
  - unfold step_key. rewrite (proj2 (Z.eqb_neq _ 1)) by lia.
    rewrite lookup_insert_eq. eauto.
  - apply step_key_data. apply Hkeys. lia.
Qed.

Lemma index_serve_snoc (arrivals : list arrival) (a : arrival) (w : Index.world) :
  index_serve (arrivals ++ [a]) w =
  (Index.handle_response (sender_of a) (text_of (inbound_of a))
     (time_of (inbound_of a)) (stamp_of (inbound_of a)) (index_serve arrivals w)).2.
Proof. unfold index_serve. now rewrite foldl_app. Qed.

Lemma index_serve_keeps_store_sound (arrivals : list arrival) (w : Index.world) :
  index_store_sound w -> index_store_sound (index_serve arrivals w).
Proof.
  intros Hw. induction arrivals as [|a arrivals IH] using rev_ind; [exact Hw|].
  rewrite index_serve_snoc. now apply handle_response_keeps_store_sound.
Qed.

(** X25. The session store of index.py stays sound: if every session is
    at a step from 0 to 6 and holds, under the key of each step it has
    passed ("group_name" for the group step, then "amount_saved",
    "attendance", "social_fund", "loans_taken"), what that step
    recorded, then so does every session after any sequence of messages
    of any senders, handled one after the other, also through the runs
    that end in the error reply. *)
Theorem index_store_sound_invariant (arrivals : list arrival) (w : Index.world) :
  index_store_sound w -> index_store_sound (index_serve arrivals w).
Proof. apply index_serve_keeps_store_sound. Qed.

Lemma index_store_sound_invariant_witness :
  index_store_sound (index_serve arrivals_to_last index_fresh).
Proof.
  apply (index_store_sound_invariant arrivals_to_last index_fresh).
  intros p s H. cbn in H. rewrite lookup_empty in H. discriminate H.
Defined.

(** The store that witness leaves. *)
Example index_store_after_nine_messages :
  Index.sessions (index_serve arrivals_to_last index_fresh) =
  {[ "265991112222" := index_session_at_last;
     "265993334444" := Index.Session 0 ∅ 11 ]}.
Proof. vm_compute. reflexivity. Qed.

(** X26. The report of index.py is never lost to a missing answer.  In
    a store that started sound (the empty store of a start of the
    program is) and has handled any sequence of messages of any senders
    since, a sender at the last step whose text, stripped, [isdigit]
    accepts always gets the thanks: the [KeyError] of [save_to_csv]
    cannot arise.  The report file gets one row of the sender, five
    recorded answers, this text stripped and the time stamp, the session
    is deleted, and the port is untouched. *)
Theorem index_report_always_written (arrivals : list arrival) (w : Index.world)
    (phone message : string) (now : Z) (stamp : string) (s : Index.session) :
  index_store_sound w ->
  Index.sessions (index_serve arrivals w) !! phone = Some s ->
  Index.step s = 6 ->
  Str.isdigit (Str.strip message) = true ->
  exists g a b c d,
    Index.data s !! "group_name" = Some g /\
    Index.data s !! "amount_saved" = Some a /\
    Index.data s !! "attendance" = Some b /\
    Index.data s !! "social_fund" = Some c /\
    Index.data s !! "loans_taken" = Some d /\
    Index.handle_response phone message now stamp (index_serve arrivals w) =
    (Returned "Thank you! Your report has been received.",
     Index.World (delete phone (Index.sessions (index_serve arrivals w)))
       (index_with_row [phone; g; a; b; c; d; Str.strip message; stamp]
          (Index.csv_file (index_serve arrivals w)))
       (Index.port (index_serve arrivals w))).
Proof.
  intros Hw Hs H6 Hd.
  pose proof (index_serve_keeps_store_sound arrivals w Hw phone s Hs) as Hsound.
  destruct (index_sound_complete s Hsound H6)
    as ([g Hg] & [a Ha] & [b Hb] & [c Hc] & [d Hdd]).
  exists g, a, b, c, d. repeat (split; [assumption|]).
  exact (index_step_last phone message now stamp (index_serve arrivals w) s
           g a b c d Hs H6 Hg Ha Hb Hc Hdd Hd).
Qed.

Lemma index_report_always_written_witness :
  exists g a b c d,
    Index.data index_session_at_last !! "group_name" = Some g /\
    Index.data index_session_at_last !! "amount_saved" = Some a /\
    Index.data index_session_at_last !! "attendance" = Some b /\
    Index.data index_session_at_last !! "social_fund" = Some c /\
    Index.data index_session_at_last !! "loans_taken" = Some d /\
    Index.handle_response "265991112222" " 9 " 80 "t"
      (index_serve arrivals_to_last index_fresh) =
    (Returned "Thank you! Your report has been received.",
     Index.World
       (delete "265991112222"
          (Index.sessions (index_serve arrivals_to_last index_fresh)))
       (index_with_row
          ["265991112222"; g; a; b; c; d; Str.strip " 9 "; "t"]
          (Index.csv_file (index_serve arrivals_to_last index_fresh)))
       (Index.port (index_serve arrivals_to_last index_fresh))).
Proof.
  refine (index_report_always_written arrivals_to_last index_fresh
            "265991112222" " 9 " 80 "t" index_session_at_last _ _ eq_refl eq_refl).
  - intros p s H. cbn in H. rewrite lookup_empty in H. discriminate H.
  - vm_compute. reflexivity.
Defined.

(** The row that witness writes. *)
Example index_report_of_sample :
  Index.csv_file
    (Index.handle_response "265991112222" " 9 " 80 "t"
       (index_serve arrivals_to_last index_fresh)).2 =
  Some [ Index.CSV_HEADER;
         [ "265991112222"; "Kanjeza H&C Women's Group"; "40"; "5"; "6"; "7";
           "9"; "t" ] ].
Proof. vm_compute. reflexivity. Qed.
